(** * Todo store, intent resolver and action executor

    A shallow embedding of the repository's Python sources:

    - [database.py] and [models.py]: the module-level store behind the HTTP
      routes and behind [SimpleGeminiClient];
    - [simple_gemini_client.py]: prompt, reply decoding and action dispatch
      over that store;
    - [todo_app.py]: the self-contained [TodoApp] class with its own store
      and its own dispatch.

    Python integers are unbounded, so ids are [Z].  A [datetime] is a point
    on the clock's time line, modelled as a [Z] (say, microseconds); every
    [datetime.now()] of the source becomes a clock reading handed to the
    function that takes it.  The store globals ([todos_db], [next_id]) and
    the attributes of a [TodoApp] instance are threaded explicitly: a
    function that may touch them takes the state and returns the result
    together with the state after the call. *)

From Stdlib Require Import ZArith QArith List String Bool Lia Sorted.
Import ListNotations.
Local Open Scope string_scope.
Local Open Scope list_scope.
Local Open Scope Z_scope.
#[local] Set Warnings "-register-all".

(** ** Python values *)

(** The values [json.loads] builds, which the dispatch code passes around
    untyped.  A [PFloat] carries the exact value of a finite double; a
    [PDict] lists its items in order, a key occurring once. *)
Module Py.

Inductive value : Type :=
| PNone
| PBool (b : bool)
| PInt (n : Z)
| PFloat (q : Q)
| PStr (s : string)
| PList (l : list value)
| PDict (d : list (string * value)).

(** [bool(v)], the test behind [if v:] and [if not v:]. *)
Definition truthy (v : value) : bool :=
  match v with
  | PNone => false
  | PBool b => b
  | PInt n => negb (n =? 0)
  | PFloat q => negb (Qeq_bool q 0)
  | PStr s => negb (s =? "")%string
  | PList l => match l with [] => false | _ => true end
  | PDict d => match d with [] => false | _ => true end
  end.

(** [n == v] for an [int] on the left: numbers compare by value, [True] and
    [False] are the integers 1 and 0, everything else differs. *)
Definition eq_int (n : Z) (v : value) : bool :=
  match v with
  | PInt m => n =? m
  | PBool b => n =? (if b then 1 else 0)
  | PFloat q => Qeq_bool (inject_Z n) q
  | _ => false
  end.

(** [v == s] for a string literal [s]. *)
Definition eq_str (v : value) (s : string) : bool :=
  match v with
  | PStr s' => (s' =? s)%string
  | _ => false
  end.

(** Lists and dicts are unhashable: using one as a dict key raises
    [TypeError]. *)
Definition hashable (v : value) : bool :=
  match v with
  | PList _ | PDict _ => false
  | _ => true
  end.

(** [isinstance(v, dict)]: only a dict has the [.get] the code calls. *)
Definition is_dict (v : value) : bool :=
  match v with
  | PDict _ => true
  | _ => false
  end.

Fixpoint lookup (k : string) (d : list (string * value)) : option value :=
  match d with
  | [] => None
  | (k', v) :: d' => if (k' =? k)%string then Some v else lookup k d'
  end.

(** [d.get(k)] *)
Definition get (d : list (string * value)) (k : string) : value :=
  match lookup k d with Some v => v | None => PNone end.

(** [d.get(k, default)] *)
Definition get_default (d : list (string * value)) (k : string) (default : value) : value :=
  match lookup k d with Some v => v | None => default end.

(** The exceptions the modelled code can meet. *)
Inductive exn : Type :=
| ServiceException   (* raised by the text-generation call or by [response.text] *)
| JSONDecodeError    (* [json.loads] on text that is not JSON *)
| AttributeError     (* [.get] on a value that is not a dict *)
| ValueError         (* [TodoStatus(v)] for [v] outside the enum *)
| ValidationError    (* pydantic rejecting a field value *)
| TypeError.         (* an unhashable value used as a dict key *)

End Py.

(** ** [models.py] and [database.py] *)

Module database.

Inductive TodoStatus : Type := PENDING | IN_PROGRESS | COMPLETED.

(** [TodoStatus.value] *)
Definition TodoStatus_value (st : TodoStatus) : string :=
  match st with
  | PENDING => "pending"
  | IN_PROGRESS => "in_progress"
  | COMPLETED => "completed"
  end.

(** [TodoStatus(v)]: the member whose value equals [v]; [None] stands for
    the [ValueError] the enum raises on any other argument. *)
Definition TodoStatus_call (v : Py.value) : option TodoStatus :=
  if Py.eq_str v "pending" then Some PENDING
  else if Py.eq_str v "in_progress" then Some IN_PROGRESS
  else if Py.eq_str v "completed" then Some COMPLETED
  else None.

(** [class Todo(TodoBase)].  The model does not validate on assignment, and
    [update_todo] assigns whatever a [TodoUpdate] carries, an explicit
    [None] included: the three base fields are optional here. *)
Record Todo : Type := mkTodo {
  id : Z;
  title : option string;
  description : option string;
  status : option TodoStatus;
  created_at : Z;
  updated_at : Z
}.

(** [class TodoCreate(TodoBase)] *)
Record TodoCreate : Type := mkTodoCreate {
  c_title : string;
  c_description : option string;
  c_status : TodoStatus
}.

(** [class TodoUpdate(BaseModel)].  Each field is either unset ([None]
    here) or set to an optional value ([Some None] is an explicit Python
    [None]); [dict(exclude_unset=True)] keeps exactly the set ones. *)
Record TodoUpdate : Type := mkTodoUpdate {
  u_title : option (option string);
  u_description : option (option string);
  u_status : option (option TodoStatus)
}.

(** The module globals. *)
Record Store : Type := mkStore {
  todos_db : list Todo;
  next_id : Z
}.

(** The globals as the module body initialises them. *)
Definition init : Store := mkStore [] 1.

Definition get_todos (s : Store) : list Todo * Store :=
  (todos_db s, s).

(** The [for todo in todos_db] search of [get_todo]. *)
Fixpoint find_todo (todo_id : Py.value) (l : list Todo) : option Todo :=
  match l with
  | [] => None
  | todo :: l' => if Py.eq_int (id todo) todo_id then Some todo else find_todo todo_id l'
  end.

Definition get_todo (todo_id : Py.value) (s : Store) : option Todo * Store :=
  (find_todo todo_id (todos_db s), s).

Definition create_todo (todo_data : TodoCreate) (now : Z) (s : Store) : Todo * Store :=
  let todo := mkTodo (next_id s) (Some (c_title todo_data)) (c_description todo_data)
                     (Some (c_status todo_data)) now now in
  (todo, mkStore (todos_db s ++ [todo]) (next_id s + 1)).

(** [for field, value in update_data.items(): setattr(todo, field, value)]
    followed by [todo.updated_at = datetime.now()]. *)
Definition apply_update (todo_data : TodoUpdate) (now : Z) (todo : Todo) : Todo :=
  mkTodo (id todo)
         (match u_title todo_data with Some v => v | None => title todo end)
         (match u_description todo_data with Some v => v | None => description todo end)
         (match u_status todo_data with Some v => v | None => status todo end)
         (created_at todo)
         now.

(** The [for i, todo in enumerate(todos_db)] loop of [update_todo]: the
    first record with the id is rewritten in place and returned. *)
Fixpoint update_loop (todo_id : Py.value) (todo_data : TodoUpdate) (now : Z)
    (l : list Todo) : option (Todo * list Todo) :=
  match l with
  | [] => None
  | todo :: l' =>
      if Py.eq_int (id todo) todo_id then
        let todo' := apply_update todo_data now todo in
        Some (todo', todo' :: l')
      else
        match update_loop todo_id todo_data now l' with
        | Some (r, l'') => Some (r, todo :: l'')
        | None => None
        end
  end.

Definition update_todo (todo_id : Py.value) (todo_data : TodoUpdate) (now : Z)
    (s : Store) : option Todo * Store :=
  match update_loop todo_id todo_data now (todos_db s) with
  | Some (todo, l) => (Some todo, mkStore l (next_id s))
  | None => (None, s)
  end.

(** The loop of [delete_todo]: [pop] the first record with the id. *)
Fixpoint delete_loop (todo_id : Py.value) (l : list Todo) : option (list Todo) :=
  match l with
  | [] => None
  | todo :: l' =>
      if Py.eq_int (id todo) todo_id then Some l'
      else match delete_loop todo_id l' with
           | Some l'' => Some (todo :: l'')
           | None => None
           end
  end.

Definition delete_todo (todo_id : Py.value) (s : Store) : bool * Store :=
  match delete_loop todo_id (todos_db s) with
  | Some l => (true, mkStore l (next_id s))
  | None => (false, s)
  end.

(** One call on the store, with the clock reading it takes when it takes
    one, and what the call returns. *)
Inductive call : Type :=
| GetTodos
| GetTodo (todo_id : Py.value)
| CreateTodo (todo_data : TodoCreate) (now : Z)
| UpdateTodo (todo_id : Py.value) (todo_data : TodoUpdate) (now : Z)
| DeleteTodo (todo_id : Py.value).

Inductive response : Type :=
| RTodos (l : list Todo)
| RFound (r : option Todo)
| RCreated (todo : Todo)
| RUpdated (r : option Todo)
| RDeleted (b : bool).

Definition step (c : call) (s : Store) : response * Store :=
  match c with
  | GetTodos => let (l, s') := get_todos s in (RTodos l, s')
  | GetTodo i => let (r, s') := get_todo i s in (RFound r, s')
  | CreateTodo d now => let (t, s') := create_todo d now s in (RCreated t, s')
  | UpdateTodo i d now => let (r, s') := update_todo i d now s in (RUpdated r, s')
  | DeleteTodo i => let (b, s') := delete_todo i s in (RDeleted b, s')
  end.

(** A session: the calls in order, each on the state the previous left. *)
Fixpoint run (cs : list call) (s : Store) : list response * Store :=
  match cs with
  | [] => ([], s)
  | c :: cs' =>
      let (r, s1) := step c s in
      let (rs, s2) := run cs' s1 in
      (r :: rs, s2)
  end.

Definition is_read (c : call) : bool :=
  match c with
  | GetTodos | GetTodo _ => true
  | _ => false
  end.

(** The ids of the todos the [create_todo] calls of a session returned. *)
Fixpoint created_ids (rs : list response) : list Z :=
  match rs with
  | [] => []
  | RCreated t :: rs' => id t :: created_ids rs'
  | _ :: rs' => created_ids rs'
  end.

(** The clock readings a session takes, in order. *)
Fixpoint readings (cs : list call) : list Z :=
  match cs with
  | [] => []
  | CreateTodo _ now :: cs' => now :: readings cs'
  | UpdateTodo _ _ now :: cs' => now :: readings cs'
  | _ :: cs' => readings cs'
  end.

(** The states a process can be in: those some session reaches from the
    initial globals. *)
Definition reachable (s : Store) : Prop :=
  exists cs, snd (run cs init) = s.

(** Ids in the collection are pairwise distinct and below the counter. *)
Definition wf (s : Store) : Prop :=
  NoDup (map id (todos_db s)) /\ Forall (fun t => id t < next_id s) (todos_db s).

(** Every record was stamped by the clock no later than [c], and never
    updated before it was created. *)
Definition stamped (c : Z) (s : Store) : Prop :=
  Forall (fun t => created_at t <= updated_at t <= c) (todos_db s).

End database.

(** ** [simple_gemini_client.py] *)

Module simple_gemini_client.
Import database.

(** What [execute_action] and [process_natural_language] return is a
    message; the model keeps which [return] produced it and the data the
    message is formatted from. *)
Inductive result : Type :=
| NoTodosFound
| AllTodos (l : list Todo)
| TodoIdRequired
| TodoNotFound (todo_id : Py.value)
| TodoDetails (todo : Todo)
| TitleRequired
| CreatedTodo (todo : Todo)
| ErrorCreating (e : Py.exn)
| UpdatedTodo (todo : Todo)
| DeletedTodo (todo_id : Py.value)
| UnknownAction (action : Py.value)
| ErrorExecuting (e : Py.exn)
| ErrorParsing
| ErrorProcessing (e : Py.exn).

Section Client.

(** The text-generation service: the reply text for the prompt rendered
    from the current todos and the user's sentence, or [None] when the call
    or [response.text] raises. *)
Variable generate_content : list Todo -> string -> option string.

(** [str.strip] and [json.loads] ([None] for [JSONDecodeError]). *)
Variable strip : string -> string.
Variable json_loads : string -> option Py.value.

(** pydantic's validation of a value for a [str] field; which values other
    than strings it accepts, and as what, depends on its version. *)
Variable coerce_str : Py.value -> option string.

(** Validation for an [Optional[str]] field. *)
Definition validate_optional_str (v : Py.value) : option (option string) :=
  match v with
  | Py.PNone => Some None
  | _ => match coerce_str v with Some s => Some (Some s) | None => None end
  end.

(** [if k in parameters: update_data[k] = parameters[k]], then the field's
    validation when [TodoUpdate] is built from [update_data]: [Some None]
    leaves the field unset, the outer [None] is a [ValidationError]. *)
Definition update_field (parameters : list (string * Py.value)) (k : string)
    : option (option (option string)) :=
  match Py.lookup k parameters with
  | None => Some None
  | Some v => match validate_optional_str v with
              | Some x => Some (Some x)
              | None => None
              end
  end.

(** [if "status" in parameters: update_data["status"] = TodoStatus(...)];
    the outer [None] is the enum's [ValueError]. *)
Definition update_status (parameters : list (string * Py.value))
    : option (option (option TodoStatus)) :=
  match Py.lookup "status" parameters with
  | None => Some None
  | Some v => match TodoStatus_call v with
              | Some st => Some (Some (Some st))
              | None => None
              end
  end.

(** [now] is what the clock reads if the action reaches [create_todo] or
    the assignment in [update_todo], the only places that read it. *)
Definition execute_action (action parameters : Py.value) (now : Z) (s : Store)
    : result * Store :=
  if Py.eq_str action "list_todos" then
    let (todos, s1) := get_todos s in
    match todos with
    | [] => (NoTodosFound, s1)
    | _ => (AllTodos todos, s1)
    end
  else if Py.eq_str action "get_todo" then
    match parameters with
    | Py.PDict d =>
        let todo_id := Py.get d "todo_id" in
        if negb (Py.truthy todo_id) then (TodoIdRequired, s)
        else
          let (r, s1) := get_todo todo_id s in
          match r with
          | None => (TodoNotFound todo_id, s1)
          | Some todo => (TodoDetails todo, s1)
          end
    | _ => (ErrorExecuting Py.AttributeError, s)
    end
  else if Py.eq_str action "create_todo" then
    match parameters with
    | Py.PDict d =>
        let title := Py.get d "title" in
        if negb (Py.truthy title) then (TitleRequired, s)
        else
          let description := Py.get_default d "description" (Py.PStr "") in
          let status := Py.get_default d "status" (Py.PStr "pending") in
          match TodoStatus_call status with
          | None => (ErrorCreating Py.ValueError, s)
          | Some st =>
              match coerce_str title, validate_optional_str description with
              | Some t, Some desc =>
                  let (todo, s1) := create_todo (mkTodoCreate t desc st) now s in
                  (CreatedTodo todo, s1)
              | _, _ => (ErrorCreating Py.ValidationError, s)
              end
          end
    | _ => (ErrorExecuting Py.AttributeError, s)
    end
  else if Py.eq_str action "update_todo" then
    match parameters with
    | Py.PDict d =>
        let todo_id := Py.get d "todo_id" in
        if negb (Py.truthy todo_id) then (TodoIdRequired, s)
        else
          match update_status d with
          | None => (ErrorExecuting Py.ValueError, s)
          | Some st =>
              match update_field d "title", update_field d "description" with
              | Some t, Some desc =>
                  let (r, s1) := update_todo todo_id (mkTodoUpdate t desc st) now s in
                  match r with
                  | None => (TodoNotFound todo_id, s1)
                  | Some todo => (UpdatedTodo todo, s1)
                  end
              | _, _ => (ErrorExecuting Py.ValidationError, s)
              end
          end
    | _ => (ErrorExecuting Py.AttributeError, s)
    end
  else if Py.eq_str action "delete_todo" then
    match parameters with
    | Py.PDict d =>
        let todo_id := Py.get d "todo_id" in
        if negb (Py.truthy todo_id) then (TodoIdRequired, s)
        else
          let (success, s1) := delete_todo todo_id s in
          if success then (DeletedTodo todo_id, s1) else (TodoNotFound todo_id, s1)
    | _ => (ErrorExecuting Py.AttributeError, s)
    end
  else (UnknownAction action, s).

(** [process_natural_language], with the method it hands the decoded reply
    to ([self.execute_action]) as a parameter. *)
Definition process_natural_language_with
    (exec : Py.value -> Py.value -> Z -> Store -> result * Store)
    (user_input : string) (now : Z) (s : Store) : result * Store :=
  let (todos, s0) := get_todos s in
  match generate_content todos user_input with
  | None => (ErrorProcessing Py.ServiceException, s0)
  | Some text =>
      match json_loads (strip text) with
      | None => (ErrorParsing, s0)
      | Some (Py.PDict action_data) =>
          let action := Py.get action_data "action" in
          let parameters := Py.get_default action_data "parameters" (Py.PDict []) in
          exec action parameters now s0
      | Some _ => (ErrorProcessing Py.AttributeError, s0)
      end
  end.

Definition process_natural_language : string -> Z -> Store -> result * Store :=
  process_natural_language_with execute_action.

End Client.

(** The action names the dispatch of [execute_action] knows. *)
Definition actions : list string :=
  ["list_todos"; "get_todo"; "create_todo"; "update_todo"; "delete_todo"].

(** What one pass of the loop of [interactive_mode] prints. *)
Inductive iteration : Type :=
| Goodbye
| Help
| Nothing
| Printed (r : result).

Section Interactive.

Variable generate_content : list Todo -> string -> option string.
Variable strip : string -> string.
Variable json_loads : string -> option Py.value.
Variable coerce_str : Py.value -> option string.

(** [str.lower] *)
Variable lower : string -> string.

(** The body of the [while True] of [interactive_mode] on the line [input]
    returned; the flag tells whether the loop goes on. *)
Definition interactive_iteration (line : string) (now : Z) (s : Store)
    : iteration * bool * Store :=
  let user_input := strip line in
  if existsb (String.eqb (lower user_input)) ["quit"; "exit"; "q"] then (Goodbye, false, s)
  else if (lower user_input =? "help")%string then (Help, true, s)
  else if (user_input =? "")%string then (Nothing, true, s)
  else
    let (r, s1) :=
      process_natural_language generate_content strip json_loads coerce_str
        user_input now s in
    (Printed r, true, s1).

(** The loop over the lines the user enters, each with the clock reading
    of its pass, up to the first line that ends it. *)
Fixpoint interactive_lines (lines : list (string * Z)) (s : Store)
    : list iteration * Store :=
  match lines with
  | [] => ([], s)
  | (line, now) :: rest =>
      let '(o, go_on, s1) := interactive_iteration line now s in
      if go_on : bool then
        let (os, s2) := interactive_lines rest s1 in (o :: os, s2)
      else ([o], s1)
  end.

End Interactive.

End simple_gemini_client.

(** ** [main.py] *)

Module main.
Import database.

(** What a route hands back to the framework: the value it returns, or the
    [HTTPException] it raises. *)
Inductive response (A : Type) : Type :=
| OK (body : A)
| HTTPException (status_code : Z) (detail : string).
Arguments OK {A} body.
Arguments HTTPException {A} status_code detail.

Definition read_todos (s : Store) : response (list Todo) * Store :=
  let (l, s1) := get_todos s in (OK l, s1).

(** The path parameter is declared [int]: the framework has parsed it. *)
Definition read_todo (todo_id : Z) (s : Store) : response Todo * Store :=
  let (todo, s1) := get_todo (Py.PInt todo_id) s in
  match todo with
  | None => (HTTPException 404 "Todo not found", s1)
  | Some t => (OK t, s1)
  end.

Definition create_todo_endpoint (todo : TodoCreate) (now : Z) (s : Store)
    : response Todo * Store :=
  let (t, s1) := create_todo todo now s in (OK t, s1).

Definition update_todo_endpoint (todo_id : Z) (todo : TodoUpdate) (now : Z) (s : Store)
    : response Todo * Store :=
  let (updated_todo, s1) := update_todo (Py.PInt todo_id) todo now s in
  match updated_todo with
  | None => (HTTPException 404 "Todo not found", s1)
  | Some t => (OK t, s1)
  end.

Definition delete_todo_endpoint (todo_id : Z) (s : Store) : response string * Store :=
  let (deleted, s1) := delete_todo (Py.PInt todo_id) s in
  if negb deleted then (HTTPException 404 "Todo not found", s1)
  else (OK "Todo deleted successfully", s1).

End main.

(** ** [todo_app.py] *)

Module todo_app.

(** [class Todo].  Nothing checks the annotations of [__init__]: a field
    holds whatever value the caller passed, a decoded JSON value when the
    caller is [execute_action]. *)
Record Todo : Type := mkTodo {
  id : Z;
  title : Py.value;
  description : Py.value;
  status : Py.value;
  created_at : Z;
  updated_at : Z
}.

(** [Todo.__init__]; [t0] and [t1] are its two readings of the clock, in
    the order it takes them. *)
Definition Todo_init (i : Z) (title description status : Py.value) (t0 t1 : Z) : Todo :=
  mkTodo i title description status t0 t1.

(** The attributes of a [TodoApp] instance; [gemini_model] records whether
    [__init__] obtained a model. *)
Record TodoApp : Type := mkTodoApp {
  todos : list Todo;
  next_id : Z;
  gemini_model : bool
}.

(** [TodoApp.__init__] *)
Definition init (model : bool) : TodoApp := mkTodoApp [] 1 model.

Definition add_todo (title description status : Py.value) (t0 t1 : Z) (self : TodoApp)
    : Todo * TodoApp :=
  let todo := Todo_init (next_id self) title description status t0 t1 in
  (todo, mkTodoApp (todos self ++ [todo]) (next_id self + 1) (gemini_model self)).

Fixpoint find_todo (todo_id : Py.value) (l : list Todo) : option Todo :=
  match l with
  | [] => None
  | todo :: l' => if Py.eq_int (id todo) todo_id then Some todo else find_todo todo_id l'
  end.

Definition get_todo (todo_id : Py.value) (self : TodoApp) : option Todo * TodoApp :=
  (find_todo todo_id (todos self), self).

(** The three guarded assignments of [update_todo] and the refresh of
    [updated_at]. *)
Definition assign (title description status : Py.value) (now : Z) (todo : Todo) : Todo :=
  let 'mkTodo i old_title old_description old_status created _ := todo in
  mkTodo i
         (if Py.truthy title then title else old_title)
         (match description with Py.PNone => old_description | _ => description end)
         (if Py.truthy status then status else old_status)
         created
         now.

(** [update_todo] assigns to the object [get_todo] returned, which is the
    first element of [self.todos] with the id: the list sees the change. *)
Fixpoint assign_first (todo_id : Py.value) (f : Todo -> Todo) (l : list Todo) : list Todo :=
  match l with
  | [] => []
  | todo :: l' =>
      if Py.eq_int (id todo) todo_id then f todo :: l'
      else todo :: assign_first todo_id f l'
  end.

Definition update_todo (todo_id title description status : Py.value) (now : Z)
    (self : TodoApp) : bool * TodoApp :=
  let (r, self1) := get_todo todo_id self in
  match r with
  | None => (false, self1)
  | Some _ =>
      (true, mkTodoApp (assign_first todo_id (assign title description status now) (todos self1))
                       (next_id self1) (gemini_model self1))
  end.

Fixpoint delete_loop (todo_id : Py.value) (l : list Todo) : option (list Todo) :=
  match l with
  | [] => None
  | todo :: l' =>
      if Py.eq_int (id todo) todo_id then Some l'
      else match delete_loop todo_id l' with
           | Some l'' => Some (todo :: l'')
           | None => None
           end
  end.

Definition delete_todo (todo_id : Py.value) (self : TodoApp) : bool * TodoApp :=
  match delete_loop todo_id (todos self) with
  | Some l => (true, mkTodoApp l (next_id self) (gemini_model self))
  | None => (false, self)
  end.

Definition list_todos (self : TodoApp) : list Todo * TodoApp :=
  (todos self, self).

(** The messages [execute_action] and [process_ai_command] return, by the
    [return] that produced them. *)
Inductive result : Type :=
| NoTodosFound
| AllTodos (l : list Todo)
| TodoIdRequired
| TodoNotFound (todo_id : Py.value)
| TodoDetails (todo : Todo)
| TitleRequired
| Created (todo : Todo)
| Updated (todo_id : Py.value)
| Deleted (todo_id : Py.value)
| UnknownAction (action : Py.value)
| Error (e : Py.exn)
| GeminiNotAvailable.

(** The emoji lookup [{...}.get(todo.status, ...)] raises [TypeError] on
    an unhashable status. *)
Definition emoji_ok (todo : Todo) : bool := Py.hashable (status todo).

(** [t0] and [t1] are the first and second reading of the clock during the
    call: a create takes both (in [Todo.__init__]), an update that finds
    its todo takes the first, the other actions take none. *)
Definition execute_action (action params : Py.value) (t0 t1 : Z) (self : TodoApp)
    : result * TodoApp :=
  if Py.eq_str action "list" then
    match todos self with
    | [] => (NoTodosFound, self)
    | l => if forallb emoji_ok l then (AllTodos l, self) else (Error Py.TypeError, self)
    end
  else if Py.eq_str action "get" then
    match params with
    | Py.PDict d =>
        let todo_id := Py.get d "id" in
        if negb (Py.truthy todo_id) then (TodoIdRequired, self)
        else
          let (r, self1) := get_todo todo_id self in
          match r with
          | None => (TodoNotFound todo_id, self1)
          | Some todo =>
              if emoji_ok todo then (TodoDetails todo, self1) else (Error Py.TypeError, self1)
          end
    | _ => (Error Py.AttributeError, self)
    end
  else if Py.eq_str action "create" then
    match params with
    | Py.PDict d =>
        let title := Py.get d "title" in
        if negb (Py.truthy title) then (TitleRequired, self)
        else
          let description := Py.get_default d "description" (Py.PStr "") in
          let status := Py.get_default d "status" (Py.PStr "pending") in
          let (todo, self1) := add_todo title description status t0 t1 self in
          (Created todo, self1)
    | _ => (Error Py.AttributeError, self)
    end
  else if Py.eq_str action "update" then
    match params with
    | Py.PDict d =>
        let todo_id := Py.get d "id" in
        if negb (Py.truthy todo_id) then (TodoIdRequired, self)
        else
          let (success, self1) :=
            update_todo todo_id (Py.get d "title") (Py.get d "description")
                        (Py.get d "status") t0 self in
          if success then (Updated todo_id, self1) else (TodoNotFound todo_id, self1)
    | _ => (Error Py.AttributeError, self)
    end
  else if Py.eq_str action "delete" then
    match params with
    | Py.PDict d =>
        let todo_id := Py.get d "id" in
        if negb (Py.truthy todo_id) then (TodoIdRequired, self)
        else
          let (success, self1) := delete_todo todo_id self in
          if success then (Deleted todo_id, self1) else (TodoNotFound todo_id, self1)
    | _ => (Error Py.AttributeError, self)
    end
  else (UnknownAction action, self).

Section Service.

(** The text-generation service, [str.strip] and [json.loads], as for
    [simple_gemini_client]. *)
Variable generate_content : list Todo -> string -> option string.
Variable strip : string -> string.
Variable json_loads : string -> option Py.value.

(** [process_ai_command], with [self.execute_action] as a parameter. *)
Definition process_ai_command_with
    (exec : Py.value -> Py.value -> Z -> Z -> TodoApp -> result * TodoApp)
    (user_input : string) (t0 t1 : Z) (self : TodoApp) : result * TodoApp :=
  if negb (gemini_model self) then (GeminiNotAvailable, self)
  else
    match generate_content (todos self) user_input with
    | None => (Error Py.ServiceException, self)
    | Some text =>
        match json_loads (strip text) with
        | None => (Error Py.JSONDecodeError, self)
        | Some (Py.PDict action_data) =>
            let action := Py.get action_data "action" in
            let params := Py.get_default action_data "parameters" (Py.PDict []) in
            exec action params t0 t1 self
        | Some _ => (Error Py.AttributeError, self)
        end
    end.

Definition process_ai_command : string -> Z -> Z -> TodoApp -> result * TodoApp :=
  process_ai_command_with execute_action.

End Service.

(** The action names the dispatch of [execute_action] knows. *)
Definition actions : list string := ["list"; "get"; "create"; "update"; "delete"].

(** One method call on a [TodoApp], with the clock readings it takes. *)
Inductive call : Type :=
| ListTodos
| GetTodo (todo_id : Py.value)
| AddTodo (title description status : Py.value) (t0 t1 : Z)
| UpdateTodo (todo_id title description status : Py.value) (now : Z)
| DeleteTodo (todo_id : Py.value).

Inductive response : Type :=
| RTodos (l : list Todo)
| RFound (r : option Todo)
| RAdded (todo : Todo)
| RUpdated (b : bool)
| RDeleted (b : bool).

Definition step (c : call) (self : TodoApp) : response * TodoApp :=
  match c with
  | ListTodos => let (l, s') := list_todos self in (RTodos l, s')
  | GetTodo i => let (r, s') := get_todo i self in (RFound r, s')
  | AddTodo t d st t0 t1 => let (todo, s') := add_todo t d st t0 t1 self in (RAdded todo, s')
  | UpdateTodo i t d st now => let (b, s') := update_todo i t d st now self in (RUpdated b, s')
  | DeleteTodo i => let (b, s') := delete_todo i self in (RDeleted b, s')
  end.

Fixpoint run (cs : list call) (self : TodoApp) : list response * TodoApp :=
  match cs with
  | [] => ([], self)
  | c :: cs' =>
      let (r, s1) := step c self in
      let (rs, s2) := run cs' s1 in
      (r :: rs, s2)
  end.

Definition is_read (c : call) : bool :=
  match c with
  | ListTodos | GetTodo _ => true
  | _ => false
  end.

Fixpoint created_ids (rs : list response) : list Z :=
  match rs with
  | [] => []
  | RAdded t :: rs' => id t :: created_ids rs'
  | _ :: rs' => created_ids rs'
  end.

Fixpoint readings (cs : list call) : list Z :=
  match cs with
  | [] => []
  | AddTodo _ _ _ t0 t1 :: cs' => t0 :: t1 :: readings cs'
  | UpdateTodo _ _ _ _ now :: cs' => now :: readings cs'
  | _ :: cs' => readings cs'
  end.

(** The states an instance can be in, and the two state predicates, as for
    [database]. *)
Definition reachable (self : TodoApp) : Prop :=
  exists model cs, snd (run cs (init model)) = self.

Definition wf (self : TodoApp) : Prop :=
  NoDup (map id (todos self)) /\ Forall (fun t => id t < next_id self) (todos self).

Definition stamped (c : Z) (self : TodoApp) : Prop :=
  Forall (fun t => created_at t <= updated_at t <= c) (todos self).

(** [TodoApp.__init__] from what [os.getenv('GEMINI_API_KEY')] returned;
    [configured] tells whether [genai.configure] and the construction of
    the model went through without raising. *)
Definition TodoApp_init (api_key : option string) (configured : bool) : TodoApp :=
  match api_key with
  | Some k =>
      if negb (k =? "")%string && negb (k =? "your-api-key-here")%string
      then init configured
      else init false
  | None => init false
  end.

(** What a manual command of [run] assigns to [result]. *)
Inductive manual_result : Type :=
| MNoTodosFound
| MAllTodos (l : list Todo)
| MUsage (command : string)
| MCreated (todo : Todo)
| MTodo (todo : Todo)
| MTodoNotFound (todo_id : Z)
| MInvalidID
| MUpdated (todo_id : Z)
| MDeleted (todo_id : Z)
| MUnknownCommand.

(** What one pass of the loop of [run] prints. *)
Inductive output : Type :=
| OGoodbye
| OHelp
| ONothing
| OAI (r : result)
| OManual (r : manual_result)
| OIndexError                (* [parts[0]] on an empty list, caught by the loop *)
| OTypeError.                (* the emoji lookup on an unhashable status, caught by the loop *)

Section Loop.

Variable generate_content : list Todo -> string -> option string.
Variable strip : string -> string.
Variable json_loads : string -> option Py.value.

(** [str.lower], [str.split] without arguments, and [int] on a string
    ([None] for its [ValueError]). *)
Variable lower : string -> string.
Variable split : string -> list string.
Variable int : string -> option Z.

(** [' '.join(l)] *)
Definition join (l : list string) : string := String.concat " " l.

(** The manual branch of [run]: the command word decides, the words after
    it are its arguments. *)
Definition manual_command (user_input : string) (t0 t1 : Z) (self : TodoApp)
    : output * TodoApp :=
  match split user_input with
  | [] => (OIndexError, self)
  | word :: args =>
      let command := lower word in
      if (command =? "list")%string then
        match todos self with
        | [] => (OManual MNoTodosFound, self)
        | l => if forallb emoji_ok l then (OManual (MAllTodos l), self)
               else (OTypeError, self)
        end
      else if (command =? "create")%string then
        match args with
        | [] => (OManual (MUsage "create"), self)
        | _ =>
            let (todo, self1) :=
              add_todo (Py.PStr (join args)) (Py.PStr "") (Py.PStr "pending") t0 t1 self in
            (OManual (MCreated todo), self1)
        end
      else if (command =? "get")%string then
        match args with
        | [] => (OManual (MUsage "get"), self)
        | a :: _ =>
            match int a with
            | None => (OManual MInvalidID, self)
            | Some todo_id =>
                let (r, self1) := get_todo (Py.PInt todo_id) self in
                match r with
                | Some todo =>
                    if emoji_ok todo then (OManual (MTodo todo), self1)
                    else (OTypeError, self1)
                | None => (OManual (MTodoNotFound todo_id), self1)
                end
            end
        end
      else if (command =? "update")%string then
        match args with
        | a :: w :: ws =>
            match int a with
            | None => (OManual MInvalidID, self)
            | Some todo_id =>
                let (success, self1) :=
                  update_todo (Py.PInt todo_id) (Py.PStr (join (w :: ws))) Py.PNone Py.PNone
                              t0 self in
                if success then (OManual (MUpdated todo_id), self1)
                else (OManual (MTodoNotFound todo_id), self1)
            end
        | _ => (OManual (MUsage "update"), self)
        end
      else if (command =? "delete")%string then
        match args with
        | [] => (OManual (MUsage "delete"), self)
        | a :: _ =>
            match int a with
            | None => (OManual MInvalidID, self)
            | Some todo_id =>
                let (success, self1) := delete_todo (Py.PInt todo_id) self in
                if success then (OManual (MDeleted todo_id), self1)
                else (OManual (MTodoNotFound todo_id), self1)
            end
        end
      else (OManual MUnknownCommand, self)
  end.

(** The body of the [while True] of [run] on the line [input] returned; the
    flag tells whether the loop goes on. *)
Definition run_iteration (line : string) (t0 t1 : Z) (self : TodoApp)
    : output * bool * TodoApp :=
  let user_input := strip line in
  if existsb (String.eqb (lower user_input)) ["quit"; "exit"; "q"] then (OGoodbye, false, self)
  else if (lower user_input =? "help")%string then (OHelp, true, self)
  else if (user_input =? "")%string then (ONothing, true, self)
  else if gemini_model self then
    let (r, self1) :=
      process_ai_command generate_content strip json_loads user_input t0 t1 self in
    (OAI r, true, self1)
  else
    let (o, self1) := manual_command user_input t0 t1 self in
    (o, true, self1).

(** The loop over the lines the user enters, each with the clock readings
    of its pass, up to the first line that ends it. *)
Fixpoint run_lines (lines : list (string * (Z * Z))) (self : TodoApp)
    : list output * TodoApp :=
  match lines with
  | [] => ([], self)
  | (line, (t0, t1)) :: rest =>
      let '(o, go_on, self1) := run_iteration line t0 t1 self in
      if go_on : bool then
        let (os, self2) := run_lines rest self1 in (o :: os, self2)
      else ([o], self1)
  end.

End Loop.

End todo_app.

(** A clock that never runs backwards: each reading is at least the one
    before it, and the first is at least [c]. *)
Fixpoint nondecreasing_from (c : Z) (ts : list Z) : Prop :=
  match ts with
  | [] => True
  | t :: ts' => c <= t /\ nondecreasing_from t ts'
  end.

(** Concrete states for the examples: a store holding the single todo a first
    [create] made at clock reading 5, for each of the two stores. *)
Definition db_one : database.Store :=
  database.mkStore [database.mkTodo 1 (Some "A") None (Some database.PENDING) 5 5] 2.

Definition app_one : todo_app.TodoApp :=
  todo_app.mkTodoApp [todo_app.mkTodo 1 (Py.PStr "A") (Py.PStr "") (Py.PStr "pending") 5 5] 2 true.

(** A new [TodoApp] without a model: the loop of [run] is in manual mode. *)
Definition app_empty_manual : todo_app.TodoApp := todo_app.init false.

(** One instance of the field validation: strings pass, nothing else does
    (what pydantic 2 does with decoded JSON). *)
Definition strict_str (v : Py.value) : option string :=
  match v with
  | Py.PStr s => Some s
  | _ => None
  end.

(** * Properties *)

(** ** The store of [database.py] *)

(** A clock that does not run backwards over a whole run of readings does
    not over its first part. *)
Lemma nondecreasing_from_app (c : Z) (ts ts' : list Z) :
  nondecreasing_from c (ts ++ ts') -> nondecreasing_from c ts.
Proof.
  revert c. induction ts as [|t ts IH]; intros c; cbn; [trivial|].
  intros [Hle H]. split; [exact Hle|]. apply IH. exact H.
Qed.

Module database_facts.
Import database.

Lemma readings_app (cs cs' : list call) :
  readings (cs ++ cs') = readings cs ++ readings cs'.
Proof.
  induction cs as [|c cs IH]; [reflexivity|].
  destruct c; cbn; rewrite ?IH; reflexivity.
Qed.

(** [TodoStatus(v)] succeeds on the three values of the enum and on nothing
    else. *)
Lemma TodoStatus_call_value (st : TodoStatus) :
  TodoStatus_call (Py.PStr (TodoStatus_value st)) = Some st.
Proof. destruct st; reflexivity. Qed.

Lemma TodoStatus_call_Some (v : Py.value) (st : TodoStatus) :
  TodoStatus_call v = Some st -> v = Py.PStr (TodoStatus_value st).
Proof.
  unfold TodoStatus_call. destruct v; cbn; try discriminate.
  destruct (String.eqb_spec s "pending") as [->|_]; [now intros [= <-]|].
  destruct (String.eqb_spec s "in_progress") as [->|_]; [now intros [= <-]|].
  destruct (String.eqb_spec s "completed") as [->|_]; [now intros [= <-]|].
  discriminate.
Qed.

Lemma find_todo_In (i : Py.value) (l : list Todo) (t : Todo) :
  find_todo i l = Some t -> In t l /\ Py.eq_int (id t) i = true.
Proof.
  induction l as [|a l IH]; cbn; [discriminate|].
  destruct (Py.eq_int (id a) i) eqn:E.
  - intros [= <-]. auto.
  - intros H. destruct (IH H). auto.
Qed.

Lemma find_todo_absent (i : Z) (l : list Todo) :
  ~ In i (map id l) -> find_todo (Py.PInt i) l = None.
Proof.
  induction l as [|a l IH]; cbn; [reflexivity|].
  intros H. destruct (Z.eqb_spec (id a) i) as [e|_].
  - exfalso. apply H. now left.
  - apply IH. intros Hin. apply H. now right.
Qed.

Lemma find_todo_present (i : Z) (l : list Todo) :
  In i (map id l) -> exists t, find_todo (Py.PInt i) l = Some t.
Proof.
  induction l as [|a l IH]; cbn; [tauto|].
  intros [H|H]; destruct (Z.eqb_spec (id a) i); eauto; contradiction.
Qed.

Lemma delete_loop_None (i : Py.value) (l : list Todo) :
  delete_loop i l = None <-> find_todo i l = None.
Proof.
  induction l as [|a l IH]; cbn; [tauto|].
  destruct (Py.eq_int (id a) i); [split; discriminate|].
  destruct (delete_loop i l); destruct (find_todo i l);
    split; try discriminate; try reflexivity; intros H.
  - apply IH in H. discriminate.
  - apply IH in H. discriminate.
Qed.

Lemma delete_loop_ids (i : Py.value) (l l' : list Todo) :
  delete_loop i l = Some l' ->
  (forall x, In x l' -> In x l) /\
  (NoDup (map id l) -> NoDup (map id l')).
Proof.
  revert l'. induction l as [|a l IH]; cbn; [discriminate|]. intros l'.
  destruct (Py.eq_int (id a) i).
  - intros [= <-]. split; [now right|]. intros H. now inversion H.
  - destruct (delete_loop i l) as [l''|]; [|discriminate].
    intros [= <-]. destruct (IH l'' eq_refl) as [Hin Hnd]. split.
    + intros x [->|Hx]; [now left|right; auto].
    + cbn. intros H. inversion H as [|? ? Hnot Hrest]; subst. constructor; auto.
      intros Hc. apply Hnot. apply in_map_iff in Hc as [x [Hx1 Hx2]].
      apply in_map_iff. exists x. auto.
Qed.

Lemma delete_loop_gone (i : Z) (l l' : list Todo) :
  NoDup (map id l) -> delete_loop (Py.PInt i) l = Some l' ->
  find_todo (Py.PInt i) l' = None.
Proof.
  revert l'. induction l as [|a l IH]; cbn; [discriminate|]. intros l' Hnd.
  inversion Hnd as [|? ? Hnot Hrest]; subst.
  destruct (Z.eqb_spec (id a) i) as [<-|Hne].
  - intros [= <-]. now apply find_todo_absent.
  - destruct (delete_loop (Py.PInt i) l) as [l''|] eqn:E; [|discriminate].
    intros [= <-]. cbn. destruct (Z.eqb_spec (id a) i); [contradiction|]. auto.
Qed.

Lemma update_loop_None (i : Py.value) (d : TodoUpdate) (now : Z) (l : list Todo) :
  find_todo i l = None -> update_loop i d now l = None.
Proof.
  induction l as [|a l IH]; cbn; [reflexivity|].
  destruct (Py.eq_int (id a) i); [discriminate|].
  intros H. now rewrite IH.
Qed.

(** [update_loop] rewrites the record [get_todo] finds and nothing else. *)
Lemma update_loop_Some (i : Py.value) (d : TodoUpdate) (now : Z) (l : list Todo) (t : Todo) :
  find_todo i l = Some t ->
  exists l', update_loop i d now l = Some (apply_update d now t, l') /\
             find_todo i l' = Some (apply_update d now t) /\
             map id l' = map id l /\
             List.length l' = List.length l /\
             (forall j, Py.eq_int (id t) j = false -> find_todo j l' = find_todo j l) /\
             (forall x, In x l' -> x = apply_update d now t \/ In x l).
Proof.
  induction l as [|a l IH]; cbn; [discriminate|].
  destruct (Py.eq_int (id a) i) eqn:E.
  - intros [= <-]. eexists. split; [reflexivity|]. cbn. rewrite E.
    repeat split; auto.
    + intros j Hj. now rewrite Hj.
    + intros x [<-|Hx]; auto.
  - intros H. destruct (IH H) as [l' (-> & Hf & Hm & Hl & Ho & Hin)].
    eexists. split; [reflexivity|]. cbn. rewrite E, Hm, Hl.
    repeat split; auto.
    + intros j Hj. rewrite (Ho j Hj). reflexivity.
    + intros x [<-|Hx]; auto. destruct (Hin x Hx); auto.
Qed.

(** What one call does to the counter and to the id it hands out. *)
Lemma step_next_id (c : call) (s s1 : Store) (r : response) :
  step c s = (r, s1) ->
  (exists t, r = RCreated t /\ id t = next_id s /\ next_id s1 = next_id s + 1) \/
  (created_ids [r] = [] /\ next_id s1 = next_id s).
Proof.
  destruct c; cbn.
  - intros [= <- <-]. now right.
  - intros [= <- <-]. now right.
  - intros [= <- <-]. left. eexists. cbn. auto.
  - unfold update_todo. destruct (update_loop _ _ _ _) as [[t l]|]; intros [= <- <-]; now right.
  - unfold delete_todo. destruct (delete_loop _ _); intros [= <- <-]; now right.
Qed.

Lemma run_created_ids (cs : list call) (s : Store) :
  next_id s <= next_id (snd (run cs s)) /\
  StronglySorted Z.lt (created_ids (fst (run cs s))) /\
  Forall (fun i => next_id s <= i < next_id (snd (run cs s))) (created_ids (fst (run cs s))).
Proof.
  revert s. induction cs as [|c cs IH]; intros s; cbn [run].
  - cbn. split; [lia|]. split; constructor.
  - destruct (step c s) as [r s1] eqn:Hs.
    specialize (IH s1). destruct (run cs s1) as [rs s2]. cbn [fst snd] in *.
    destruct IH as (Hle & Hsorted & Hall).
    destruct (step_next_id _ _ _ _ Hs) as [(t & -> & Hid & Hn)|[Hr Hn]].
    + cbn [created_ids]. rewrite Hid. split; [lia|]. split.
      * constructor; [assumption|]. eapply Forall_impl; [|exact Hall]. cbn. lia.
      * constructor; [lia|]. eapply Forall_impl; [|exact Hall]. cbn. lia.
    + split; [lia|].
      assert (Hc : created_ids (r :: rs) = created_ids rs).
      { destruct r; try reflexivity. discriminate. }
      rewrite Hc. split; [assumption|].
      eapply Forall_impl; [|exact Hall]. cbn. lia.
Qed.

Lemma StronglySorted_lt_NoDup (l : list Z) : StronglySorted Z.lt l -> NoDup l.
Proof.
  induction 1 as [|a l Hs IH Hall]; constructor; [|assumption].
  intros Hin. rewrite Forall_forall in Hall. specialize (Hall a Hin). lia.
Qed.

Lemma step_wf (c : call) (s : Store) : wf s -> wf (snd (step c s)).
Proof.
  intros [Hnd Hlt]. destruct c; cbn; try (split; assumption).
  - split; cbn.
    + rewrite map_app. cbn. apply NoDup_app; [assumption|repeat constructor; intros []|].
      intros x Hx [<-|[]]. apply in_map_iff in Hx as [t [Ht Hin]].
      rewrite Forall_forall in Hlt. specialize (Hlt t Hin). lia.
    + apply Forall_app. split.
      * eapply Forall_impl; [|exact Hlt]. cbn. lia.
      * repeat constructor. cbn. lia.
  - unfold update_todo. destruct (find_todo todo_id (todos_db s)) as [t|] eqn:Hf.
    + destruct (update_loop_Some _ todo_data now _ _ Hf) as [l' (-> & _ & Hm & _ & _ & Hin)].
      cbn. split; cbn; [now rewrite Hm|].
      apply Forall_forall. intros x Hx. rewrite Forall_forall in Hlt.
      destruct (Hin x Hx) as [->|Hx']; [|auto]. cbn.
      apply find_todo_In in Hf as [Hf _]. auto.
    + rewrite (update_loop_None _ _ _ _ Hf). cbn. split; assumption.
  - unfold delete_todo. destruct (delete_loop todo_id (todos_db s)) as [l'|] eqn:Hd; cbn.
    + destruct (delete_loop_ids _ _ _ Hd) as [Hin Hnd']. split; cbn; [auto|].
      apply Forall_forall. intros x Hx. rewrite Forall_forall in Hlt. auto.
    + split; assumption.
Qed.

Lemma run_wf (cs : list call) (s : Store) : wf s -> wf (snd (run cs s)).
Proof.
  revert s. induction cs as [|c cs IH]; intros s H; cbn; [assumption|].
  pose proof (step_wf c s H) as H1.
  destruct (step c s) as [r s1]. specialize (IH s1 H1).
  destruct (run cs s1) as [rs s2]. exact IH.
Qed.

Lemma reachable_wf (s : Store) : reachable s -> wf s.
Proof.
  intros [cs <-]. apply run_wf. split; cbn; constructor.
Qed.

Lemma stamped_mono (c0 c1 : Z) (s : Store) : c0 <= c1 -> stamped c0 s -> stamped c1 s.
Proof.
  intros Hc H. eapply Forall_impl; [|exact H]. cbn. lia.
Qed.

(** Under a clock that does not run backwards, no call breaks [stamped]. *)
Lemma run_stamped (cs : list call) (s : Store) (c0 : Z) :
  stamped c0 s -> nondecreasing_from c0 (readings cs) ->
  exists c1, stamped c1 (snd (run cs s)).
Proof.
  revert s c0. induction cs as [|c cs IH]; intros s c0 Hs Hc; cbn [run].
  - exists c0. exact Hs.
  - assert (Hnext : exists c1, stamped c1 (snd (step c s)) /\
                               nondecreasing_from c1 (readings cs)).
    { destruct c; cbn [readings] in Hc; cbn [step get_todos get_todo fst snd].
      - exists c0. auto.
      - exists c0. auto.
      - destruct Hc as [Hle Hc]. exists now. split; [|exact Hc].
        unfold stamped. cbn. apply Forall_app. split.
        + exact (stamped_mono _ _ _ Hle Hs).
        + repeat constructor; cbn; lia.
      - destruct Hc as [Hle Hc]. exists now. split; [|exact Hc].
        unfold update_todo.
        destruct (find_todo todo_id (todos_db s)) as [t|] eqn:Hf.
        + destruct (update_loop_Some _ todo_data now _ _ Hf) as [l' (-> & _ & _ & _ & _ & Hin)].
          cbn. unfold stamped. cbn. apply Forall_forall. intros x Hx.
          apply find_todo_In in Hf as [Hf _].
          unfold stamped in Hs. rewrite Forall_forall in Hs.
          destruct (Hin x Hx) as [->|Hx'].
          * specialize (Hs t Hf). cbn. lia.
          * specialize (Hs x Hx'). lia.
        + rewrite (update_loop_None _ _ _ _ Hf). cbn. exact (stamped_mono _ _ _ Hle Hs).
      - exists c0. split; [|exact Hc]. unfold delete_todo.
        destruct (delete_loop todo_id (todos_db s)) as [l'|] eqn:Hd; cbn; [|exact Hs].
        destruct (delete_loop_ids _ _ _ Hd) as [Hin _].
        unfold stamped in *. cbn. rewrite Forall_forall in *. auto. }
    destruct Hnext as (c1 & H1 & Hc1).
    destruct (step c s) as [r s1]. cbn [snd] in H1.
    specialize (IH s1 c1 H1 Hc1). destruct (run cs s1) as [rs s2]. exact IH.
Qed.

(** A session of reads returns what each read returns on the starting
    state, and ends in that state. *)
Lemma run_reads (cs : list call) (s : Store) :
  forallb is_read cs = true ->
  run cs s = (map (fun c => fst (step c s)) cs, s).
Proof.
  induction cs as [|c cs IH]; cbn [run forallb map]; [reflexivity|].
  intros H. apply andb_prop in H as [Hc Hcs].
  destruct c; try discriminate; cbn [step get_todos get_todo];
    rewrite (IH Hcs); reflexivity.
Qed.

Lemma run_app (cs cs' : list call) (s : Store) :
  snd (run (cs ++ cs') s) = snd (run cs' (snd (run cs s))).
Proof.
  revert s. induction cs as [|c cs IH]; intros s; cbn [app run]; [reflexivity|].
  destruct (step c s) as [r s1]. specialize (IH s1).
  destruct (run (cs ++ cs') s1) as [rs s2]. destruct (run cs s1) as [rs' s2'].
  exact IH.
Qed.

(** Reachable states are closed under every call. *)
Lemma reachable_step (c : call) (s : Store) : reachable s -> reachable (snd (step c s)).
Proof.
  intros [cs <-]. exists (cs ++ [c]). rewrite run_app. cbn [run].
  destruct (step c (snd (run cs init))) as [r s1]. reflexivity.
Qed.

Lemma reachable_create_todo (d : TodoCreate) (now : Z) (s : Store) :
  reachable s -> reachable (snd (create_todo d now s)).
Proof. intros H. exact (reachable_step (CreateTodo d now) s H). Qed.

Lemma reachable_update_todo (i : Py.value) (d : TodoUpdate) (now : Z) (s : Store) :
  reachable s -> reachable (snd (update_todo i d now s)).
Proof.
  intros H. pose proof (reachable_step (UpdateTodo i d now) s H) as H1.
  cbn [step] in H1. destruct (update_todo i d now s). exact H1.
Qed.

Lemma reachable_delete_todo (i : Py.value) (s : Store) :
  reachable s -> reachable (snd (delete_todo i s)).
Proof.
  intros H. pose proof (reachable_step (DeleteTodo i) s H) as H1.
  cbn [step] in H1. destruct (delete_todo i s). exact H1.
Qed.

(** In a reachable state the id the next create hands out is carried by no
    record of the collection. *)
Lemma create_todo_fresh (todo_data : TodoCreate) (now : Z) (s : Store) :
  reachable s -> ~ In (id (fst (create_todo todo_data now s))) (map id (todos_db s)).
Proof.
  intros Hr Hin. apply reachable_wf in Hr as [_ Hlt]. cbn in Hin.
  apply in_map_iff in Hin as (t & Ht & Hin).
  rewrite Forall_forall in Hlt. specialize (Hlt t Hin). lia.
Qed.

(** The scenario of the specification, run on the model: two creates, a
    status update of the first, a delete of the second, a listing. *)
Example scenario :
  run [CreateTodo (mkTodoCreate "A" None PENDING) 1;
       CreateTodo (mkTodoCreate "B" None PENDING) 2;
       UpdateTodo (Py.PInt 1) (mkTodoUpdate None None (Some (Some COMPLETED))) 3;
       DeleteTodo (Py.PInt 2);
       GetTodos] init
  = ([RCreated (mkTodo 1 (Some "A") None (Some PENDING) 1 1);
      RCreated (mkTodo 2 (Some "B") None (Some PENDING) 2 2);
      RUpdated (Some (mkTodo 1 (Some "A") None (Some COMPLETED) 1 3));
      RDeleted true;
      RTodos [mkTodo 1 (Some "A") None (Some COMPLETED) 1 3]],
     mkStore [mkTodo 1 (Some "A") None (Some COMPLETED) 1 3] 3).
Proof. reflexivity. Qed.

(** An id given as the string "1" equals no integer id, and a deleted id is
    not handed out again. *)
Example lookups_and_reuse :
  fst (get_todo (Py.PStr "1") (mkStore [mkTodo 1 (Some "A") None (Some PENDING) 1 1] 2)) = None
  /\ created_ids (fst (run [CreateTodo (mkTodoCreate "A" None PENDING) 1;
                            DeleteTodo (Py.PInt 1);
                            CreateTodo (mkTodoCreate "B" None PENDING) 2] init)) = [1; 2].
Proof. split; reflexivity. Qed.

End database_facts.

(** ** The store of [TodoApp] *)

Module todo_app_facts.
Import todo_app.

Lemma app_readings_app (cs cs' : list call) :
  readings (cs ++ cs') = readings cs ++ readings cs'.
Proof.
  induction cs as [|c cs IH]; [reflexivity|].
  destruct c; cbn; rewrite ?IH; reflexivity.
Qed.

Lemma app_find_todo_In (i : Py.value) (l : list Todo) (t : Todo) :
  find_todo i l = Some t -> In t l /\ Py.eq_int (id t) i = true.
Proof.
  induction l as [|a l IH]; cbn; [discriminate|].
  destruct (Py.eq_int (id a) i) eqn:E.
  - intros [= <-]. auto.
  - intros H. destruct (IH H). auto.
Qed.

Lemma app_find_todo_absent (i : Z) (l : list Todo) :
  ~ In i (map id l) -> find_todo (Py.PInt i) l = None.
Proof.
  induction l as [|a l IH]; cbn; [reflexivity|].
  intros H. destruct (Z.eqb_spec (id a) i) as [e|_].
  - exfalso. apply H. now left.
  - apply IH. intros Hin. apply H. now right.
Qed.

Lemma app_find_todo_present (i : Z) (l : list Todo) :
  In i (map id l) -> exists t, find_todo (Py.PInt i) l = Some t.
Proof.
  induction l as [|a l IH]; cbn; [tauto|].
  intros [H|H]; destruct (Z.eqb_spec (id a) i); eauto; contradiction.
Qed.

Lemma app_delete_loop_None (i : Py.value) (l : list Todo) :
  delete_loop i l = None <-> find_todo i l = None.
Proof.
  induction l as [|a l IH]; cbn; [tauto|].
  destruct (Py.eq_int (id a) i); [split; discriminate|].
  destruct (delete_loop i l); destruct (find_todo i l);
    split; try discriminate; try reflexivity; intros H;
    apply IH in H; discriminate.
Qed.

Lemma app_delete_loop_ids (i : Py.value) (l l' : list Todo) :
  delete_loop i l = Some l' ->
  (forall x, In x l' -> In x l) /\
  (NoDup (map id l) -> NoDup (map id l')).
Proof.
  revert l'. induction l as [|a l IH]; cbn; [discriminate|]. intros l'.
  destruct (Py.eq_int (id a) i).
  - intros [= <-]. split; [now right|]. intros H. now inversion H.
  - destruct (delete_loop i l) as [l''|]; [|discriminate].
    intros [= <-]. destruct (IH l'' eq_refl) as [Hin Hnd]. split.
    + intros x [->|Hx]; [now left|right; auto].
    + cbn. intros H. inversion H as [|? ? Hnot Hrest]; subst. constructor; auto.
      intros Hc. apply Hnot. apply in_map_iff in Hc as [x [Hx1 Hx2]].
      apply in_map_iff. exists x. auto.
Qed.

Lemma app_delete_loop_gone (i : Z) (l l' : list Todo) :
  NoDup (map id l) -> delete_loop (Py.PInt i) l = Some l' ->
  find_todo (Py.PInt i) l' = None.
Proof.
  revert l'. induction l as [|a l IH]; cbn; [discriminate|]. intros l' Hnd.
  inversion Hnd as [|? ? Hnot Hrest]; subst.
  destruct (Z.eqb_spec (id a) i) as [<-|Hne].
  - intros [= <-]. now apply app_find_todo_absent.
  - destruct (delete_loop (Py.PInt i) l) as [l''|] eqn:E; [|discriminate].
    intros [= <-]. cbn. destruct (Z.eqb_spec (id a) i); [contradiction|]. auto.
Qed.

Lemma assign_id (a b c : Py.value) (now : Z) (t : Todo) :
  id (assign a b c now t) = id t.
Proof. destruct t. reflexivity. Qed.

Lemma assign_stamps (a b c : Py.value) (now : Z) (t : Todo) :
  created_at (assign a b c now t) = created_at t /\ updated_at (assign a b c now t) = now.
Proof. destruct t. split; reflexivity. Qed.

(** The in-place assignment reaches the record [get_todo] finds and no
    other. *)
Lemma assign_first_Some (i : Py.value) (f : Todo -> Todo) (l : list Todo) (t : Todo) :
  (forall x, id (f x) = id x) ->
  find_todo i l = Some t ->
  find_todo i (assign_first i f l) = Some (f t) /\
  map id (assign_first i f l) = map id l /\
  (forall j, Py.eq_int (id t) j = false ->
             find_todo j (assign_first i f l) = find_todo j l) /\
  (forall x, In x (assign_first i f l) -> x = f t \/ In x l).
Proof.
  intros Hid. induction l as [|a l IH]; cbn; [discriminate|].
  destruct (Py.eq_int (id a) i) eqn:E.
  - intros [= <-]. cbn. rewrite Hid, E. repeat split; auto.
    + intros j Hj. now rewrite Hj.
    + intros x [<-|Hx]; auto.
  - intros H. destruct (IH H) as (Hf & Hm & Ho & Hin). cbn. rewrite E, Hm.
    repeat split; auto.
    + intros j Hj. rewrite (Ho j Hj). reflexivity.
    + intros x [<-|Hx]; auto. destruct (Hin x Hx); auto.
Qed.

Lemma app_step_next_id (c : call) (s s1 : TodoApp) (r : response) :
  step c s = (r, s1) ->
  (exists t, r = RAdded t /\ id t = next_id s /\ next_id s1 = next_id s + 1) \/
  (created_ids [r] = [] /\ next_id s1 = next_id s).
Proof.
  destruct c; cbn.
  - intros [= <- <-]. now right.
  - intros [= <- <-]. now right.
  - intros [= <- <-]. left. eexists. cbn. auto.
  - unfold update_todo. cbn. destruct (find_todo _ _); intros [= <- <-]; now right.
  - unfold delete_todo. destruct (delete_loop _ _); intros [= <- <-]; now right.
Qed.

Lemma app_run_created_ids (cs : list call) (s : TodoApp) :
  next_id s <= next_id (snd (run cs s)) /\
  StronglySorted Z.lt (created_ids (fst (run cs s))) /\
  Forall (fun i => next_id s <= i < next_id (snd (run cs s))) (created_ids (fst (run cs s))).
Proof.
  revert s. induction cs as [|c cs IH]; intros s; cbn [run].
  - cbn. split; [lia|]. split; constructor.
  - destruct (step c s) as [r s1] eqn:Hs.
    specialize (IH s1). destruct (run cs s1) as [rs s2]. cbn [fst snd] in *.
    destruct IH as (Hle & Hsorted & Hall).
    destruct (app_step_next_id _ _ _ _ Hs) as [(t & -> & Hid & Hn)|[Hr Hn]].
    + cbn [created_ids]. rewrite Hid. split; [lia|]. split.
      * constructor; [assumption|]. eapply Forall_impl; [|exact Hall]. cbn. lia.
      * constructor; [lia|]. eapply Forall_impl; [|exact Hall]. cbn. lia.
    + split; [lia|].
      assert (Hc : created_ids (r :: rs) = created_ids rs).
      { destruct r; try reflexivity. discriminate. }
      rewrite Hc. split; [assumption|].
      eapply Forall_impl; [|exact Hall]. cbn. lia.
Qed.

Lemma app_step_wf (c : call) (s : TodoApp) : wf s -> wf (snd (step c s)).
Proof.
  intros [Hnd Hlt].
  destruct c as [|todo_id|ti de st t0 t1|todo_id ti de st now|todo_id]; cbn;
    try (split; assumption).
  - split; cbn.
    + rewrite map_app. cbn. apply NoDup_app; [assumption|repeat constructor; intros []|].
      intros x Hx [<-|[]]. apply in_map_iff in Hx as [t [Ht Hin]].
      rewrite Forall_forall in Hlt. specialize (Hlt t Hin). lia.
    + apply Forall_app. split.
      * eapply Forall_impl; [|exact Hlt]. cbn. lia.
      * repeat constructor. cbn. lia.
  - unfold update_todo. cbn. destruct (find_todo todo_id (todos s)) as [t|] eqn:Hf.
    + destruct (assign_first_Some todo_id (assign ti de st now) _ _
                  (assign_id _ _ _ _) Hf) as (_ & Hm & _ & Hin).
      split; cbn; [now rewrite Hm|].
      apply Forall_forall. intros x Hx. rewrite Forall_forall in Hlt.
      destruct (Hin x Hx) as [->|Hx']; [|auto]. rewrite assign_id.
      apply app_find_todo_In in Hf as [Hf _]. auto.
    + cbn. split; assumption.
  - unfold delete_todo. destruct (delete_loop todo_id (todos s)) as [l'|] eqn:Hd; cbn.
    + destruct (app_delete_loop_ids _ _ _ Hd) as [Hin Hnd']. split; cbn; [auto|].
      apply Forall_forall. intros x Hx. rewrite Forall_forall in Hlt. auto.
    + split; assumption.
Qed.

Lemma app_run_wf (cs : list call) (s : TodoApp) : wf s -> wf (snd (run cs s)).
Proof.
  revert s. induction cs as [|c cs IH]; intros s H; cbn; [assumption|].
  pose proof (app_step_wf c s H) as H1.
  destruct (step c s) as [r s1]. specialize (IH s1 H1).
  destruct (run cs s1) as [rs s2]. exact IH.
Qed.

Lemma app_reachable_wf (s : TodoApp) : reachable s -> wf s.
Proof.
  intros (model & cs & <-). apply app_run_wf. split; cbn; constructor.
Qed.

Lemma app_stamped_mono (c0 c1 : Z) (s : TodoApp) : c0 <= c1 -> stamped c0 s -> stamped c1 s.
Proof.
  intros Hc H. eapply Forall_impl; [|exact H]. cbn. lia.
Qed.

Lemma app_run_stamped (cs : list call) (s : TodoApp) (c0 : Z) :
  stamped c0 s -> nondecreasing_from c0 (readings cs) ->
  exists c1, stamped c1 (snd (run cs s)).
Proof.
  revert s c0. induction cs as [|c cs IH]; intros s c0 Hs Hc; cbn [run].
  - exists c0. exact Hs.
  - assert (Hnext : exists c1, stamped c1 (snd (step c s)) /\
                               nondecreasing_from c1 (readings cs)).
    { destruct c as [|todo_id|ti de st t0 t1|todo_id ti de st now|todo_id];
        cbn [readings] in Hc; cbn [step list_todos get_todo fst snd].
      - exists c0. auto.
      - exists c0. auto.
      - destruct Hc as (Hle0 & Hle1 & Hc). exists t1. split; [|exact Hc].
        unfold stamped. cbn. apply Forall_app. split.
        + apply (app_stamped_mono c0 t1 s); [lia|exact Hs].
        + repeat constructor; cbn; lia.
      - destruct Hc as [Hle Hc]. exists now. split; [|exact Hc].
        unfold update_todo. cbn.
        destruct (find_todo todo_id (todos s)) as [t|] eqn:Hf.
        + destruct (assign_first_Some todo_id (assign ti de st now) _ _
                      (assign_id _ _ _ _) Hf) as (_ & _ & _ & Hin).
          cbn. unfold stamped. cbn. apply Forall_forall. intros x Hx.
          apply app_find_todo_In in Hf as [Hf _].
          unfold stamped in Hs. rewrite Forall_forall in Hs.
          destruct (Hin x Hx) as [->|Hx'].
          * specialize (Hs t Hf).
            destruct (assign_stamps ti de st now t) as [-> ->]. lia.
          * specialize (Hs x Hx'). lia.
        + cbn. exact (app_stamped_mono _ _ _ Hle Hs).
      - exists c0. split; [|exact Hc]. unfold delete_todo.
        destruct (delete_loop todo_id (todos s)) as [l'|] eqn:Hd; cbn; [|exact Hs].
        destruct (app_delete_loop_ids _ _ _ Hd) as [Hin _].
        unfold stamped in *. cbn. rewrite Forall_forall in *. auto. }
    destruct Hnext as (c1 & H1 & Hc1).
    destruct (step c s) as [r s1]. cbn [snd] in H1.
    specialize (IH s1 c1 H1 Hc1). destruct (run cs s1) as [rs s2]. exact IH.
Qed.

Lemma app_run_reads (cs : list call) (s : TodoApp) :
  forallb is_read cs = true ->
  run cs s = (map (fun c => fst (step c s)) cs, s).
Proof.
  induction cs as [|c cs IH]; cbn [run forallb map]; [reflexivity|].
  intros H. apply andb_prop in H as [Hc Hcs].
  destruct c; try discriminate; cbn [step list_todos get_todo];
    rewrite (IH Hcs); reflexivity.
Qed.

Lemma app_run_app (cs cs' : list call) (s : TodoApp) :
  snd (run (cs ++ cs') s) = snd (run cs' (snd (run cs s))).
Proof.
  revert s. induction cs as [|c cs IH]; intros s; cbn [app run]; [reflexivity|].
  destruct (step c s) as [r s1]. specialize (IH s1).
  destruct (run (cs ++ cs') s1) as [rs s2]. destruct (run cs s1) as [rs' s2'].
  exact IH.
Qed.

Lemma app_reachable_step (c : call) (s : TodoApp) :
  reachable s -> reachable (snd (step c s)).
Proof.
  intros (model & cs & <-). exists model, (cs ++ [c]). rewrite app_run_app. cbn [run].
  destruct (step c (snd (run cs (init model)))) as [r s1]. reflexivity.
Qed.

Lemma reachable_add_todo (ti de st : Py.value) (t0 t1 : Z) (s : TodoApp) :
  reachable s -> reachable (snd (add_todo ti de st t0 t1 s)).
Proof. intros H. exact (app_reachable_step (AddTodo ti de st t0 t1) s H). Qed.

Lemma app_reachable_update_todo (i ti de st : Py.value) (now : Z) (s : TodoApp) :
  reachable s -> reachable (snd (update_todo i ti de st now s)).
Proof.
  intros H. pose proof (app_reachable_step (UpdateTodo i ti de st now) s H) as H1.
  cbn [step] in H1. destruct (update_todo i ti de st now s). exact H1.
Qed.

Lemma app_reachable_delete_todo (i : Py.value) (s : TodoApp) :
  reachable s -> reachable (snd (delete_todo i s)).
Proof.
  intros H. pose proof (app_reachable_step (DeleteTodo i) s H) as H1.
  cbn [step] in H1. destruct (delete_todo i s). exact H1.
Qed.

(** The dispatch touches the store through its methods only: it keeps the
    instance among the reachable ones. *)
Lemma app_execute_action_reachable (action params : Py.value) (t0 t1 : Z) (s : TodoApp) :
  reachable s -> reachable (snd (execute_action action params t0 t1 s)).
Proof.
  intros H. unfold execute_action.
  repeat match goal with
         | |- context [if ?b then _ else _] => destruct b
         | |- context [match ?x with _ => _ end] => destruct x eqn:?
         end; cbn [snd]; try assumption;
    repeat match goal with
           | E : _ = (_, ?s1) |- reachable ?s1 =>
               apply (f_equal snd) in E; cbn [snd] in E; subst s1
           end;
    auto using reachable_add_todo, app_reachable_update_todo, app_reachable_delete_todo.
Qed.

Lemma add_todo_fresh (ti de st : Py.value) (t0 t1 : Z) (s : TodoApp) :
  reachable s -> ~ In (id (fst (add_todo ti de st t0 t1 s))) (map id (todos s)).
Proof.
  intros Hr Hin. apply app_reachable_wf in Hr as [_ Hlt]. cbn in Hin.
  apply in_map_iff in Hin as (t & Ht & Hin).
  rewrite Forall_forall in Hlt. specialize (Hlt t Hin). lia.
Qed.

Example app_scenario :
  run [AddTodo (Py.PStr "A") (Py.PStr "") (Py.PStr "pending") 1 2;
       AddTodo (Py.PStr "B") (Py.PStr "") (Py.PStr "pending") 3 4;
       UpdateTodo (Py.PInt 1) Py.PNone Py.PNone (Py.PStr "completed") 5;
       DeleteTodo (Py.PInt 2);
       ListTodos] (init false)
  = ([RAdded (mkTodo 1 (Py.PStr "A") (Py.PStr "") (Py.PStr "pending") 1 2);
      RAdded (mkTodo 2 (Py.PStr "B") (Py.PStr "") (Py.PStr "pending") 3 4);
      RUpdated true;
      RDeleted true;
      RTodos [mkTodo 1 (Py.PStr "A") (Py.PStr "") (Py.PStr "completed") 1 5]],
     mkTodoApp [mkTodo 1 (Py.PStr "A") (Py.PStr "") (Py.PStr "completed") 1 5] 3 false).
Proof. reflexivity. Qed.

(** [update_todo] skips an empty title and an empty status, but not an
    empty description. *)
Example app_update_guards :
  assign (Py.PStr "") (Py.PStr "") (Py.PStr "") 9
         (mkTodo 1 (Py.PStr "A") (Py.PStr "d") (Py.PStr "pending") 1 2)
  = mkTodo 1 (Py.PStr "A") (Py.PStr "") (Py.PStr "pending") 1 9.
Proof. reflexivity. Qed.

(** The dispatch on a decoded reply: a listing, a create, and a get with
    the id given as a string. *)
Example app_execute :
  fst (execute_action (Py.PStr "list") (Py.PDict []) 7 8 (init true)) = NoTodosFound
  /\ execute_action (Py.PStr "create") (Py.PDict [("title", Py.PStr "Buy milk")]) 7 8 (init true)
     = (Created (mkTodo 1 (Py.PStr "Buy milk") (Py.PStr "") (Py.PStr "pending") 7 8),
        mkTodoApp [mkTodo 1 (Py.PStr "Buy milk") (Py.PStr "") (Py.PStr "pending") 7 8] 2 true)
  /\ fst (execute_action (Py.PStr "get") (Py.PDict [("id", Py.PStr "1")]) 7 8
            (mkTodoApp [mkTodo 1 (Py.PStr "A") (Py.PStr "") (Py.PStr "pending") 1 2] 2 true))
     = TodoNotFound (Py.PStr "1").
Proof. repeat split; reflexivity. Qed.

End todo_app_facts.

(** ** The dispatch of [simple_gemini_client] on decoded replies *)

Module simple_gemini_client_facts.
Import database simple_gemini_client.

Example client_execute :
  execute_action strict_str (Py.PStr "create_todo")
    (Py.PDict [("title", Py.PStr "Buy milk")]) 7 init
  = (CreatedTodo (mkTodo 1 (Some "Buy milk") (Some "") (Some PENDING) 7 7),
     mkStore [mkTodo 1 (Some "Buy milk") (Some "") (Some PENDING) 7 7] 2)
  /\ execute_action strict_str (Py.PStr "create_todo")
       (Py.PDict [("title", Py.PStr "A"); ("status", Py.PStr "archived")]) 7 init
     = (ErrorCreating Py.ValueError, init)
  /\ execute_action strict_str (Py.PStr "update_todo")
       (Py.PDict [("todo_id", Py.PInt 1); ("status", Py.PStr "completed")]) 9 db_one
     = (UpdatedTodo (mkTodo 1 (Some "A") None (Some COMPLETED) 5 9),
        mkStore [mkTodo 1 (Some "A") None (Some COMPLETED) 5 9] 2)
  /\ execute_action strict_str (Py.PStr "update_todo")
       (Py.PDict [("todo_id", Py.PInt 1); ("status", Py.PStr "archived")]) 9 db_one
     = (ErrorExecuting Py.ValueError, db_one)
  /\ execute_action strict_str (Py.PStr "list") (Py.PDict []) 9 db_one
     = (UnknownAction (Py.PStr "list"), db_one).
Proof. repeat split; reflexivity. Qed.

(** A well-formed reply goes through to the dispatch. *)
Example client_process :
  process_natural_language
    (fun _ _ => Some "reply") (fun x => x)
    (fun _ => Some (Py.PDict [("action", Py.PStr "list_todos"); ("parameters", Py.PDict [])]))
    strict_str "show my todos" 9 db_one
  = (AllTodos (todos_db db_one), db_one).
Proof. reflexivity. Qed.

(** The dispatch touches the globals through the functions of [database]
    only: it keeps the store among the reachable ones. *)
Lemma execute_action_reachable
    (coerce_str : Py.value -> option string) (action parameters : Py.value) (now : Z)
    (s : Store) :
  database.reachable s ->
  database.reachable (snd (execute_action coerce_str action parameters now s)).
Proof.
  intros H. unfold execute_action.
  repeat match goal with
         | |- context [if ?b then _ else _] => destruct b
         | |- context [match ?x with _ => _ end] => destruct x eqn:?
         end; cbn [snd]; try assumption;
    repeat match goal with
           | E : _ = (_, ?s1) |- database.reachable ?s1 =>
               apply (f_equal snd) in E; cbn [snd] in E; subst s1
           end;
    auto using database_facts.reachable_create_todo, database_facts.reachable_update_todo,
      database_facts.reachable_delete_todo.
Qed.

End simple_gemini_client_facts.

(** ** The specification's claims *)

Import Py.

Lemma db_one_reachable : database.reachable db_one.
Proof.
  exists [database.CreateTodo (database.mkTodoCreate "A" None database.PENDING) 5].
  reflexivity.
Qed.

Lemma app_one_reachable : todo_app.reachable app_one.
Proof.
  exists true, [todo_app.AddTodo (PStr "A") (PStr "") (PStr "pending") 5 5].
  reflexivity.
Qed.

Lemma eq_str_neq (v : value) (a : string) : v <> PStr a -> eq_str v a = false.
Proof.
  intros H. destruct v; try reflexivity. cbn.
  destruct (String.eqb_spec s a) as [->|_]; [contradiction|reflexivity].
Qed.

(** C1.  Whatever calls a session makes on either store, and from whatever
    state it starts, the ids of the todos its [create] calls return are
    strictly increasing in call order, hence pairwise distinct, and none is
    below the counter the session started with: deleting a todo never
    brings its id back. *)
Theorem created_ids_strictly_increasing :
  (forall (cs : list database.call) (s : database.Store),
      StronglySorted Z.lt (database.created_ids (fst (database.run cs s))) /\
      NoDup (database.created_ids (fst (database.run cs s))) /\
      Forall (fun i => database.next_id s <= i)
             (database.created_ids (fst (database.run cs s)))) /\
  (forall (cs : list todo_app.call) (self : todo_app.TodoApp),
      StronglySorted Z.lt (todo_app.created_ids (fst (todo_app.run cs self))) /\
      NoDup (todo_app.created_ids (fst (todo_app.run cs self))) /\
      Forall (fun i => todo_app.next_id self <= i)
             (todo_app.created_ids (fst (todo_app.run cs self)))).
Proof.
  split.
  - intros cs s. destruct (database_facts.run_created_ids cs s) as (_ & Hs & Hall).
    repeat split; auto using database_facts.StronglySorted_lt_NoDup.
    eapply Forall_impl; [|exact Hall]. cbn. lia.
  - intros cs s. destruct (todo_app_facts.app_run_created_ids cs s) as (_ & Hs & Hall).
    repeat split; auto using database_facts.StronglySorted_lt_NoDup.
    eapply Forall_impl; [|exact Hall]. cbn. lia.
Qed.

(** C2, as the specification states it, fails: [create_todo] given an empty
    title raises nothing and appends the record, and so does [add_todo]. *)
Lemma create_accepts_empty_title :
  database.create_todo (database.mkTodoCreate "" None database.PENDING) 5 database.init
  = (database.mkTodo 1 (Some "") None (Some database.PENDING) 5 5,
     database.mkStore [database.mkTodo 1 (Some "") None (Some database.PENDING) 5 5] 2)
  /\ database.todos_db
       (snd (database.create_todo (database.mkTodoCreate "" None database.PENDING) 5
               database.init))
     <> database.todos_db database.init
  /\ todo_app.todos
       (snd (todo_app.add_todo (PStr "") (PStr "") (PStr "pending") 5 5 (todo_app.init true)))
     <> todo_app.todos (todo_app.init true).
Proof.
  split; [reflexivity|]. split; discriminate.
Qed.

(** C2, amended.  The store's create checks nothing: for every title, the
    empty one included, it appends a new todo carrying the next id and
    advances the counter; [create_todo] stamps [created_at] and
    [updated_at] with the one clock reading it takes, [add_todo] with the
    two readings the constructor takes.  An empty or absent title is turned
    down one level up, by the create action of either [execute_action],
    which answers that a title is required and leaves the store as it
    was. *)
Theorem create_stamps_and_title_guard
    (coerce_str : value -> option string)
    (todo_data : database.TodoCreate) (now : Z) (s : database.Store)
    (title description status : value) (t0 t1 : Z) (self : todo_app.TodoApp)
    (params : list (string * value)) :
  (database.id (fst (database.create_todo todo_data now s)) = database.next_id s /\
   database.title (fst (database.create_todo todo_data now s))
   = Some (database.c_title todo_data) /\
   database.description (fst (database.create_todo todo_data now s))
   = database.c_description todo_data /\
   database.status (fst (database.create_todo todo_data now s))
   = Some (database.c_status todo_data) /\
   database.created_at (fst (database.create_todo todo_data now s)) = now /\
   database.updated_at (fst (database.create_todo todo_data now s)) = now /\
   database.todos_db (snd (database.create_todo todo_data now s))
   = database.todos_db s ++ [fst (database.create_todo todo_data now s)] /\
   database.next_id (snd (database.create_todo todo_data now s)) = database.next_id s + 1) /\
  (todo_app.id (fst (todo_app.add_todo title description status t0 t1 self))
   = todo_app.next_id self /\
   todo_app.title (fst (todo_app.add_todo title description status t0 t1 self)) = title /\
   todo_app.created_at (fst (todo_app.add_todo title description status t0 t1 self)) = t0 /\
   todo_app.updated_at (fst (todo_app.add_todo title description status t0 t1 self)) = t1 /\
   todo_app.todos (snd (todo_app.add_todo title description status t0 t1 self))
   = todo_app.todos self ++ [fst (todo_app.add_todo title description status t0 t1 self)] /\
   todo_app.next_id (snd (todo_app.add_todo title description status t0 t1 self))
   = todo_app.next_id self + 1) /\
  (truthy (get params "title") = false ->
   simple_gemini_client.execute_action coerce_str (PStr "create_todo") (PDict params) now s
   = (simple_gemini_client.TitleRequired, s) /\
   todo_app.execute_action (PStr "create") (PDict params) t0 t1 self
   = (todo_app.TitleRequired, self)).
Proof.
  split; [|split].
  - cbn. repeat split; reflexivity.
  - cbn. repeat split; reflexivity.
  - intros Htitle. split.
    + unfold simple_gemini_client.execute_action. cbn. rewrite Htitle. reflexivity.
    + unfold todo_app.execute_action. cbn. rewrite Htitle. reflexivity.
Qed.

Lemma create_stamps_and_title_guard_witness :
  simple_gemini_client.execute_action strict_str (PStr "create_todo")
    (PDict [("title", PStr "")]) 7 db_one
  = (simple_gemini_client.TitleRequired, db_one) /\
  todo_app.execute_action (PStr "create") (PDict [("title", PStr "")]) 7 8 app_one
  = (todo_app.TitleRequired, app_one).
Proof.
  apply (create_stamps_and_title_guard strict_str
           (database.mkTodoCreate "B" None database.PENDING) 7 db_one
           (PStr "B") (PStr "") (PStr "pending") 7 8 app_one
           [("title", PStr "")]).
  reflexivity.
Defined.

(** The create and update actions of [simple_gemini_client] pass a supplied
    status through [TodoStatus(...)]: a value outside the enum raises, the
    action answers with the error and the store is untouched. *)
Lemma simple_client_rejects_unknown_status
    (coerce_str : value -> option string)
    (params : list (string * value)) (v : value) (now : Z) (s : database.Store) :
  lookup "status" params = Some v ->
  database.TodoStatus_call v = None ->
  (truthy (get params "title") = true ->
   simple_gemini_client.execute_action coerce_str (PStr "create_todo") (PDict params) now s
   = (simple_gemini_client.ErrorCreating ValueError, s)) /\
  (truthy (get params "todo_id") = true ->
   simple_gemini_client.execute_action coerce_str (PStr "update_todo") (PDict params) now s
   = (simple_gemini_client.ErrorExecuting ValueError, s)).
Proof.
  intros Hl Hv. split; intros Ht; unfold simple_gemini_client.execute_action; cbn.
  - rewrite Ht. cbn. unfold get_default. rewrite Hl, Hv. reflexivity.
  - rewrite Ht. cbn. unfold simple_gemini_client.update_status. rewrite Hl, Hv. reflexivity.
Qed.

(** [TodoApp.execute_action] stores whatever status its parameters carry:
    [add_todo] takes it as it is. *)
Lemma todo_app_stores_any_status
    (params : list (string * value)) (v : value) (t0 t1 : Z) (self : todo_app.TodoApp) :
  lookup "status" params = Some v ->
  truthy (get params "title") = true ->
  exists todo,
    todo_app.execute_action (PStr "create") (PDict params) t0 t1 self
    = (todo_app.Created todo,
       todo_app.mkTodoApp (todo_app.todos self ++ [todo]) (todo_app.next_id self + 1)
                          (todo_app.gemini_model self)) /\
    todo_app.status todo = v.
Proof.
  intros Hl Ht. eexists. unfold todo_app.execute_action. cbn. rewrite Ht. cbn.
  unfold get_default. rewrite Hl. split; reflexivity.
Qed.

(** C3 does not hold of [TodoApp]: asked to create a todo with the status
    "archived", its [execute_action] reports success and the record enters
    the store with that status; asked to set the status of todo 1 to
    "archived", it reports success and the record carries it. *)
Theorem todo_app_keeps_status_outside_enum :
  todo_app.execute_action (PStr "create")
    (PDict [("title", PStr "A"); ("status", PStr "archived")]) 10 11 (todo_app.init true)
  = (todo_app.Created (todo_app.mkTodo 1 (PStr "A") (PStr "") (PStr "archived") 10 11),
     todo_app.mkTodoApp [todo_app.mkTodo 1 (PStr "A") (PStr "") (PStr "archived") 10 11] 2 true)
  /\
  todo_app.execute_action (PStr "update")
    (PDict [("id", PInt 1); ("status", PStr "archived")]) 20 21 app_one
  = (todo_app.Updated (PInt 1),
     todo_app.mkTodoApp [todo_app.mkTodo 1 (PStr "A") (PStr "") (PStr "archived") 5 20] 2 true)
  /\
  database.TodoStatus_call (PStr "archived") = None.
Proof.
  repeat split; reflexivity.
Qed.

(** C4, as the specification states it, fails on its last clause: when the
    clock reads at the update what it read at the previous write, the
    refreshed [updated_at] equals the prior one. *)
Lemma update_title_same_reading :
  database.find_todo (PInt 1) (database.todos_db db_one)
  = Some (database.mkTodo 1 (Some "A") None (Some database.PENDING) 5 5)
  /\ fst (database.update_todo (PInt 1)
            (database.mkTodoUpdate (Some (Some "X")) None None) 5 db_one)
     = Some (database.mkTodo 1 (Some "X") None (Some database.PENDING) 5 5)
  /\ ~ (database.updated_at (database.mkTodo 1 (Some "A") None (Some database.PENDING) 5 5)
        < database.updated_at (database.mkTodo 1 (Some "X") None (Some database.PENDING) 5 5)).
Proof.
  split; [reflexivity|]. split; [reflexivity|]. cbn. lia.
Qed.

(** C4, amended.  For every existing id, an update that supplies only a
    (non-empty) title rewrites the record with that id and no other: the
    title becomes the new one, id, description, status and [created_at]
    keep their values, the counter and the records under other ids are
    untouched, and [updated_at] becomes the clock reading of the call, so
    it exceeds its prior value whenever that reading does, and does not
    fall below it unless the clock ran backwards. *)
Theorem update_title_only
    (s : database.Store) (self : todo_app.TodoApp) (i : Z) (x : string) (now : Z)
    (t : database.Todo) (a : todo_app.Todo) :
  (database.find_todo (PInt i) (database.todos_db s) = Some t ->
   exists t' s',
      database.update_todo (PInt i) (database.mkTodoUpdate (Some (Some x)) None None) now s
      = (Some t', s') /\
      fst (database.get_todo (PInt i) s') = Some t' /\
      database.title t' = Some x /\
      database.id t' = database.id t /\
      database.description t' = database.description t /\
      database.status t' = database.status t /\
      database.created_at t' = database.created_at t /\
      database.updated_at t' = now /\
      (database.updated_at t < now -> database.updated_at t < database.updated_at t') /\
      (database.updated_at t <= now -> database.updated_at t <= database.updated_at t') /\
      database.next_id s' = database.next_id s /\
      (forall j, j <> i ->
         database.find_todo (PInt j) (database.todos_db s')
         = database.find_todo (PInt j) (database.todos_db s))) /\
  (todo_app.find_todo (PInt i) (todo_app.todos self) = Some a ->
   x <> "" ->
   exists a' self',
      todo_app.update_todo (PInt i) (PStr x) PNone PNone now self = (true, self') /\
      fst (todo_app.get_todo (PInt i) self') = Some a' /\
      todo_app.title a' = PStr x /\
      todo_app.id a' = todo_app.id a /\
      todo_app.description a' = todo_app.description a /\
      todo_app.status a' = todo_app.status a /\
      todo_app.created_at a' = todo_app.created_at a /\
      todo_app.updated_at a' = now /\
      (todo_app.updated_at a < now -> todo_app.updated_at a < todo_app.updated_at a') /\
      (todo_app.updated_at a <= now -> todo_app.updated_at a <= todo_app.updated_at a') /\
      todo_app.next_id self' = todo_app.next_id self /\
      (forall j, j <> i ->
         todo_app.find_todo (PInt j) (todo_app.todos self')
         = todo_app.find_todo (PInt j) (todo_app.todos self))).
Proof.
  split.
  - intros Hf.
    destruct (database_facts.update_loop_Some _
                (database.mkTodoUpdate (Some (Some x)) None None) now _ _ Hf)
      as [l' (Hu & Hf' & _ & _ & Ho & _)].
    exists (database.apply_update (database.mkTodoUpdate (Some (Some x)) None None) now t).
    exists (database.mkStore l' (database.next_id s)).
    unfold database.update_todo. rewrite Hu. cbn.
    repeat split; auto.
    intros j Hj. apply Ho. cbn.
    apply database_facts.find_todo_In in Hf as [_ Hid]. cbn in Hid.
    apply Z.eqb_eq in Hid. apply Z.eqb_neq. lia.
  - intros Ha Hx.
    assert (Hne : truthy (PStr x) = true).
    { cbn. destruct (String.eqb_spec x ""); [contradiction|reflexivity]. }
    destruct (todo_app_facts.assign_first_Some (PInt i)
                (todo_app.assign (PStr x) PNone PNone now) _ _
                (todo_app_facts.assign_id _ _ _ _) Ha) as (Hf' & _ & Ho & _).
    pose (a' := todo_app.assign (PStr x) PNone PNone now a).
    assert (Ea : a' = todo_app.mkTodo (todo_app.id a) (PStr x) (todo_app.description a)
                        (todo_app.status a) (todo_app.created_at a) now).
    { subst a'. destruct a. unfold todo_app.assign. rewrite Hne. reflexivity. }
    exists a'. eexists.
    unfold todo_app.update_todo. cbn [todo_app.get_todo]. rewrite Ha.
    split; [reflexivity|]. cbn [fst todo_app.get_todo todo_app.todos todo_app.next_id].
    split; [exact Hf'|]. rewrite Ea. cbn.
    repeat split; auto.
    intros j Hj. apply Ho. cbn.
    apply todo_app_facts.app_find_todo_In in Ha as [_ Hid]. cbn in Hid.
    apply Z.eqb_eq in Hid. apply Z.eqb_neq. lia.
Qed.

Lemma update_title_only_witness :
  exists t' s',
    database.update_todo (PInt 1) (database.mkTodoUpdate (Some (Some "X")) None None) 9 db_one
    = (Some t', s') /\
    database.title t' = Some "X" /\
    database.description t' = None /\
    database.status t' = Some database.PENDING /\
    database.updated_at t' = 9.
Proof.
  destruct (proj1 (update_title_only db_one app_one 1 "X" 9
                     (database.mkTodo 1 (Some "A") None (Some database.PENDING) 5 5)
                     (todo_app.mkTodo 1 (PStr "A") (PStr "") (PStr "pending") 5 5))
              eq_refl)
    as (t' & s' & H1 & _ & H2 & _ & H3 & H4 & _ & H5 & _).
  exists t', s'. repeat split; assumption.
Defined.

(** C5.  In every state a session can reach, on either store: [delete]
    returns true exactly when some record carries the id; after a delete
    that returned true, [get] of that id finds nothing; a delete that
    returned false hands back the state it was given. *)
Theorem delete_spec (s : database.Store) (self : todo_app.TodoApp) (i : Z) :
  (database.reachable s ->
   (fst (database.delete_todo (PInt i) s) = true <->
    exists t, In t (database.todos_db s) /\ database.id t = i) /\
   (fst (database.delete_todo (PInt i) s) = true ->
    fst (database.get_todo (PInt i) (snd (database.delete_todo (PInt i) s))) = None) /\
   (fst (database.delete_todo (PInt i) s) = false ->
    snd (database.delete_todo (PInt i) s) = s)) /\
  (todo_app.reachable self ->
   (fst (todo_app.delete_todo (PInt i) self) = true <->
    exists t, In t (todo_app.todos self) /\ todo_app.id t = i) /\
   (fst (todo_app.delete_todo (PInt i) self) = true ->
    fst (todo_app.get_todo (PInt i) (snd (todo_app.delete_todo (PInt i) self))) = None) /\
   (fst (todo_app.delete_todo (PInt i) self) = false ->
    snd (todo_app.delete_todo (PInt i) self) = self)).
Proof.
  split.
  - intros Hs. apply database_facts.reachable_wf in Hs as [Hnd _].
    unfold database.delete_todo.
    destruct (database.delete_loop (PInt i) (database.todos_db s)) as [l'|] eqn:Hd; cbn.
    + repeat split; try discriminate.
      * destruct (database.find_todo (PInt i) (database.todos_db s)) as [t|] eqn:Hf.
        -- apply database_facts.find_todo_In in Hf as [Hin Hid]. cbn in Hid.
           exists t. split; [assumption|]. now apply Z.eqb_eq.
        -- apply database_facts.delete_loop_None in Hf. congruence.
      * intros _. eapply database_facts.delete_loop_gone; eassumption.
    + repeat split; try discriminate.
      intros (t & Hin & Hid). exfalso.
      apply database_facts.delete_loop_None in Hd.
      destruct (database_facts.find_todo_present i (database.todos_db s)) as [t' Ht'].
      { apply in_map_iff. exists t. auto. }
      congruence.
  - intros Ha. apply todo_app_facts.app_reachable_wf in Ha as [Hnd' _].
    unfold todo_app.delete_todo.
    destruct (todo_app.delete_loop (PInt i) (todo_app.todos self)) as [l'|] eqn:Hd; cbn.
    + repeat split; try discriminate.
      * destruct (todo_app.find_todo (PInt i) (todo_app.todos self)) as [t|] eqn:Hf.
        -- apply todo_app_facts.app_find_todo_In in Hf as [Hin Hid]. cbn in Hid.
           exists t. split; [assumption|]. now apply Z.eqb_eq.
        -- apply todo_app_facts.app_delete_loop_None in Hf. congruence.
      * intros _. eapply todo_app_facts.app_delete_loop_gone; eassumption.
    + repeat split; try discriminate.
      intros (t & Hin & Hid). exfalso.
      apply todo_app_facts.app_delete_loop_None in Hd.
      destruct (todo_app_facts.app_find_todo_present i (todo_app.todos self)) as [t' Ht'].
      { apply in_map_iff. exists t. auto. }
      congruence.
Qed.

Lemma delete_spec_witness :
  fst (database.delete_todo (PInt 1) db_one) = true /\
  fst (database.get_todo (PInt 1) (snd (database.delete_todo (PInt 1) db_one))) = None /\
  snd (todo_app.delete_todo (PInt 2) app_one) = app_one.
Proof.
  split; [reflexivity|]. split.
  - exact (proj1 (proj2 (proj1 (delete_spec db_one app_one 1) db_one_reachable)) eq_refl).
  - exact (proj2 (proj2 (proj2 (delete_spec db_one app_one 2) app_one_reachable)) eq_refl).
Defined.

(** C6.  When the service's reply does not decode to an object (it is not
    JSON at all, or it is JSON for something else), either front end
    returns an error message from the decoding step and the state it was
    given, whatever [execute_action] would do: that method is not
    reached. *)
Theorem malformed_reply_never_executed
    (generate_content : list database.Todo -> string -> option string)
    (app_generate_content : list todo_app.Todo -> string -> option string)
    (strip : string -> string) (json_loads : string -> option value)
    (coerce_str : value -> option string)
    (user_input text : string) (now t0 t1 : Z)
    (s : database.Store) (self : todo_app.TodoApp) :
  (forall d, json_loads (strip text) <> Some (PDict d)) ->
  (generate_content (database.todos_db s) user_input = Some text ->
   (forall exec,
       simple_gemini_client.process_natural_language_with
         generate_content strip json_loads exec user_input now s
       = (match json_loads (strip text) with
          | None => simple_gemini_client.ErrorParsing
          | Some _ => simple_gemini_client.ErrorProcessing AttributeError
          end, s)) /\
   simple_gemini_client.process_natural_language
     generate_content strip json_loads coerce_str user_input now s
   = (match json_loads (strip text) with
      | None => simple_gemini_client.ErrorParsing
      | Some _ => simple_gemini_client.ErrorProcessing AttributeError
      end, s)) /\
  (app_generate_content (todo_app.todos self) user_input = Some text ->
   todo_app.gemini_model self = true ->
   (forall exec,
       todo_app.process_ai_command_with
         app_generate_content strip json_loads exec user_input t0 t1 self
       = (match json_loads (strip text) with
          | None => todo_app.Error JSONDecodeError
          | Some _ => todo_app.Error AttributeError
          end, self)) /\
   todo_app.process_ai_command app_generate_content strip json_loads user_input t0 t1 self
   = (match json_loads (strip text) with
      | None => todo_app.Error JSONDecodeError
      | Some _ => todo_app.Error AttributeError
      end, self)).
Proof.
  intros Hbad. split.
  - intros Hg.
    assert (H1 : forall exec,
      simple_gemini_client.process_natural_language_with
        generate_content strip json_loads exec user_input now s
      = (match json_loads (strip text) with
         | None => simple_gemini_client.ErrorParsing
         | Some _ => simple_gemini_client.ErrorProcessing AttributeError
         end, s)).
    { intros exec. unfold simple_gemini_client.process_natural_language_with.
      cbn [database.get_todos]. rewrite Hg.
      destruct (json_loads (strip text)) as [[| | | | | |d]|] eqn:E; try reflexivity.
      exfalso. exact (Hbad d eq_refl). }
    split; [exact H1|apply H1].
  - intros Hg Hm.
    assert (H2 : forall exec,
      todo_app.process_ai_command_with
        app_generate_content strip json_loads exec user_input t0 t1 self
      = (match json_loads (strip text) with
         | None => todo_app.Error JSONDecodeError
         | Some _ => todo_app.Error AttributeError
         end, self)).
    { intros exec. unfold todo_app.process_ai_command_with. rewrite Hm, Hg. cbn [negb].
      destruct (json_loads (strip text)) as [[| | | | | |d]|] eqn:E; try reflexivity.
      exfalso. exact (Hbad d eq_refl). }
    split; [exact H2|apply H2].
Qed.

Lemma malformed_reply_never_executed_witness :
  simple_gemini_client.process_natural_language
    (fun _ _ => Some "sure, here you go") (fun x => x) (fun _ => None) strict_str
    "add milk" 7 db_one
  = (simple_gemini_client.ErrorParsing, db_one) /\
  todo_app.process_ai_command
    (fun _ _ => Some "[1, 2]") (fun x => x) (fun _ => Some (PList [PInt 1; PInt 2]))
    "add milk" 7 8 app_one
  = (todo_app.Error AttributeError, app_one).
Proof.
  split.
  - exact (proj2 (proj1
      (malformed_reply_never_executed
         (fun _ _ => Some "sure, here you go") (fun _ _ => Some "sure, here you go")
         (fun x => x) (fun _ => None) strict_str
         "add milk" "sure, here you go" 7 7 8 db_one app_one
         ltac:(discriminate)) eq_refl)).
  - exact (proj2 (proj2
      (malformed_reply_never_executed
         (fun _ _ => Some "[1, 2]") (fun _ _ => Some "[1, 2]")
         (fun x => x) (fun _ => Some (PList [PInt 1; PInt 2])) strict_str
         "add milk" "[1, 2]" 7 7 8 db_one app_one
         ltac:(discriminate)) eq_refl eq_refl)).
Defined.

(** C7.  A reply that decodes to an object whose action is none of the
    names the dispatch knows is answered with the unknown-action message,
    and the state is handed back as it was; the same holds of
    [execute_action] called directly, whatever the parameters. *)
Theorem unknown_action_rejected
    (generate_content : list database.Todo -> string -> option string)
    (app_generate_content : list todo_app.Todo -> string -> option string)
    (strip : string -> string) (json_loads : string -> option value)
    (coerce_str : value -> option string)
    (user_input text : string) (now t0 t1 : Z)
    (s : database.Store) (self : todo_app.TodoApp)
    (reply : list (string * value)) (action : value) :
  ((forall a, In a simple_gemini_client.actions -> action <> PStr a) ->
   (forall parameters,
       simple_gemini_client.execute_action coerce_str action parameters now s
       = (simple_gemini_client.UnknownAction action, s)) /\
   (generate_content (database.todos_db s) user_input = Some text ->
    json_loads (strip text) = Some (PDict reply) ->
    lookup "action" reply = Some action ->
    simple_gemini_client.process_natural_language
      generate_content strip json_loads coerce_str user_input now s
    = (simple_gemini_client.UnknownAction action, s))) /\
  ((forall a, In a todo_app.actions -> action <> PStr a) ->
   (forall params,
       todo_app.execute_action action params t0 t1 self
       = (todo_app.UnknownAction action, self)) /\
   (app_generate_content (todo_app.todos self) user_input = Some text ->
    todo_app.gemini_model self = true ->
    json_loads (strip text) = Some (PDict reply) ->
    lookup "action" reply = Some action ->
    todo_app.process_ai_command app_generate_content strip json_loads user_input t0 t1 self
    = (todo_app.UnknownAction action, self))).
Proof.
  split; intros Hun.
  - assert (He : forall parameters,
       simple_gemini_client.execute_action coerce_str action parameters now s
       = (simple_gemini_client.UnknownAction action, s)).
    { intros parameters. unfold simple_gemini_client.execute_action.
      rewrite !eq_str_neq by (apply Hun; cbn; auto 6). reflexivity. }
    split; [exact He|]. intros Hg Hj Ha.
    unfold simple_gemini_client.process_natural_language,
      simple_gemini_client.process_natural_language_with.
    cbn [database.get_todos]. rewrite Hg, Hj. unfold get at 1. rewrite Ha. apply He.
  - assert (He : forall params,
       todo_app.execute_action action params t0 t1 self
       = (todo_app.UnknownAction action, self)).
    { intros params. unfold todo_app.execute_action.
      rewrite !eq_str_neq by (apply Hun; cbn; auto 6). reflexivity. }
    split; [exact He|]. intros Hg Hm Hj Ha.
    unfold todo_app.process_ai_command, todo_app.process_ai_command_with.
    rewrite Hm, Hg, Hj. cbn [negb]. unfold get at 1. rewrite Ha. apply He.
Qed.

Lemma unknown_action_rejected_witness :
  todo_app.process_ai_command
    (fun _ _ => Some "archive it") (fun x => x)
    (fun _ => Some (PDict [("action", PStr "archive"); ("parameters", PDict [])]))
    "archive todo 1" 7 8 app_one
  = (todo_app.UnknownAction (PStr "archive"), app_one).
Proof.
  refine (proj2 (proj2
    (unknown_action_rejected
       (fun _ _ => Some "archive it") (fun _ _ => Some "archive it") (fun x => x)
       (fun _ => Some (PDict [("action", PStr "archive"); ("parameters", PDict [])]))
       strict_str
       "archive todo 1" "archive it" 7 7 8 db_one app_one
       [("action", PStr "archive"); ("parameters", PDict [])] (PStr "archive")) _)
    eq_refl eq_refl eq_refl eq_refl).
  intros a Hin. cbn in Hin.
  repeat (destruct Hin as [<-|Hin]; [discriminate|]). destruct Hin.
Defined.

(** C8.  A get whose parameters carry no id ([id] for [TodoApp], [todo_id]
    for [simple_gemini_client]) is answered with the id-required message,
    and the state, collection and counter alike, is handed back as it
    was. *)
Theorem get_without_id_rejected
    (coerce_str : value -> option string)
    (params : list (string * value)) (now t0 t1 : Z)
    (s : database.Store) (self : todo_app.TodoApp) :
  (lookup "id" params = None ->
   todo_app.execute_action (PStr "get") (PDict params) t0 t1 self
   = (todo_app.TodoIdRequired, self)) /\
  (lookup "todo_id" params = None ->
   simple_gemini_client.execute_action coerce_str (PStr "get_todo") (PDict params) now s
   = (simple_gemini_client.TodoIdRequired, s)).
Proof.
  split; intros H.
  - unfold todo_app.execute_action. cbn. unfold get. rewrite H. reflexivity.
  - unfold simple_gemini_client.execute_action. cbn. unfold get. rewrite H. reflexivity.
Qed.

Lemma get_without_id_rejected_witness :
  todo_app.execute_action (PStr "get") (PDict []) 7 8 app_one
  = (todo_app.TodoIdRequired, app_one) /\
  simple_gemini_client.execute_action strict_str (PStr "get_todo")
    (PDict [("id", PInt 1)]) 7 db_one
  = (simple_gemini_client.TodoIdRequired, db_one).
Proof.
  split.
  - exact (proj1 (get_without_id_rejected strict_str [] 7 7 8 db_one app_one) eq_refl).
  - exact (proj2 (get_without_id_rejected strict_str [("id", PInt 1)] 7 7 8 db_one app_one)
             eq_refl).
Defined.

(** C9, as the specification states it, fails on its last clause: the
    stamps are whatever the clock reads, so when the clock has stepped back
    between a create and an update, or between the two readings of
    [Todo.__init__], the record is left with [updated_at < created_at]. *)
Lemma clock_stepping_back_breaks_order :
  database.todos_db
    (snd (database.run
            [database.CreateTodo (database.mkTodoCreate "A" None database.PENDING) 5;
             database.UpdateTodo (PInt 1) (database.mkTodoUpdate None None None) 3]
            database.init))
  = [database.mkTodo 1 (Some "A") None (Some database.PENDING) 5 3]
  /\ ~ Forall (fun r => database.created_at r <= database.updated_at r)
         (database.todos_db
            (snd (database.run
                    [database.CreateTodo (database.mkTodoCreate "A" None database.PENDING) 5;
                     database.UpdateTodo (PInt 1) (database.mkTodoUpdate None None None) 3]
                    database.init)))
  /\ todo_app.todos
       (snd (todo_app.run [todo_app.AddTodo (PStr "A") (PStr "") (PStr "pending") 6 5]
               (todo_app.init true)))
     = [todo_app.mkTodo 1 (PStr "A") (PStr "") (PStr "pending") 6 5]
  /\ ~ Forall (fun r => todo_app.created_at r <= todo_app.updated_at r)
         (todo_app.todos
            (snd (todo_app.run [todo_app.AddTodo (PStr "A") (PStr "") (PStr "pending") 6 5]
                    (todo_app.init true)))).
Proof.
  split; [reflexivity|]. split; [|split; [reflexivity|]].
  - cbn. intros H. inversion H as [|? ? Hle _]; subst. cbn in Hle. lia.
  - cbn. intros H. inversion H as [|? ? Hle _]; subst. cbn in Hle. lia.
Qed.

(** C9, amended.  For every existing id, an update stamps the record with
    the clock reading of the call, whatever fields it supplies; with none
    supplied the record is otherwise exactly what it was.  Provided the
    clock never runs backwards over a session, after each of its calls
    (after every initial part [cs] of the session [cs ++ cs']) every record
    in the store has [updated_at >= created_at]. *)
Theorem update_refreshes_updated_at
    (s : database.Store) (self : todo_app.TodoApp) (i : Z)
    (todo_data : database.TodoUpdate) (title description status : value) (now : Z)
    (t : database.Todo) (a : todo_app.Todo)
    (c0 : Z) (cs cs' : list database.call) (acs acs' : list todo_app.call)
    (model : bool) :
  (database.find_todo (PInt i) (database.todos_db s) = Some t ->
   (exists t' s',
       database.update_todo (PInt i) todo_data now s = (Some t', s') /\
       fst (database.get_todo (PInt i) s') = Some t' /\
       database.updated_at t' = now /\
       database.created_at t' = database.created_at t) /\
   (exists s',
       database.update_todo (PInt i) (database.mkTodoUpdate None None None) now s
       = (Some (database.mkTodo (database.id t) (database.title t) (database.description t)
                  (database.status t) (database.created_at t) now), s'))) /\
  (todo_app.find_todo (PInt i) (todo_app.todos self) = Some a ->
   (exists a' self',
       todo_app.update_todo (PInt i) title description status now self = (true, self') /\
       fst (todo_app.get_todo (PInt i) self') = Some a' /\
       todo_app.updated_at a' = now /\
       todo_app.created_at a' = todo_app.created_at a) /\
   (exists self',
       todo_app.update_todo (PInt i) PNone PNone PNone now self = (true, self') /\
       fst (todo_app.get_todo (PInt i) self')
       = Some (todo_app.mkTodo (todo_app.id a) (todo_app.title a) (todo_app.description a)
                 (todo_app.status a) (todo_app.created_at a) now))) /\
  (nondecreasing_from c0 (database.readings (cs ++ cs')) ->
   Forall (fun r => database.created_at r <= database.updated_at r)
          (database.todos_db (snd (database.run cs database.init)))) /\
  (nondecreasing_from c0 (todo_app.readings (acs ++ acs')) ->
   Forall (fun r => todo_app.created_at r <= todo_app.updated_at r)
          (todo_app.todos (snd (todo_app.run acs (todo_app.init model))))).
Proof.
  repeat apply conj.
  - intros Hf. split.
    + destruct (database_facts.update_loop_Some _ todo_data now _ _ Hf)
        as [l' (Hu & Hf' & _)].
      do 2 eexists. unfold database.update_todo. rewrite Hu.
      split; [reflexivity|]. split; [exact Hf'|]. split; reflexivity.
    + destruct (database_facts.update_loop_Some _ (database.mkTodoUpdate None None None)
                  now _ _ Hf) as [l' (Hu & _)].
      eexists. unfold database.update_todo. rewrite Hu. reflexivity.
  - intros Ha. split.
    + destruct (todo_app_facts.assign_first_Some (PInt i)
                  (todo_app.assign title description status now) _ _
                  (todo_app_facts.assign_id _ _ _ _) Ha) as (Hf' & _).
      destruct (todo_app_facts.assign_stamps title description status now a) as [Hcr Hup].
      do 2 eexists. unfold todo_app.update_todo. cbn [todo_app.get_todo]. rewrite Ha.
      split; [reflexivity|]. split; [exact Hf'|]. split; assumption.
    + destruct (todo_app_facts.assign_first_Some (PInt i)
                  (todo_app.assign PNone PNone PNone now) _ _
                  (todo_app_facts.assign_id _ _ _ _) Ha) as (Hf' & _).
      eexists. unfold todo_app.update_todo. cbn [todo_app.get_todo]. rewrite Ha.
      split; [reflexivity|]. cbn [fst todo_app.get_todo todo_app.todos].
      rewrite Hf'. destruct a. reflexivity.
  - intros Hc. rewrite database_facts.readings_app in Hc.
    apply nondecreasing_from_app in Hc.
    destruct (database_facts.run_stamped cs database.init c0) as [c1 H1];
      [constructor|assumption|].
    eapply Forall_impl; [|exact H1]. cbn. lia.
  - intros Hc. rewrite todo_app_facts.app_readings_app in Hc.
    apply nondecreasing_from_app in Hc.
    destruct (todo_app_facts.app_run_stamped acs (todo_app.init model) c0) as [c1 H1];
      [constructor|assumption|].
    eapply Forall_impl; [|exact H1]. cbn. lia.
Qed.

Lemma update_refreshes_updated_at_witness :
  (exists s',
      database.update_todo (PInt 1) (database.mkTodoUpdate None None None) 8 db_one
      = (Some (database.mkTodo 1 (Some "A") None (Some database.PENDING) 5 8), s')) /\
  Forall (fun r => todo_app.created_at r <= todo_app.updated_at r)
    (todo_app.todos
       (snd (todo_app.run
               [todo_app.AddTodo (PStr "A") (PStr "") (PStr "pending") 5 6;
                todo_app.UpdateTodo (PInt 1) PNone PNone PNone 8]
               (todo_app.init true)))).
Proof.
  pose proof (update_refreshes_updated_at db_one app_one 1
       (database.mkTodoUpdate None None None) PNone PNone PNone 8
       (database.mkTodo 1 (Some "A") None (Some database.PENDING) 5 5)
       (todo_app.mkTodo 1 (PStr "A") (PStr "") (PStr "pending") 5 5)
       0
       [database.CreateTodo (database.mkTodoCreate "A" None database.PENDING) 5;
        database.UpdateTodo (PInt 1) (database.mkTodoUpdate None None None) 8]
       [database.DeleteTodo (PInt 1)]
       [todo_app.AddTodo (PStr "A") (PStr "") (PStr "pending") 5 6;
        todo_app.UpdateTodo (PInt 1) PNone PNone PNone 8]
       [todo_app.AddTodo (PStr "B") (PStr "") (PStr "pending") 9 9]
       true) as (Hdb & _ & _ & Happ).
  split.
  - exact (proj2 (Hdb eq_refl)).
  - apply Happ. cbn. lia.
Defined.

(** C10.  Reads change nothing, on either store: [list] and [get], for any
    id, hand back the state they were given, and a session made of reads
    only, of any length and in any order, ends in the state it started in,
    each read returning what it returns on that state. *)
Theorem reads_are_pure
    (s : database.Store) (self : todo_app.TodoApp)
    (cs : list database.call) (acs : list todo_app.call) :
  snd (database.get_todos s) = s /\
  (forall i, snd (database.get_todo i s) = s) /\
  (forallb database.is_read cs = true ->
   database.run cs s = (map (fun c => fst (database.step c s)) cs, s)) /\
  snd (todo_app.list_todos self) = self /\
  (forall i, snd (todo_app.get_todo i self) = self) /\
  (forallb todo_app.is_read acs = true ->
   todo_app.run acs self = (map (fun c => fst (todo_app.step c self)) acs, self)).
Proof.
  repeat split.
  - apply database_facts.run_reads.
  - apply todo_app_facts.app_run_reads.
Qed.

Lemma reads_are_pure_witness :
  database.run [database.GetTodos; database.GetTodo (PInt 1); database.GetTodos] db_one
  = ([database.RTodos (database.todos_db db_one);
      database.RFound (Some (database.mkTodo 1 (Some "A") None (Some database.PENDING) 5 5));
      database.RTodos (database.todos_db db_one)], db_one).
Proof.
  exact (proj1 (proj2 (proj2
    (reads_are_pure db_one app_one
       [database.GetTodos; database.GetTodo (PInt 1); database.GetTodos]
       [todo_app.ListTodos; todo_app.GetTodo (PInt 1)]))) eq_refl).
Defined.

(** ** Further properties of the two stores *)

Lemma Z_sorted_snoc (l : list Z) (x : Z) :
  StronglySorted Z.lt l -> Forall (fun y => y < x) l -> StronglySorted Z.lt (l ++ [x]).
Proof.
  induction 1 as [|a l Hs IH Ha]; intros Hx; cbn.
  - repeat constructor.
  - inversion Hx as [|? ? Hax Hlx]; subst. constructor; [auto|].
    apply Forall_app. split; [assumption|]. repeat constructor. exact Hax.
Qed.

Lemma created_prefix (k : Z) (n : nat) :
  map (fun j => k + Z.of_nat j) (seq 0 (S n))
  = k :: map (fun j => (k + 1) + Z.of_nat j) (seq 0 n).
Proof.
  cbn [seq map]. f_equal; [lia|].
  rewrite <- seq_shift, map_map. apply map_ext. intros j. lia.
Qed.

Module database_order.
Import database database_facts.

Lemma find_todo_app (i : Py.value) (l1 l2 : list Todo) :
  find_todo i (l1 ++ l2)
  = match find_todo i l1 with Some t => Some t | None => find_todo i l2 end.
Proof.
  induction l1 as [|a l1 IH]; cbn; [reflexivity|].
  destruct (Py.eq_int (id a) i); [reflexivity|exact IH].
Qed.

Lemma find_todo_unique (i : Z) (l : list Todo) (t : Todo) :
  NoDup (map id l) -> In t l -> id t = i -> find_todo (Py.PInt i) l = Some t.
Proof.
  induction l as [|a l IH]; cbn; [tauto|].
  intros Hnd [->|Hin] Hid; inversion Hnd as [|? ? Hnot Hrest]; subst.
  - now rewrite Z.eqb_refl.
  - destruct (Z.eqb_spec (id a) (id t)) as [e|_]; [|auto].
    exfalso. apply Hnot. rewrite e. now apply in_map.
Qed.

Lemma delete_loop_split (i : Py.value) (l l' : list Todo) :
  delete_loop i l = Some l' ->
  exists l1 t l2,
    l = l1 ++ t :: l2 /\ l' = l1 ++ l2 /\
    Py.eq_int (id t) i = true /\ find_todo i l1 = None.
Proof.
  revert l'. induction l as [|a l IH]; cbn; [discriminate|]. intros l'.
  destruct (Py.eq_int (id a) i) eqn:E.
  - intros [= <-]. exists [], a, l. auto.
  - destruct (delete_loop i l) as [l''|]; [|discriminate]. intros [= <-].
    destruct (IH l'' eq_refl) as (l1 & t & l2 & -> & -> & Ht & Hn).
    exists (a :: l1), t, l2. cbn. rewrite E. auto.
Qed.

Lemma delete_loop_sorted (i : Py.value) (l l' : list Todo) :
  delete_loop i l = Some l' ->
  StronglySorted Z.lt (map id l) -> StronglySorted Z.lt (map id l').
Proof.
  intros Hd. destruct (delete_loop_split _ _ _ Hd) as (l1 & t & l2 & -> & -> & _).
  rewrite !map_app. cbn. generalize (map id l1) (map id l2) (id t). clear.
  intros a b x. induction a as [|y a IH]; cbn; intros H.
  - now inversion H.
  - inversion H as [|? ? Hs Hall]; subst. constructor; [auto|].
    apply Forall_app in Hall as [H1 H2]. inversion H2; subst.
    apply Forall_app. auto.
Qed.

(** No call breaks the order of the collection by id. *)
Lemma step_sorted (c : call) (s : Store) :
  wf s -> StronglySorted Z.lt (map id (todos_db s)) ->
  StronglySorted Z.lt (map id (todos_db (snd (step c s)))).
Proof.
  intros [_ Hlt] Hs. destruct c; cbn; try assumption.
  - rewrite map_app. cbn. apply Z_sorted_snoc; [assumption|].
    apply Forall_map. exact Hlt.
  - unfold update_todo. destruct (find_todo todo_id (todos_db s)) as [t|] eqn:Hf.
    + destruct (update_loop_Some _ todo_data now _ _ Hf) as [l' (-> & _ & Hm & _)].
      cbn. now rewrite Hm.
    + rewrite (update_loop_None _ _ _ _ Hf). exact Hs.
  - unfold delete_todo. destruct (delete_loop todo_id (todos_db s)) as [l'|] eqn:Hd; cbn.
    + eapply delete_loop_sorted; eassumption.
    + exact Hs.
Qed.

Lemma run_sorted (cs : list call) (s : Store) :
  wf s -> StronglySorted Z.lt (map id (todos_db s)) ->
  StronglySorted Z.lt (map id (todos_db (snd (run cs s)))).
Proof.
  revert s. induction cs as [|c cs IH]; intros s Hw Hs; cbn [run]; [exact Hs|].
  pose proof (step_wf c s Hw) as Hw1. pose proof (step_sorted c s Hw Hs) as Hs1.
  destruct (step c s) as [r s1]. specialize (IH s1 Hw1 Hs1).
  destruct (run cs s1) as [rs s2]. exact IH.
Qed.

Lemma run_counts (cs : list call) (s : Store) :
  created_ids (fst (run cs s))
  = map (fun j => next_id s + Z.of_nat j) (seq 0 (List.length (created_ids (fst (run cs s)))))
  /\ next_id (snd (run cs s))
     = next_id s + Z.of_nat (List.length (created_ids (fst (run cs s)))).
Proof.
  revert s. induction cs as [|c cs IH]; intros s; cbn [run].
  - cbn. split; [reflexivity|lia].
  - destruct (step c s) as [r s1] eqn:Hs. specialize (IH s1).
    destruct (run cs s1) as [rs s2]. cbn [fst snd] in *. destruct IH as [Hids Hn].
    destruct (step_next_id _ _ _ _ Hs) as [(t & -> & Hid & Hn1)|[Hr Hn1]].
    + cbn [created_ids List.length]. rewrite created_prefix, Hid, <- Hn1, <- Hids.
      split; [reflexivity|]. rewrite Hn, Hn1. lia.
    + assert (Hc : created_ids (r :: rs) = created_ids rs).
      { destruct r; try reflexivity. discriminate. }
      rewrite Hc, <- Hn1. split; assumption.
Qed.

End database_order.

Module todo_app_order.
Import todo_app todo_app_facts.

Lemma app_find_todo_app (i : Py.value) (l1 l2 : list Todo) :
  find_todo i (l1 ++ l2)
  = match find_todo i l1 with Some t => Some t | None => find_todo i l2 end.
Proof.
  induction l1 as [|a l1 IH]; cbn; [reflexivity|].
  destruct (Py.eq_int (id a) i); [reflexivity|exact IH].
Qed.

Lemma app_find_todo_unique (i : Z) (l : list Todo) (t : Todo) :
  NoDup (map id l) -> In t l -> id t = i -> find_todo (Py.PInt i) l = Some t.
Proof.
  induction l as [|a l IH]; cbn; [tauto|].
  intros Hnd [->|Hin] Hid; inversion Hnd as [|? ? Hnot Hrest]; subst.
  - now rewrite Z.eqb_refl.
  - destruct (Z.eqb_spec (id a) (id t)) as [e|_]; [|auto].
    exfalso. apply Hnot. rewrite e. now apply in_map.
Qed.

Lemma app_delete_loop_split (i : Py.value) (l l' : list Todo) :
  delete_loop i l = Some l' ->
  exists l1 t l2,
    l = l1 ++ t :: l2 /\ l' = l1 ++ l2 /\
    Py.eq_int (id t) i = true /\ find_todo i l1 = None.
Proof.
  revert l'. induction l as [|a l IH]; cbn; [discriminate|]. intros l'.
  destruct (Py.eq_int (id a) i) eqn:E.
  - intros [= <-]. exists [], a, l. auto.
  - destruct (delete_loop i l) as [l''|]; [|discriminate]. intros [= <-].
    destruct (IH l'' eq_refl) as (l1 & t & l2 & -> & -> & Ht & Hn).
    exists (a :: l1), t, l2. cbn. rewrite E. auto.
Qed.

Lemma app_delete_loop_sorted (i : Py.value) (l l' : list Todo) :
  delete_loop i l = Some l' ->
  StronglySorted Z.lt (map id l) -> StronglySorted Z.lt (map id l').
Proof.
  intros Hd. destruct (app_delete_loop_split _ _ _ Hd) as (l1 & t & l2 & -> & -> & _).
  rewrite !map_app. cbn. generalize (map id l1) (map id l2) (id t). clear.
  intros a b x. induction a as [|y a IH]; cbn; intros H.
  - now inversion H.
  - inversion H as [|? ? Hs Hall]; subst. constructor; [auto|].
    apply Forall_app in Hall as [H1 H2]. inversion H2; subst.
    apply Forall_app. auto.
Qed.

Lemma app_step_sorted (c : call) (s : TodoApp) :
  wf s -> StronglySorted Z.lt (map id (todos s)) ->
  StronglySorted Z.lt (map id (todos (snd (step c s)))).
Proof.
  intros [_ Hlt] Hs.
  destruct c as [|todo_id|ti de st t0 t1|todo_id ti de st now|todo_id]; cbn;
    try assumption.
  - rewrite map_app. cbn. apply Z_sorted_snoc; [assumption|].
    apply Forall_map. exact Hlt.
  - unfold update_todo. cbn. destruct (find_todo todo_id (todos s)) as [t|] eqn:Hf; cbn.
    + destruct (assign_first_Some todo_id (assign ti de st now) _ _
                  (assign_id _ _ _ _) Hf) as (_ & Hm & _).
      now rewrite Hm.
    + exact Hs.
  - unfold delete_todo. destruct (delete_loop todo_id (todos s)) as [l'|] eqn:Hd; cbn.
    + eapply app_delete_loop_sorted; eassumption.
    + exact Hs.
Qed.

Lemma app_run_sorted (cs : list call) (s : TodoApp) :
  wf s -> StronglySorted Z.lt (map id (todos s)) ->
  StronglySorted Z.lt (map id (todos (snd (run cs s)))).
Proof.
  revert s. induction cs as [|c cs IH]; intros s Hw Hs; cbn [run]; [exact Hs|].
  pose proof (app_step_wf c s Hw) as Hw1. pose proof (app_step_sorted c s Hw Hs) as Hs1.
  destruct (step c s) as [r s1]. specialize (IH s1 Hw1 Hs1).
  destruct (run cs s1) as [rs s2]. exact IH.
Qed.

Lemma app_run_counts (cs : list call) (s : TodoApp) :
  created_ids (fst (run cs s))
  = map (fun j => next_id s + Z.of_nat j) (seq 0 (List.length (created_ids (fst (run cs s)))))
  /\ next_id (snd (run cs s))
     = next_id s + Z.of_nat (List.length (created_ids (fst (run cs s)))).
Proof.
  revert s. induction cs as [|c cs IH]; intros s; cbn [run].
  - cbn. split; [reflexivity|lia].
  - destruct (step c s) as [r s1] eqn:Hs. specialize (IH s1).
    destruct (run cs s1) as [rs s2]. cbn [fst snd] in *. destruct IH as [Hids Hn].
    destruct (app_step_next_id _ _ _ _ Hs) as [(t & -> & Hid & Hn1)|[Hr Hn1]].
    + cbn [created_ids List.length]. rewrite created_prefix, Hid, <- Hn1, <- Hids.
      split; [reflexivity|]. rewrite Hn, Hn1. lia.
    + assert (Hc : created_ids (r :: rs) = created_ids rs).
      { destruct r; try reflexivity. discriminate. }
      rewrite Hc, <- Hn1. split; assumption.
Qed.

End todo_app_order.

(** X1.  From a fresh store the k-th create returns id k, whatever reads,
    updates and deletes come in between, and the counter ends one above the
    number of creates made. *)
Theorem fresh_store_ids_count_up :
  (forall cs : list database.call,
      database.created_ids (fst (database.run cs database.init))
      = map (fun j => 1 + Z.of_nat j)
            (seq 0 (List.length (database.created_ids (fst (database.run cs database.init)))))
      /\ database.next_id (snd (database.run cs database.init))
         = 1 + Z.of_nat (List.length
                           (database.created_ids (fst (database.run cs database.init))))) /\
  (forall (model : bool) (cs : list todo_app.call),
      todo_app.created_ids (fst (todo_app.run cs (todo_app.init model)))
      = map (fun j => 1 + Z.of_nat j)
            (seq 0 (List.length
                      (todo_app.created_ids (fst (todo_app.run cs (todo_app.init model))))))
      /\ todo_app.next_id (snd (todo_app.run cs (todo_app.init model)))
         = 1 + Z.of_nat (List.length
                           (todo_app.created_ids
                              (fst (todo_app.run cs (todo_app.init model)))))).
Proof.
  split.
  - intros cs. exact (database_order.run_counts cs database.init).
  - intros model cs. exact (todo_app_order.app_run_counts cs (todo_app.init model)).
Qed.

(** X2.  In every state a session reaches, the collection [list] returns
    is in strictly increasing order of id: todos come out in the order
    they were created. *)
Theorem list_in_id_order (s : database.Store) (self : todo_app.TodoApp) :
  (database.reachable s ->
   StronglySorted Z.lt (map database.id (fst (database.get_todos s)))) /\
  (todo_app.reachable self ->
   StronglySorted Z.lt (map todo_app.id (fst (todo_app.list_todos self)))).
Proof.
  split.
  - intros [cs <-]. cbn [database.get_todos fst].
    apply database_order.run_sorted; [split|]; cbn; constructor.
  - intros (model & cs & <-). cbn [todo_app.list_todos fst].
    apply todo_app_order.app_run_sorted; [split|]; cbn; constructor.
Qed.

Lemma list_in_id_order_witness :
  StronglySorted Z.lt
    (map database.id
       (fst (database.get_todos
               (snd (database.run
                       [database.CreateTodo (database.mkTodoCreate "A" None database.PENDING) 1;
                        database.CreateTodo (database.mkTodoCreate "B" None database.PENDING) 2;
                        database.DeleteTodo (PInt 1);
                        database.CreateTodo (database.mkTodoCreate "C" None database.PENDING) 3]
                       database.init))))).
Proof.
  apply (proj1 (list_in_id_order _ app_one)). eexists. reflexivity.
Defined.

(** X3.  In every reachable state, a todo just created is what [get]
    returns for the id it was given. *)
Theorem create_then_get
    (s : database.Store) (self : todo_app.TodoApp)
    (todo_data : database.TodoCreate) (now : Z)
    (title description status : value) (t0 t1 : Z) :
  (database.reachable s ->
   fst (database.get_todo
          (PInt (database.id (fst (database.create_todo todo_data now s))))
          (snd (database.create_todo todo_data now s)))
   = Some (fst (database.create_todo todo_data now s))) /\
  (todo_app.reachable self ->
   fst (todo_app.get_todo
          (PInt (todo_app.id (fst (todo_app.add_todo title description status t0 t1 self))))
          (snd (todo_app.add_todo title description status t0 t1 self)))
   = Some (fst (todo_app.add_todo title description status t0 t1 self))).
Proof.
  split; intros Hr.
  - pose proof (database_facts.create_todo_fresh todo_data now s Hr) as Hfresh.
    cbn in *. rewrite database_order.find_todo_app.
    rewrite (database_facts.find_todo_absent _ _ Hfresh). cbn.
    now rewrite Z.eqb_refl.
  - pose proof (todo_app_facts.add_todo_fresh title description status t0 t1 self Hr)
      as Hfresh.
    cbn in *. rewrite todo_app_order.app_find_todo_app.
    rewrite (todo_app_facts.app_find_todo_absent _ _ Hfresh). cbn.
    now rewrite Z.eqb_refl.
Qed.

Lemma create_then_get_witness :
  fst (database.get_todo (PInt 2)
         (snd (database.create_todo (database.mkTodoCreate "B" None database.PENDING) 7 db_one)))
  = Some (database.mkTodo 2 (Some "B") None (Some database.PENDING) 7 7).
Proof.
  exact (proj1 (create_then_get db_one app_one
                  (database.mkTodoCreate "B" None database.PENDING) 7
                  (PStr "B") (PStr "") (PStr "pending") 7 8) db_one_reachable).
Defined.

(** X4.  In every reachable state, [get] returns a record exactly when it
    is the stored record with that id. *)
Theorem get_finds_the_record
    (s : database.Store) (self : todo_app.TodoApp) (i : Z)
    (t : database.Todo) (a : todo_app.Todo) :
  (database.reachable s ->
   (fst (database.get_todo (PInt i) s) = Some t <->
    In t (database.todos_db s) /\ database.id t = i)) /\
  (todo_app.reachable self ->
   (fst (todo_app.get_todo (PInt i) self) = Some a <->
    In a (todo_app.todos self) /\ todo_app.id a = i)).
Proof.
  split; intros Hr.
  - apply database_facts.reachable_wf in Hr as [Hnd _]. cbn. split.
    + intros Hf. apply database_facts.find_todo_In in Hf as [Hin Hid].
      split; [assumption|]. cbn in Hid. now apply Z.eqb_eq.
    + intros [Hin Hid]. now apply database_order.find_todo_unique.
  - apply todo_app_facts.app_reachable_wf in Hr as [Hnd _]. cbn. split.
    + intros Hf. apply todo_app_facts.app_find_todo_In in Hf as [Hin Hid].
      split; [assumption|]. cbn in Hid. now apply Z.eqb_eq.
    + intros [Hin Hid]. now apply todo_app_order.app_find_todo_unique.
Qed.

Lemma get_finds_the_record_witness :
  fst (database.get_todo (PInt 1) db_one)
  = Some (database.mkTodo 1 (Some "A") None (Some database.PENDING) 5 5).
Proof.
  apply (proj1 (get_finds_the_record db_one app_one 1
                  (database.mkTodo 1 (Some "A") None (Some database.PENDING) 5 5)
                  (todo_app.mkTodo 1 (PStr "A") (PStr "") (PStr "pending") 5 5))
           db_one_reachable).
  split; [now left|reflexivity].
Defined.

(** X5.  A delete that returns true takes out one record, the first with
    the id, and nothing else: the records before and after it stay, in
    order, the counter is untouched, and every other id is found as
    before. *)
Theorem delete_removes_one_record
    (s : database.Store) (self : todo_app.TodoApp) (i : Z) :
  (fst (database.delete_todo (PInt i) s) = true ->
   exists l1 t l2,
     database.todos_db s = l1 ++ t :: l2 /\
     database.todos_db (snd (database.delete_todo (PInt i) s)) = l1 ++ l2 /\
     database.id t = i /\
     database.find_todo (PInt i) l1 = None /\
     database.next_id (snd (database.delete_todo (PInt i) s)) = database.next_id s /\
     (forall j, j <> i ->
        database.find_todo (PInt j) (database.todos_db (snd (database.delete_todo (PInt i) s)))
        = database.find_todo (PInt j) (database.todos_db s))) /\
  (fst (todo_app.delete_todo (PInt i) self) = true ->
   exists l1 t l2,
     todo_app.todos self = l1 ++ t :: l2 /\
     todo_app.todos (snd (todo_app.delete_todo (PInt i) self)) = l1 ++ l2 /\
     todo_app.id t = i /\
     todo_app.find_todo (PInt i) l1 = None /\
     todo_app.next_id (snd (todo_app.delete_todo (PInt i) self)) = todo_app.next_id self /\
     (forall j, j <> i ->
        todo_app.find_todo (PInt j) (todo_app.todos (snd (todo_app.delete_todo (PInt i) self)))
        = todo_app.find_todo (PInt j) (todo_app.todos self))).
Proof.
  split.
  - unfold database.delete_todo.
    destruct (database.delete_loop (PInt i) (database.todos_db s)) as [l'|] eqn:Hd;
      cbn; [|discriminate].
    intros _. destruct (database_order.delete_loop_split _ _ _ Hd)
      as (l1 & t & l2 & E & -> & Hid & Hn).
    cbn in Hid. apply Z.eqb_eq in Hid.
    exists l1, t, l2. repeat split; auto.
    intros j Hj. rewrite E, !database_order.find_todo_app. cbn.
    destruct (Z.eqb_spec (database.id t) j); [lia|reflexivity].
  - unfold todo_app.delete_todo.
    destruct (todo_app.delete_loop (PInt i) (todo_app.todos self)) as [l'|] eqn:Hd;
      cbn; [|discriminate].
    intros _. destruct (todo_app_order.app_delete_loop_split _ _ _ Hd)
      as (l1 & t & l2 & E & -> & Hid & Hn).
    cbn in Hid. apply Z.eqb_eq in Hid.
    exists l1, t, l2. repeat split; auto.
    intros j Hj. rewrite E, !todo_app_order.app_find_todo_app. cbn.
    destruct (Z.eqb_spec (todo_app.id t) j); [lia|reflexivity].
Qed.

Lemma delete_removes_one_record_witness :
  exists l1 t l2,
    database.todos_db db_one = l1 ++ t :: l2 /\
    database.todos_db (snd (database.delete_todo (PInt 1) db_one)) = l1 ++ l2 /\
    database.id t = 1.
Proof.
  destruct (proj1 (delete_removes_one_record db_one app_one 1) eq_refl)
    as (l1 & t & l2 & H1 & H2 & H3 & _).
  exists l1, t, l2. auto.
Defined.

(** X6.  An update or a delete of an id that [get] does not find returns
    the not-found value and the state it was given: nothing is rewritten,
    no timestamp is refreshed. *)
Theorem absent_id_changes_nothing
    (s : database.Store) (self : todo_app.TodoApp) (todo_id : value)
    (todo_data : database.TodoUpdate) (title description status : value) (now : Z) :
  (fst (database.get_todo todo_id s) = None ->
   database.update_todo todo_id todo_data now s = (None, s) /\
   database.delete_todo todo_id s = (false, s)) /\
  (fst (todo_app.get_todo todo_id self) = None ->
   todo_app.update_todo todo_id title description status now self = (false, self) /\
   todo_app.delete_todo todo_id self = (false, self)).
Proof.
  split; cbn; intros Hf.
  - unfold database.update_todo, database.delete_todo.
    rewrite (database_facts.update_loop_None _ _ _ _ Hf).
    apply database_facts.delete_loop_None in Hf. now rewrite Hf.
  - unfold todo_app.update_todo, todo_app.delete_todo. cbn. rewrite Hf.
    apply todo_app_facts.app_delete_loop_None in Hf. now rewrite Hf.
Qed.

Lemma absent_id_changes_nothing_witness :
  database.update_todo (PInt 9) (database.mkTodoUpdate (Some (Some "X")) None None) 7 db_one
  = (None, db_one) /\
  todo_app.delete_todo (PInt 9) app_one = (false, app_one).
Proof.
  pose proof (absent_id_changes_nothing db_one app_one (PInt 9)
                (database.mkTodoUpdate (Some (Some "X")) None None)
                (PStr "X") PNone PNone 7) as [Hdb Happ].
  split; [exact (proj1 (Hdb eq_refl))|exact (proj2 (Happ eq_refl))].
Defined.

Lemma find_todo_non_numeric (v : value) (l : list database.Todo) :
  (forall n, v <> PInt n) -> (forall b, v <> PBool b) -> (forall q, v <> PFloat q) ->
  database.find_todo v l = None.
Proof.
  intros Hi Hb Hq. induction l as [|a l IH]; cbn; [reflexivity|].
  destruct v; cbn; try exact IH.
  - elim (Hb b). reflexivity.
  - elim (Hi n). reflexivity.
  - elim (Hq q). reflexivity.
Qed.

Lemma app_find_todo_non_numeric (v : value) (l : list todo_app.Todo) :
  (forall n, v <> PInt n) -> (forall b, v <> PBool b) -> (forall q, v <> PFloat q) ->
  todo_app.find_todo v l = None.
Proof.
  intros Hi Hb Hq. induction l as [|a l IH]; cbn; [reflexivity|].
  destruct v; cbn; try exact IH.
  - elim (Hb b). reflexivity.
  - elim (Hi n). reflexivity.
  - elim (Hq q). reflexivity.
Qed.

(** ** Further properties of the two dispatchers *)

(** What [update_todo] and [delete_todo] can do to the state, by the value
    they return. *)
Lemma update_todo_shape (i : value) (d : database.TodoUpdate) (now : Z)
    (s s1 : database.Store) (r : option database.Todo) :
  database.update_todo i d now s = (r, s1) ->
  database.next_id s1 = database.next_id s /\
  map database.id (database.todos_db s1) = map database.id (database.todos_db s) /\
  (r = None -> s1 = s) /\
  (forall P : database.Todo -> Prop,
      (forall t, P t -> P (database.apply_update d now t)) ->
      Forall P (database.todos_db s) -> Forall P (database.todos_db s1)).
Proof.
  unfold database.update_todo.
  destruct (database.find_todo i (database.todos_db s)) as [t|] eqn:Hf.
  - destruct (database_facts.update_loop_Some _ d now _ _ Hf)
      as [l' (-> & _ & Hm & _ & _ & Hin)].
    intros [= <- <-]. cbn. repeat split; auto; [discriminate|].
    intros P HP Hall. apply Forall_forall. intros x Hx. rewrite Forall_forall in Hall.
    apply database_facts.find_todo_In in Hf as [Hf _].
    destruct (Hin x Hx) as [->|Hx']; auto.
  - rewrite (database_facts.update_loop_None _ _ _ _ Hf). intros [= <- <-]. auto.
Qed.

Lemma delete_todo_shape (i : value) (s s1 : database.Store) (b : bool) :
  database.delete_todo i s = (b, s1) ->
  database.next_id s1 = database.next_id s /\
  (b = false -> s1 = s) /\
  (b = true -> S (List.length (database.todos_db s1)) = List.length (database.todos_db s)) /\
  (forall x, In x (database.todos_db s1) -> In x (database.todos_db s)).
Proof.
  unfold database.delete_todo.
  destruct (database.delete_loop i (database.todos_db s)) as [l'|] eqn:Hd;
    intros [= <- <-]; cbn.
  - destruct (database_order.delete_loop_split _ _ _ Hd) as (l1 & t & l2 & E & -> & _).
    repeat split; try discriminate.
    + intros _. rewrite E, !length_app. cbn. lia.
    + intros x Hx. rewrite E. apply in_app_iff in Hx as [Hx|Hx]; apply in_app_iff;
        [left|right; right]; assumption.
  - repeat split; auto; discriminate.
Qed.

Lemma app_update_todo_shape (i ti de st : value) (now : Z)
    (s s1 : todo_app.TodoApp) (b : bool) :
  todo_app.update_todo i ti de st now s = (b, s1) ->
  todo_app.next_id s1 = todo_app.next_id s /\
  todo_app.gemini_model s1 = todo_app.gemini_model s /\
  map todo_app.id (todo_app.todos s1) = map todo_app.id (todo_app.todos s) /\
  (b = false -> s1 = s) /\
  (forall P : todo_app.Todo -> Prop,
      (forall t, P t -> P (todo_app.assign ti de st now t)) ->
      Forall P (todo_app.todos s) -> Forall P (todo_app.todos s1)).
Proof.
  unfold todo_app.update_todo. cbn.
  destruct (todo_app.find_todo i (todo_app.todos s)) as [t|] eqn:Hf; intros [= <- <-]; cbn.
  - destruct (todo_app_facts.assign_first_Some i (todo_app.assign ti de st now) _ _
                (todo_app_facts.assign_id _ _ _ _) Hf) as (_ & Hm & _ & Hin).
    repeat split; auto; [discriminate|].
    intros P HP Hall. apply Forall_forall. intros x Hx. rewrite Forall_forall in Hall.
    apply todo_app_facts.app_find_todo_In in Hf as [Hf _].
    destruct (Hin x Hx) as [->|Hx']; auto.
  - repeat split; auto.
Qed.

Lemma app_delete_todo_shape (i : value) (s s1 : todo_app.TodoApp) (b : bool) :
  todo_app.delete_todo i s = (b, s1) ->
  todo_app.next_id s1 = todo_app.next_id s /\
  todo_app.gemini_model s1 = todo_app.gemini_model s /\
  (b = false -> s1 = s) /\
  (b = true -> S (List.length (todo_app.todos s1)) = List.length (todo_app.todos s)) /\
  (forall x, In x (todo_app.todos s1) -> In x (todo_app.todos s)).
Proof.
  unfold todo_app.delete_todo.
  destruct (todo_app.delete_loop i (todo_app.todos s)) as [l'|] eqn:Hd;
    intros [= <- <-]; cbn.
  - destruct (todo_app_order.app_delete_loop_split _ _ _ Hd) as (l1 & t & l2 & E & -> & _).
    repeat split; try discriminate.
    + intros _. rewrite E, !length_app. cbn. lia.
    + intros x Hx. rewrite E. apply in_app_iff in Hx as [Hx|Hx]; apply in_app_iff;
        [left|right; right]; assumption.
  - repeat split; auto; discriminate.
Qed.

(** Case analysis on the tests and matches of a dispatch, one at a time. *)
Ltac dispatch_cases :=
  repeat match goal with
         | |- context [if ?b then _ else _] => destruct b eqn:?
         | |- context [match ?x with _ => _ end] => destruct x eqn:?
         end.

Ltac dispatch_cases_in E :=
  repeat match type of E with
         | context [if ?b then _ else _] => destruct b eqn:?
         | context [match ?x with _ => _ end] => destruct x eqn:?
         end.

(** What the three id-addressed actions of either dispatcher answer when
    the id they are given is carried by no stored todo. *)
Lemma app_dispatch_absent_id
    (d : list (string * value)) (v : value) (t0 t1 : Z) (self : todo_app.TodoApp) :
  lookup "id" d = Some v ->
  todo_app.find_todo v (todo_app.todos self) = None ->
  todo_app.execute_action (PStr "get") (PDict d) t0 t1 self
  = (if truthy v then todo_app.TodoNotFound v else todo_app.TodoIdRequired, self) /\
  todo_app.execute_action (PStr "update") (PDict d) t0 t1 self
  = (if truthy v then todo_app.TodoNotFound v else todo_app.TodoIdRequired, self) /\
  todo_app.execute_action (PStr "delete") (PDict d) t0 t1 self
  = (if truthy v then todo_app.TodoNotFound v else todo_app.TodoIdRequired, self).
Proof.
  intros Hl Hf.
  assert (Hg : get d "id" = v) by (unfold get; now rewrite Hl).
  pose proof (proj2 (todo_app_facts.app_delete_loop_None _ _) Hf) as Hd.
  unfold todo_app.execute_action.
  cbn [eq_str String.eqb Ascii.eqb Bool.eqb].
  rewrite Hg. destruct (truthy v); cbn [negb]; [|auto].
  unfold todo_app.update_todo, todo_app.delete_todo, todo_app.get_todo.
  rewrite Hf, Hd. auto.
Qed.

Lemma client_dispatch_absent_id
    (coerce_str : value -> option string)
    (d : list (string * value)) (v : value) (now : Z) (s : database.Store) :
  lookup "todo_id" d = Some v ->
  database.find_todo v (database.todos_db s) = None ->
  simple_gemini_client.execute_action coerce_str (PStr "get_todo") (PDict d) now s
  = (if truthy v then simple_gemini_client.TodoNotFound v
     else simple_gemini_client.TodoIdRequired, s) /\
  simple_gemini_client.execute_action coerce_str (PStr "delete_todo") (PDict d) now s
  = (if truthy v then simple_gemini_client.TodoNotFound v
     else simple_gemini_client.TodoIdRequired, s) /\
  snd (simple_gemini_client.execute_action coerce_str (PStr "update_todo") (PDict d) now s)
  = s /\
  (if truthy v
   then In (fst (simple_gemini_client.execute_action coerce_str (PStr "update_todo")
                   (PDict d) now s))
           [simple_gemini_client.TodoNotFound v;
            simple_gemini_client.ErrorExecuting ValueError;
            simple_gemini_client.ErrorExecuting ValidationError]
   else fst (simple_gemini_client.execute_action coerce_str (PStr "update_todo")
               (PDict d) now s)
        = simple_gemini_client.TodoIdRequired).
Proof.
  intros Hl Hf.
  assert (Hg : get d "todo_id" = v) by (unfold get; now rewrite Hl).
  pose proof (proj2 (database_facts.delete_loop_None _ _) Hf) as Hd.
  unfold simple_gemini_client.execute_action.
  cbn [eq_str String.eqb Ascii.eqb Bool.eqb].
  rewrite Hg. destruct (truthy v); cbn [negb]; [|auto].
  unfold database.delete_todo, database.get_todo, database.update_todo.
  rewrite Hf, Hd.
  split; [reflexivity|]. split; [reflexivity|].
  destruct (simple_gemini_client.update_status d) as [st|]; [|cbn; auto].
  destruct (simple_gemini_client.update_field coerce_str d "title") as [ti|];
    [|cbn; auto].
  destruct (simple_gemini_client.update_field coerce_str d "description") as [de|];
    [|cbn; auto].
  rewrite (database_facts.update_loop_None _ _ _ _ Hf). cbn. auto.
Qed.

(** X7.  An id that is not a number (a string such as "1", null, a list,
    an object) equals no todo's id, whatever the store holds: [get_todo]
    with it finds nothing, and the get, update and delete of either
    dispatcher leave the state as it was.  They answer not-found when the
    value is truthy and id-required when it is falsy (null, the empty
    string, an empty list or object); the update of [SimpleGeminiClient],
    which validates the other fields first, may answer with their error
    instead of not-found. *)
Theorem non_numeric_id_is_never_found
    (coerce_str : value -> option string)
    (d : list (string * value)) (v : value) (now t0 t1 : Z)
    (s : database.Store) (self : todo_app.TodoApp) :
  (forall n, v <> PInt n) -> (forall b, v <> PBool b) -> (forall q, v <> PFloat q) ->
  fst (database.get_todo v s) = None /\
  fst (todo_app.get_todo v self) = None /\
  (lookup "id" d = Some v ->
   todo_app.execute_action (PStr "get") (PDict d) t0 t1 self
   = (if truthy v then todo_app.TodoNotFound v else todo_app.TodoIdRequired, self) /\
   todo_app.execute_action (PStr "update") (PDict d) t0 t1 self
   = (if truthy v then todo_app.TodoNotFound v else todo_app.TodoIdRequired, self) /\
   todo_app.execute_action (PStr "delete") (PDict d) t0 t1 self
   = (if truthy v then todo_app.TodoNotFound v else todo_app.TodoIdRequired, self)) /\
  (lookup "todo_id" d = Some v ->
   simple_gemini_client.execute_action coerce_str (PStr "get_todo") (PDict d) now s
   = (if truthy v then simple_gemini_client.TodoNotFound v
      else simple_gemini_client.TodoIdRequired, s) /\
   simple_gemini_client.execute_action coerce_str (PStr "delete_todo") (PDict d) now s
   = (if truthy v then simple_gemini_client.TodoNotFound v
      else simple_gemini_client.TodoIdRequired, s) /\
   snd (simple_gemini_client.execute_action coerce_str (PStr "update_todo") (PDict d) now s)
   = s /\
   (if truthy v
    then In (fst (simple_gemini_client.execute_action coerce_str (PStr "update_todo")
                    (PDict d) now s))
            [simple_gemini_client.TodoNotFound v;
             simple_gemini_client.ErrorExecuting ValueError;
             simple_gemini_client.ErrorExecuting ValidationError]
    else fst (simple_gemini_client.execute_action coerce_str (PStr "update_todo")
                (PDict d) now s)
         = simple_gemini_client.TodoIdRequired)).
Proof.
  intros Hi Hb Hq.
  pose proof (app_find_todo_non_numeric v (todo_app.todos self) Hi Hb Hq) as Hfa.
  pose proof (find_todo_non_numeric v (database.todos_db s) Hi Hb Hq) as Hfd.
  split; [exact Hfd|]. split; [exact Hfa|]. split; intros Hl.
  - now apply app_dispatch_absent_id.
  - now apply client_dispatch_absent_id.
Qed.

Lemma non_numeric_id_is_never_found_witness :
  todo_app.execute_action (PStr "get") (PDict [("id", PStr "1")]) 7 8 app_one
  = (todo_app.TodoNotFound (PStr "1"), app_one) /\
  simple_gemini_client.execute_action strict_str (PStr "delete_todo")
    (PDict [("todo_id", PStr "")]) 7 db_one
  = (simple_gemini_client.TodoIdRequired, db_one) /\
  In (fst (simple_gemini_client.execute_action strict_str (PStr "update_todo")
             (PDict [("todo_id", PStr "1"); ("status", PStr "archived")]) 7 db_one))
     [simple_gemini_client.TodoNotFound (PStr "1");
      simple_gemini_client.ErrorExecuting ValueError;
      simple_gemini_client.ErrorExecuting ValidationError].
Proof.
  pose proof (non_numeric_id_is_never_found strict_str [("id", PStr "1")] (PStr "1")
                7 7 8 db_one app_one
                ltac:(discriminate) ltac:(discriminate) ltac:(discriminate))
    as (_ & _ & Happ & _).
  pose proof (non_numeric_id_is_never_found strict_str [("todo_id", PStr "")] (PStr "")
                7 7 8 db_one app_one
                ltac:(discriminate) ltac:(discriminate) ltac:(discriminate))
    as (_ & _ & _ & Hdel).
  pose proof (non_numeric_id_is_never_found strict_str
                [("todo_id", PStr "1"); ("status", PStr "archived")] (PStr "1")
                7 7 8 db_one app_one
                ltac:(discriminate) ltac:(discriminate) ltac:(discriminate))
    as (_ & _ & _ & Hupd).
  split; [exact (proj1 (Happ eq_refl))|].
  split; [exact (proj1 (proj2 (Hdel eq_refl)))|].
  exact (proj2 (proj2 (proj2 (Hupd eq_refl)))).
Defined.

Lemma update_status_shape (d : list (string * value))
    (st : option (option database.TodoStatus)) :
  simple_gemini_client.update_status d = Some st -> st <> Some None.
Proof.
  unfold simple_gemini_client.update_status.
  destruct (lookup "status" d) as [v|]; [|intros [= <-]; discriminate].
  destruct (database.TodoStatus_call v); [|discriminate]. intros [= <-]. discriminate.
Qed.

(** Rewrites the equations a case analysis of a dispatch leaves about the
    store functions into what they say of the state. *)
Ltac store_equations :=
  repeat match goal with
         | E : database.get_todos _ = (_, _) |- _ =>
             cbv [database.get_todos] in E; inversion E; subst; clear E
         | E : database.get_todo _ _ = (_, _) |- _ =>
             cbv [database.get_todo] in E; inversion E; subst; clear E
         | E : database.create_todo _ _ _ = (_, _) |- _ =>
             cbv [database.create_todo] in E; inversion E; subst; clear E
         | E : database.update_todo _ _ _ _ = (_, _) |- _ =>
             apply update_todo_shape in E
         | E : database.delete_todo _ _ = (_, _) |- _ =>
             apply delete_todo_shape in E
         | E : todo_app.get_todo _ _ = (_, _) |- _ =>
             cbv [todo_app.get_todo] in E; inversion E; subst; clear E
         | E : todo_app.add_todo _ _ _ _ _ _ = (_, _) |- _ =>
             cbv [todo_app.add_todo todo_app.Todo_init] in E; inversion E; subst; clear E
         | E : todo_app.update_todo _ _ _ _ _ _ = (_, _) |- _ =>
             apply app_update_todo_shape in E
         | E : todo_app.delete_todo _ _ = (_, _) |- _ =>
             apply app_delete_todo_shape in E
         end.

Lemma execute_action_status (coerce_str : value -> option string)
    (action parameters : value) (now : Z) (s : database.Store) :
  Forall (fun t => database.status t <> None) (database.todos_db s) ->
  Forall (fun t => database.status t <> None)
         (database.todos_db
            (snd (simple_gemini_client.execute_action coerce_str action parameters now s))).
Proof.
  intros H. unfold simple_gemini_client.execute_action.
  dispatch_cases; cbn [snd]; store_equations; try assumption;
    match goal with
    | Hs : simple_gemini_client.update_status _ = Some ?o,
      E : _ /\ _ /\ _ /\ (forall P, _ -> Forall P _ -> Forall P _) |- _ =>
        destruct E as (_ & _ & _ & HP); apply HP; [|assumption];
        intros rec Hrec; cbn; apply update_status_shape in Hs;
        destruct o as [[st|]|]; [discriminate|congruence|assumption]
    | E : _ /\ _ /\ _ /\ (forall x, In x _ -> In x _) |- _ =>
        destruct E as (_ & _ & _ & Hin); apply Forall_forall; intros rec Hrec;
        rewrite Forall_forall in H; auto
    | |- _ =>
        cbn; apply Forall_app; split; [assumption|]; repeat constructor; discriminate
    end.
Qed.

(** X8.  Through [SimpleGeminiClient] a stored status never leaves the
    enum: if every todo has a status before a dispatch or a whole request,
    every todo has one after it, whatever was asked. *)
Theorem client_keeps_status_in_enum
    (generate_content : list database.Todo -> string -> option string)
    (strip : string -> string) (json_loads : string -> option value)
    (coerce_str : value -> option string)
    (action parameters : value) (user_input : string) (now : Z) (s : database.Store) :
  Forall (fun t => database.status t <> None) (database.todos_db s) ->
  Forall (fun t => database.status t <> None)
         (database.todos_db
            (snd (simple_gemini_client.execute_action coerce_str action parameters now s))) /\
  Forall (fun t => database.status t <> None)
         (database.todos_db
            (snd (simple_gemini_client.process_natural_language
                    generate_content strip json_loads coerce_str user_input now s))).
Proof.
  intros H. split; [now apply execute_action_status|].
  unfold simple_gemini_client.process_natural_language,
    simple_gemini_client.process_natural_language_with.
  cbn [database.get_todos].
  destruct (generate_content (database.todos_db s) user_input) as [text|]; [|exact H].
  destruct (json_loads (strip text)) as [[| | | | | |d]|]; try exact H.
  now apply execute_action_status.
Qed.

Lemma client_keeps_status_in_enum_witness :
  Forall (fun t => database.status t <> None)
    (database.todos_db
       (snd (simple_gemini_client.execute_action strict_str (PStr "update_todo")
               (PDict [("todo_id", PInt 1); ("status", PStr "completed")]) 9 db_one))).
Proof.
  apply (client_keeps_status_in_enum (fun _ _ => None) (fun x => x) (fun _ => None)
           strict_str (PStr "update_todo")
           (PDict [("todo_id", PInt 1); ("status", PStr "completed")]) "" 9 db_one).
  repeat constructor. discriminate.
Defined.

(** X9.  A get, update or delete given an id that [get_todo] does not
    find is answered, not raised, and leaves the state as it was.  The
    answer is the not-found message when the id is truthy and the
    id-required message when it is falsy (0, false, null, the empty
    string, an empty list or object); the update of [SimpleGeminiClient],
    which validates the other fields first, may answer with their error
    instead of not-found. *)
Theorem absent_id_is_reported
    (coerce_str : value -> option string)
    (d : list (string * value)) (v : value) (now t0 t1 : Z)
    (s : database.Store) (self : todo_app.TodoApp) :
  (lookup "id" d = Some v ->
   fst (todo_app.get_todo v self) = None ->
   todo_app.execute_action (PStr "get") (PDict d) t0 t1 self
   = (if truthy v then todo_app.TodoNotFound v else todo_app.TodoIdRequired, self) /\
   todo_app.execute_action (PStr "update") (PDict d) t0 t1 self
   = (if truthy v then todo_app.TodoNotFound v else todo_app.TodoIdRequired, self) /\
   todo_app.execute_action (PStr "delete") (PDict d) t0 t1 self
   = (if truthy v then todo_app.TodoNotFound v else todo_app.TodoIdRequired, self)) /\
  (lookup "todo_id" d = Some v ->
   fst (database.get_todo v s) = None ->
   simple_gemini_client.execute_action coerce_str (PStr "get_todo") (PDict d) now s
   = (if truthy v then simple_gemini_client.TodoNotFound v
      else simple_gemini_client.TodoIdRequired, s) /\
   simple_gemini_client.execute_action coerce_str (PStr "delete_todo") (PDict d) now s
   = (if truthy v then simple_gemini_client.TodoNotFound v
      else simple_gemini_client.TodoIdRequired, s) /\
   snd (simple_gemini_client.execute_action coerce_str (PStr "update_todo") (PDict d) now s)
   = s /\
   (if truthy v
    then In (fst (simple_gemini_client.execute_action coerce_str (PStr "update_todo")
                    (PDict d) now s))
            [simple_gemini_client.TodoNotFound v;
             simple_gemini_client.ErrorExecuting ValueError;
             simple_gemini_client.ErrorExecuting ValidationError]
    else fst (simple_gemini_client.execute_action coerce_str (PStr "update_todo")
                (PDict d) now s)
         = simple_gemini_client.TodoIdRequired)).
Proof.
  split; intros Hl Hf; cbn in Hf.
  - now apply app_dispatch_absent_id.
  - now apply client_dispatch_absent_id.
Qed.

Lemma absent_id_is_reported_witness :
  todo_app.execute_action (PStr "update") (PDict [("id", PInt 9); ("title", PStr "X")])
    7 8 app_one
  = (todo_app.TodoNotFound (PInt 9), app_one) /\
  todo_app.execute_action (PStr "delete") (PDict [("id", PInt 0)]) 7 8 app_one
  = (todo_app.TodoIdRequired, app_one) /\
  simple_gemini_client.execute_action strict_str (PStr "get_todo")
    (PDict [("todo_id", PInt 9)]) 7 db_one
  = (simple_gemini_client.TodoNotFound (PInt 9), db_one).
Proof.
  pose proof (absent_id_is_reported strict_str [("id", PInt 9); ("title", PStr "X")]
                (PInt 9) 7 7 8 db_one app_one) as [Happ _].
  pose proof (absent_id_is_reported strict_str [("id", PInt 0)]
                (PInt 0) 7 7 8 db_one app_one) as [Hzero _].
  pose proof (absent_id_is_reported strict_str [("todo_id", PInt 9)]
                (PInt 9) 7 7 8 db_one app_one) as [_ Hdb].
  split; [exact (proj1 (proj2 (Happ eq_refl eq_refl)))|].
  split; [exact (proj2 (proj2 (Hzero eq_refl eq_refl)))|].
  exact (proj1 (Hdb eq_refl eq_refl)).
Defined.

(** X10.  A dispatch changes the state only together with a success
    message, and then only as the message says: a created todo is appended
    under the next id, an update keeps the ids and the counter, a delete
    takes out one record; with any other answer the state is exactly what
    it was. *)
Theorem changes_come_with_success
    (coerce_str : value -> option string)
    (action params : value) (now t0 t1 : Z)
    (s : database.Store) (self : todo_app.TodoApp) :
  match fst (todo_app.execute_action action params t0 t1 self) with
  | todo_app.Created todo =>
      todo_app.todos (snd (todo_app.execute_action action params t0 t1 self))
      = todo_app.todos self ++ [todo] /\
      todo_app.id todo = todo_app.next_id self /\
      todo_app.next_id (snd (todo_app.execute_action action params t0 t1 self))
      = todo_app.next_id self + 1
  | todo_app.Updated _ =>
      map todo_app.id (todo_app.todos (snd (todo_app.execute_action action params t0 t1 self)))
      = map todo_app.id (todo_app.todos self) /\
      todo_app.next_id (snd (todo_app.execute_action action params t0 t1 self))
      = todo_app.next_id self
  | todo_app.Deleted _ =>
      S (List.length (todo_app.todos (snd (todo_app.execute_action action params t0 t1 self))))
      = List.length (todo_app.todos self) /\
      todo_app.next_id (snd (todo_app.execute_action action params t0 t1 self))
      = todo_app.next_id self
  | _ => snd (todo_app.execute_action action params t0 t1 self) = self
  end /\
  match fst (simple_gemini_client.execute_action coerce_str action params now s) with
  | simple_gemini_client.CreatedTodo todo =>
      database.todos_db (snd (simple_gemini_client.execute_action coerce_str action params now s))
      = database.todos_db s ++ [todo] /\
      database.id todo = database.next_id s /\
      database.next_id (snd (simple_gemini_client.execute_action coerce_str action params now s))
      = database.next_id s + 1
  | simple_gemini_client.UpdatedTodo _ =>
      map database.id
          (database.todos_db
             (snd (simple_gemini_client.execute_action coerce_str action params now s)))
      = map database.id (database.todos_db s) /\
      database.next_id (snd (simple_gemini_client.execute_action coerce_str action params now s))
      = database.next_id s
  | simple_gemini_client.DeletedTodo _ =>
      S (List.length
           (database.todos_db
              (snd (simple_gemini_client.execute_action coerce_str action params now s))))
      = List.length (database.todos_db s) /\
      database.next_id (snd (simple_gemini_client.execute_action coerce_str action params now s))
      = database.next_id s
  | _ => snd (simple_gemini_client.execute_action coerce_str action params now s) = s
  end.
Proof.
  split.
  - destruct (todo_app.execute_action action params t0 t1 self) as [r self'] eqn:E.
    cbn [fst snd]. unfold todo_app.execute_action in E.
    dispatch_cases_in E; inversion E; subst; clear E; store_equations;
      repeat match goal with H : _ /\ _ |- _ => destruct H end;
      cbn; auto.
  - destruct (simple_gemini_client.execute_action coerce_str action params now s)
      as [r s'] eqn:E.
    cbn [fst snd]. unfold simple_gemini_client.execute_action in E.
    dispatch_cases_in E; inversion E; subst; clear E; store_equations;
      repeat match goal with H : _ /\ _ |- _ => destruct H end;
      cbn; auto.
Qed.

Lemma process_natural_language_reachable
    (generate_content : list database.Todo -> string -> option string)
    (strip : string -> string) (json_loads : string -> option value)
    (coerce_str : value -> option string) (user_input : string) (now : Z)
    (s : database.Store) :
  database.reachable s ->
  database.reachable
    (snd (simple_gemini_client.process_natural_language
            generate_content strip json_loads coerce_str user_input now s)).
Proof.
  intros H. unfold simple_gemini_client.process_natural_language,
    simple_gemini_client.process_natural_language_with.
  cbn [database.get_todos].
  destruct (generate_content (database.todos_db s) user_input) as [text|]; [|exact H].
  destruct (json_loads (strip text)) as [[| | | | | |d]|]; try exact H.
  now apply simple_gemini_client_facts.execute_action_reachable.
Qed.

Lemma process_ai_command_reachable
    (generate_content : list todo_app.Todo -> string -> option string)
    (strip : string -> string) (json_loads : string -> option value)
    (user_input : string) (t0 t1 : Z) (self : todo_app.TodoApp) :
  todo_app.reachable self ->
  todo_app.reachable
    (snd (todo_app.process_ai_command generate_content strip json_loads user_input t0 t1 self)).
Proof.
  intros H. unfold todo_app.process_ai_command, todo_app.process_ai_command_with.
  destruct (negb (todo_app.gemini_model self)); [exact H|].
  destruct (generate_content (todo_app.todos self) user_input) as [text|]; [|exact H].
  destruct (json_loads (strip text)) as [[| | | | | |d]|]; try exact H.
  now apply todo_app_facts.app_execute_action_reachable.
Qed.

(** X11.  Whatever the user asks and whatever the service replies, a
    request leaves the store in a state a session of store calls reaches:
    ids stay pairwise distinct and below the counter. *)
Theorem requests_keep_ids_distinct
    (generate_content : list database.Todo -> string -> option string)
    (app_generate_content : list todo_app.Todo -> string -> option string)
    (strip : string -> string) (json_loads : string -> option value)
    (coerce_str : value -> option string) (user_input : string) (now t0 t1 : Z)
    (s : database.Store) (self : todo_app.TodoApp) :
  (database.reachable s ->
   database.reachable
     (snd (simple_gemini_client.process_natural_language
             generate_content strip json_loads coerce_str user_input now s)) /\
   database.wf
     (snd (simple_gemini_client.process_natural_language
             generate_content strip json_loads coerce_str user_input now s))) /\
  (todo_app.reachable self ->
   todo_app.reachable
     (snd (todo_app.process_ai_command app_generate_content strip json_loads
             user_input t0 t1 self)) /\
   todo_app.wf
     (snd (todo_app.process_ai_command app_generate_content strip json_loads
             user_input t0 t1 self))).
Proof.
  split; intros H.
  - pose proof (process_natural_language_reachable generate_content strip json_loads
                  coerce_str user_input now s H) as Hr.
    split; [exact Hr|now apply database_facts.reachable_wf].
  - pose proof (process_ai_command_reachable app_generate_content strip json_loads
                  user_input t0 t1 self H) as Hr.
    split; [exact Hr|now apply todo_app_facts.app_reachable_wf].
Qed.

Lemma requests_keep_ids_distinct_witness :
  database.wf
    (snd (simple_gemini_client.process_natural_language
            (fun _ _ => Some "reply") (fun x => x)
            (fun _ => Some (PDict [("action", PStr "create_todo");
                                   ("parameters", PDict [("title", PStr "B")])]))
            strict_str "add B" 7 db_one)).
Proof.
  exact (proj2 (proj1 (requests_keep_ids_distinct
    (fun _ _ => Some "reply") (fun _ _ => Some "reply") (fun x => x)
    (fun _ => Some (PDict [("action", PStr "create_todo");
                           ("parameters", PDict [("title", PStr "B")])]))
    strict_str "add B" 7 7 8 db_one app_one) db_one_reachable)).
Defined.

Lemma reachable_next_id_pos (s : database.Store) :
  database.reachable s -> 1 <= database.next_id s.
Proof.
  intros [cs <-]. exact (proj1 (database_facts.run_created_ids cs database.init)).
Qed.

Lemma app_reachable_next_id_pos (self : todo_app.TodoApp) :
  todo_app.reachable self -> 1 <= todo_app.next_id self.
Proof.
  intros (model & cs & <-).
  exact (proj1 (todo_app_facts.app_run_created_ids cs (todo_app.init model))).
Qed.

(** X12.  Through the dispatch, in every reachable state: a create that
    supplies a non-empty title and nothing else stores the todo with an
    empty description and the status pending, under the next id, and a get
    of that id answers with exactly that todo. *)
Theorem dispatch_create_then_get
    (coerce_str : value -> option string)
    (d : list (string * value)) (x : string) (now now' t0 t1 t2 t3 : Z)
    (s : database.Store) (self : todo_app.TodoApp) :
  lookup "title" d = Some (PStr x) ->
  x <> "" ->
  lookup "description" d = None ->
  lookup "status" d = None ->
  (todo_app.reachable self ->
   todo_app.execute_action (PStr "create") (PDict d) t0 t1 self
   = (todo_app.Created
        (todo_app.mkTodo (todo_app.next_id self) (PStr x) (PStr "") (PStr "pending") t0 t1),
      snd (todo_app.execute_action (PStr "create") (PDict d) t0 t1 self)) /\
   todo_app.execute_action (PStr "get") (PDict [("id", PInt (todo_app.next_id self))]) t2 t3
     (snd (todo_app.execute_action (PStr "create") (PDict d) t0 t1 self))
   = (todo_app.TodoDetails
        (todo_app.mkTodo (todo_app.next_id self) (PStr x) (PStr "") (PStr "pending") t0 t1),
      snd (todo_app.execute_action (PStr "create") (PDict d) t0 t1 self))) /\
  (database.reachable s ->
   (forall y, coerce_str (PStr y) = Some y) ->
   simple_gemini_client.execute_action coerce_str (PStr "create_todo") (PDict d) now s
   = (simple_gemini_client.CreatedTodo
        (database.mkTodo (database.next_id s) (Some x) (Some "") (Some database.PENDING)
           now now),
      snd (simple_gemini_client.execute_action coerce_str (PStr "create_todo") (PDict d)
             now s)) /\
   simple_gemini_client.execute_action coerce_str (PStr "get_todo")
     (PDict [("todo_id", PInt (database.next_id s))]) now'
     (snd (simple_gemini_client.execute_action coerce_str (PStr "create_todo") (PDict d)
             now s))
   = (simple_gemini_client.TodoDetails
        (database.mkTodo (database.next_id s) (Some x) (Some "") (Some database.PENDING)
           now now),
      snd (simple_gemini_client.execute_action coerce_str (PStr "create_todo") (PDict d)
             now s))).
Proof.
  intros Hti Hx Hde Hst.
  assert (Hg : get d "title" = PStr x) by (unfold get; now rewrite Hti).
  assert (Htr : truthy (PStr x) = true).
  { cbn. destruct (String.eqb_spec x ""); [contradiction|reflexivity]. }
  split.
  - intros Hr.
    assert (Hc : todo_app.execute_action (PStr "create") (PDict d) t0 t1 self
                 = (todo_app.Created
                      (fst (todo_app.add_todo (PStr x) (PStr "") (PStr "pending") t0 t1 self)),
                    snd (todo_app.add_todo (PStr x) (PStr "") (PStr "pending") t0 t1 self))).
    { unfold todo_app.execute_action. cbn [eq_str String.eqb Ascii.eqb Bool.eqb].
      rewrite Hg, Htr. unfold get_default. rewrite Hde, Hst. reflexivity. }
    rewrite Hc. cbn [fst snd todo_app.add_todo todo_app.Todo_init].
    split; [reflexivity|].
    pose proof (app_reachable_next_id_pos self Hr) as Hpos.
    pose proof (todo_app_facts.add_todo_fresh (PStr x) (PStr "") (PStr "pending") t0 t1
                  self Hr) as Hfresh.
    cbn in Hfresh.
    unfold todo_app.execute_action. cbn [eq_str String.eqb Ascii.eqb Bool.eqb].
    unfold get. cbn [lookup String.eqb Ascii.eqb Bool.eqb truthy].
    destruct (Z.eqb_spec (todo_app.next_id self) 0) as [e|_]; [lia|]. cbn [negb].
    unfold todo_app.get_todo. cbn [todo_app.todos].
    rewrite todo_app_order.app_find_todo_app,
      (todo_app_facts.app_find_todo_absent _ _ Hfresh).
    cbn. rewrite Z.eqb_refl. reflexivity.
  - intros Hr Hco.
    assert (Hc : simple_gemini_client.execute_action coerce_str (PStr "create_todo")
                   (PDict d) now s
                 = (simple_gemini_client.CreatedTodo
                      (fst (database.create_todo
                              (database.mkTodoCreate x (Some "") database.PENDING) now s)),
                    snd (database.create_todo
                           (database.mkTodoCreate x (Some "") database.PENDING) now s))).
    { unfold simple_gemini_client.execute_action.
      cbn [eq_str String.eqb Ascii.eqb Bool.eqb].
      rewrite Hg, Htr. unfold get_default. rewrite Hde, Hst. cbn.
      rewrite !Hco. reflexivity. }
    rewrite Hc. cbn [fst snd database.create_todo database.c_title database.c_description
                       database.c_status].
    split; [reflexivity|].
    pose proof (reachable_next_id_pos s Hr) as Hpos.
    pose proof (database_facts.create_todo_fresh
                  (database.mkTodoCreate x (Some "") database.PENDING) now s Hr) as Hfresh.
    cbn in Hfresh.
    unfold simple_gemini_client.execute_action.
    cbn [eq_str String.eqb Ascii.eqb Bool.eqb].
    unfold get. cbn [lookup String.eqb Ascii.eqb Bool.eqb truthy].
    destruct (Z.eqb_spec (database.next_id s) 0) as [e|_]; [lia|]. cbn [negb].
    unfold database.get_todo. cbn [database.todos_db].
    rewrite database_order.find_todo_app,
      (database_facts.find_todo_absent _ _ Hfresh).
    cbn. rewrite Z.eqb_refl. reflexivity.
Qed.

Lemma dispatch_create_then_get_witness :
  todo_app.execute_action (PStr "get") (PDict [("id", PInt 2)]) 9 9
    (snd (todo_app.execute_action (PStr "create") (PDict [("title", PStr "Buy milk")])
            7 8 app_one))
  = (todo_app.TodoDetails
       (todo_app.mkTodo 2 (PStr "Buy milk") (PStr "") (PStr "pending") 7 8),
     snd (todo_app.execute_action (PStr "create") (PDict [("title", PStr "Buy milk")])
            7 8 app_one)) /\
  simple_gemini_client.execute_action strict_str (PStr "get_todo")
    (PDict [("todo_id", PInt 2)]) 9
    (snd (simple_gemini_client.execute_action strict_str (PStr "create_todo")
            (PDict [("title", PStr "Buy milk")]) 7 db_one))
  = (simple_gemini_client.TodoDetails
       (database.mkTodo 2 (Some "Buy milk") (Some "") (Some database.PENDING) 7 7),
     snd (simple_gemini_client.execute_action strict_str (PStr "create_todo")
            (PDict [("title", PStr "Buy milk")]) 7 db_one)).
Proof.
  pose proof (dispatch_create_then_get strict_str [("title", PStr "Buy milk")] "Buy milk"
                7 9 7 8 9 9 db_one app_one eq_refl ltac:(discriminate) eq_refl eq_refl)
    as [Happ Hdb].
  split.
  - exact (proj2 (Happ app_one_reachable)).
  - exact (proj2 (Hdb db_one_reachable (fun y => eq_refl))).
Defined.

(** X13.  [TodoApp] lets a list or an object in as a status, and from then
    on cannot show that todo: once a stored status is unhashable, the list
    action fails with a [TypeError] message instead of a listing, and so
    does the get of that todo; the state itself is left alone. *)
Theorem unhashable_status_breaks_listing
    (d : list (string * value)) (v i : value) (params : value) (t0 t1 t2 t3 : Z)
    (self : todo_app.TodoApp) (todo : todo_app.Todo) :
  (In todo (todo_app.todos self) ->
   hashable (todo_app.status todo) = false ->
   todo_app.execute_action (PStr "list") params t0 t1 self = (todo_app.Error TypeError, self)) /\
  (lookup "id" d = Some i ->
   truthy i = true ->
   fst (todo_app.get_todo i self) = Some todo ->
   hashable (todo_app.status todo) = false ->
   todo_app.execute_action (PStr "get") (PDict d) t0 t1 self = (todo_app.Error TypeError, self)) /\
  (lookup "status" d = Some v ->
   truthy (get d "title") = true ->
   hashable v = false ->
   exists created self',
     todo_app.execute_action (PStr "create") (PDict d) t0 t1 self
     = (todo_app.Created created, self') /\
     todo_app.status created = v /\
     todo_app.execute_action (PStr "list") params t2 t3 self'
     = (todo_app.Error TypeError, self')).
Proof.
  assert (Hlist : forall (a : todo_app.TodoApp) (x : todo_app.Todo) p u0 u1,
             In x (todo_app.todos a) -> hashable (todo_app.status x) = false ->
             todo_app.execute_action (PStr "list") p u0 u1 a = (todo_app.Error TypeError, a)).
  { intros a x p u0 u1 Hin Hh. unfold todo_app.execute_action.
    cbn [eq_str String.eqb Ascii.eqb Bool.eqb].
    destruct (todo_app.todos a) as [|y l] eqn:El; [destruct Hin|].
    destruct (forallb todo_app.emoji_ok (y :: l)) eqn:Ef; [|reflexivity].
    rewrite forallb_forall in Ef. specialize (Ef x Hin).
    unfold todo_app.emoji_ok in Ef. congruence. }
  split; [|split].
  - apply Hlist.
  - intros Hl Ht Hf Hh. cbn in Hf.
    assert (Hg : get d "id" = i) by (unfold get; now rewrite Hl).
    unfold todo_app.execute_action. cbn [eq_str String.eqb Ascii.eqb Bool.eqb].
    rewrite Hg, Ht. unfold todo_app.get_todo. rewrite Hf.
    unfold todo_app.emoji_ok. rewrite Hh. reflexivity.
  - intros Hl Ht Hh.
    destruct (todo_app_stores_any_status d v t0 t1 self Hl Ht) as (created & Hc & Hs).
    exists created. eexists. split; [exact Hc|]. split; [exact Hs|].
    apply (Hlist _ created).
    + cbn. apply in_app_iff. right. now left.
    + now rewrite Hs.
Qed.

Lemma unhashable_status_breaks_listing_witness :
  todo_app.execute_action (PStr "list") (PDict []) 9 9
    (snd (todo_app.execute_action (PStr "create")
            (PDict [("title", PStr "B"); ("status", PList [PStr "done"])]) 7 8 app_one))
  = (todo_app.Error TypeError,
     snd (todo_app.execute_action (PStr "create")
            (PDict [("title", PStr "B"); ("status", PList [PStr "done"])]) 7 8 app_one)).
Proof.
  apply (proj1 (unhashable_status_breaks_listing [] PNone PNone (PDict []) 9 9 9 9
                  (snd (todo_app.execute_action (PStr "create")
                          (PDict [("title", PStr "B"); ("status", PList [PStr "done"])])
                          7 8 app_one))
                  (todo_app.mkTodo 2 (PStr "B") (PStr "") (PList [PStr "done"]) 7 8))).
  - cbn. right. now left.
  - reflexivity.
Defined.

(** X14.  When the call to the service raises, the request is answered
    with the service's error and the state it was given, and the reply is
    never decoded nor dispatched: whatever [execute_action] would do, it is
    not reached. *)
Theorem service_failure_is_reported
    (generate_content : list database.Todo -> string -> option string)
    (app_generate_content : list todo_app.Todo -> string -> option string)
    (strip : string -> string) (json_loads : string -> option value)
    (user_input : string) (now t0 t1 : Z)
    (s : database.Store) (self : todo_app.TodoApp) :
  (generate_content (database.todos_db s) user_input = None ->
   forall exec,
     simple_gemini_client.process_natural_language_with
       generate_content strip json_loads exec user_input now s
     = (simple_gemini_client.ErrorProcessing ServiceException, s)) /\
  (app_generate_content (todo_app.todos self) user_input = None ->
   todo_app.gemini_model self = true ->
   forall exec,
     todo_app.process_ai_command_with
       app_generate_content strip json_loads exec user_input t0 t1 self
     = (todo_app.Error ServiceException, self)).
Proof.
  split.
  - intros Hg exec. unfold simple_gemini_client.process_natural_language_with.
    cbn [database.get_todos]. now rewrite Hg.
  - intros Hg Hm exec. unfold todo_app.process_ai_command_with. now rewrite Hm, Hg.
Qed.

Lemma service_failure_is_reported_witness :
  simple_gemini_client.process_natural_language_with
    (fun _ _ => None) (fun x => x) (fun _ => Some (PDict []))
    (simple_gemini_client.execute_action strict_str) "add milk" 7 db_one
  = (simple_gemini_client.ErrorProcessing ServiceException, db_one) /\
  todo_app.process_ai_command_with
    (fun _ _ => None) (fun x => x) (fun _ => Some (PDict []))
    todo_app.execute_action "add milk" 7 8 app_one
  = (todo_app.Error ServiceException, app_one).
Proof.
  pose proof (service_failure_is_reported (fun _ _ => None) (fun _ _ => None) (fun x => x)
                (fun _ => Some (PDict [])) "add milk" 7 7 8 db_one app_one) as [Hdb Happ].
  split; [exact (Hdb eq_refl _)|exact (Happ eq_refl eq_refl _)].
Defined.

(** ** The routes of [main.py] *)

Lemma find_todo_None_iff (i : Z) (l : list database.Todo) :
  database.find_todo (PInt i) l = None <-> ~ In i (map database.id l).
Proof.
  split.
  - intros Hf Hin. destruct (database_facts.find_todo_present i l Hin) as [t Ht]. congruence.
  - apply database_facts.find_todo_absent.
Qed.

(** X15.  [GET /todos/{id}] changes nothing; it raises the 404 exactly when
    no stored todo carries the id, and otherwise returns a stored todo with
    that id, in a reachable state the only one. *)
Theorem read_todo_404_iff_absent (s : database.Store) (i : Z) :
  snd (main.read_todo i s) = s /\
  (fst (main.read_todo i s) = main.HTTPException 404 "Todo not found" <->
   ~ In i (map database.id (database.todos_db s))) /\
  (forall t, fst (main.read_todo i s) = main.OK t ->
             In t (database.todos_db s) /\ database.id t = i) /\
  (database.reachable s ->
   forall t, In t (database.todos_db s) -> database.id t = i ->
             fst (main.read_todo i s) = main.OK t).
Proof.
  unfold main.read_todo. cbn [database.get_todo].
  destruct (database.find_todo (PInt i) (database.todos_db s)) as [t|] eqn:Hf; cbn [fst snd].
  - split; [reflexivity|]. split; [|split].
    + split; [discriminate|]. intros Hn. apply find_todo_None_iff in Hn. congruence.
    + intros t' [= <-]. apply database_facts.find_todo_In in Hf as [Hin Hid].
      split; [assumption|]. cbn in Hid. now apply Z.eqb_eq.
    + intros Hr t' Hin Hid. apply database_facts.reachable_wf in Hr as [Hnd _].
      pose proof (database_order.find_todo_unique i _ t' Hnd Hin Hid). congruence.
  - split; [reflexivity|]. split; [|split].
    + split; [intros _; now apply find_todo_None_iff|reflexivity].
    + discriminate.
    + intros Hr t' Hin Hid. apply find_todo_None_iff in Hf. exfalso. apply Hf.
      rewrite <- Hid. now apply in_map.
Qed.

(** X16.  [PUT /todos/{id}] raises the 404 and leaves the store as it was
    when no todo carries the id; otherwise it returns the rewritten todo,
    stamped with the clock reading of the call, and a read of the same id
    right after returns that very todo. *)
Theorem update_endpoint_returns_what_is_stored
    (s : database.Store) (i : Z) (todo : database.TodoUpdate) (now : Z) :
  (~ In i (map database.id (database.todos_db s)) ->
   main.update_todo_endpoint i todo now s = (main.HTTPException 404 "Todo not found", s)) /\
  (In i (map database.id (database.todos_db s)) ->
   exists t,
     fst (main.update_todo_endpoint i todo now s) = main.OK t /\
     database.id t = i /\
     database.updated_at t = now /\
     main.read_todo i (snd (main.update_todo_endpoint i todo now s))
     = (main.OK t, snd (main.update_todo_endpoint i todo now s))).
Proof.
  unfold main.update_todo_endpoint, main.read_todo, database.update_todo.
  cbn [database.get_todo]. split.
  - intros Hn. apply find_todo_None_iff in Hn.
    now rewrite (database_facts.update_loop_None _ _ _ _ Hn).
  - intros Hin. destruct (database_facts.find_todo_present i _ Hin) as [t Hf].
    destruct (database_facts.update_loop_Some _ todo now _ _ Hf) as [l' (-> & Hf' & _)].
    exists (database.apply_update todo now t). cbn. rewrite Hf'.
    apply database_facts.find_todo_In in Hf as [_ Hid]. cbn in Hid.
    apply Z.eqb_eq in Hid. auto.
Qed.

Lemma update_endpoint_returns_what_is_stored_witness :
  main.update_todo_endpoint 9 (database.mkTodoUpdate (Some (Some "X")) None None) 7 db_one
  = (main.HTTPException 404 "Todo not found", db_one) /\
  exists t,
    fst (main.update_todo_endpoint 1 (database.mkTodoUpdate (Some (Some "X")) None None)
           7 db_one) = main.OK t /\
    database.updated_at t = 7.
Proof.
  split.
  - apply (proj1 (update_endpoint_returns_what_is_stored db_one 9
                    (database.mkTodoUpdate (Some (Some "X")) None None) 7)).
    cbn. intros [H|[]]. discriminate.
  - destruct (proj2 (update_endpoint_returns_what_is_stored db_one 1
                       (database.mkTodoUpdate (Some (Some "X")) None None) 7))
      as (t & H1 & _ & H2 & _).
    + cbn. now left.
    + exists t. split; assumption.
Defined.

(** X17.  [DELETE /todos/{id}] raises the 404 exactly when no todo carries
    the id, and then changes nothing.  In a reachable state a delete that
    went through is final: a read of the id and a second delete both raise
    the 404. *)
Theorem delete_endpoint_is_final (s : database.Store) (i : Z) :
  (fst (main.delete_todo_endpoint i s) = main.HTTPException 404 "Todo not found" <->
   ~ In i (map database.id (database.todos_db s))) /\
  (~ In i (map database.id (database.todos_db s)) ->
   snd (main.delete_todo_endpoint i s) = s) /\
  (database.reachable s ->
   In i (map database.id (database.todos_db s)) ->
   fst (main.delete_todo_endpoint i s) = main.OK "Todo deleted successfully" /\
   fst (main.read_todo i (snd (main.delete_todo_endpoint i s)))
   = main.HTTPException 404 "Todo not found" /\
   main.delete_todo_endpoint i (snd (main.delete_todo_endpoint i s))
   = (main.HTTPException 404 "Todo not found", snd (main.delete_todo_endpoint i s))).
Proof.
  unfold main.delete_todo_endpoint, main.read_todo, database.delete_todo.
  cbn [database.get_todo].
  destruct (database.delete_loop (PInt i) (database.todos_db s)) as [l'|] eqn:Hd;
    cbn [negb fst snd].
  - assert (Hin : In i (map database.id (database.todos_db s))).
    { destruct (database.find_todo (PInt i) (database.todos_db s)) as [t|] eqn:Hf.
      - apply database_facts.find_todo_In in Hf as [Hin Hid]. cbn in Hid.
        apply Z.eqb_eq in Hid. rewrite <- Hid. now apply in_map.
      - apply database_facts.delete_loop_None in Hf. congruence. }
    split; [split; [discriminate|contradiction]|]. split; [contradiction|].
    intros Hr _. apply database_facts.reachable_wf in Hr as [Hnd _].
    pose proof (database_facts.delete_loop_gone i _ _ Hnd Hd) as Hgone.
    cbn [database.todos_db]. rewrite Hgone.
    apply database_facts.delete_loop_None in Hgone. rewrite Hgone. auto.
  - apply database_facts.delete_loop_None in Hd. apply find_todo_None_iff in Hd.
    split; [split; auto|]. split; [reflexivity|]. contradiction.
Qed.

Lemma delete_endpoint_is_final_witness :
  fst (main.delete_todo_endpoint 1 db_one) = main.OK "Todo deleted successfully" /\
  fst (main.read_todo 1 (snd (main.delete_todo_endpoint 1 db_one)))
  = main.HTTPException 404 "Todo not found".
Proof.
  destruct (proj2 (proj2 (delete_endpoint_is_final db_one 1)) db_one_reachable)
    as (H1 & H2 & _).
  - cbn. now left.
  - split; assumption.
Defined.

(** X18.  In a reachable state, what [POST /todos] returns is what a read
    of the returned id returns right after, and the listing is the old
    listing with the new todo at its end. *)
Theorem create_endpoint_then_read
    (s : database.Store) (todo : database.TodoCreate) (now : Z) :
  database.reachable s ->
  exists t,
    fst (main.create_todo_endpoint todo now s) = main.OK t /\
    database.id t = database.next_id s /\
    database.title t = Some (database.c_title todo) /\
    main.read_todo (database.id t) (snd (main.create_todo_endpoint todo now s))
    = (main.OK t, snd (main.create_todo_endpoint todo now s)) /\
    fst (main.read_todos (snd (main.create_todo_endpoint todo now s)))
    = main.OK (database.todos_db s ++ [t]).
Proof.
  intros Hr. pose proof (database_facts.create_todo_fresh todo now s Hr) as Hfresh.
  cbn in Hfresh.
  exists (database.mkTodo (database.next_id s) (Some (database.c_title todo))
            (database.c_description todo) (Some (database.c_status todo)) now now).
  unfold main.create_todo_endpoint, main.read_todo, main.read_todos.
  cbn [database.create_todo database.get_todo database.get_todos fst snd
       database.id database.title database.todos_db].
  split; [reflexivity|]. split; [reflexivity|]. split; [reflexivity|].
  rewrite database_order.find_todo_app, (database_facts.find_todo_absent _ _ Hfresh).
  cbn. rewrite Z.eqb_refl. auto.
Qed.

Lemma create_endpoint_then_read_witness :
  exists t,
    fst (main.create_todo_endpoint (database.mkTodoCreate "B" None database.PENDING) 7 db_one)
    = main.OK t /\
    database.id t = 2.
Proof.
  destruct (create_endpoint_then_read db_one
              (database.mkTodoCreate "B" None database.PENDING) 7 db_one_reachable)
    as (t & H1 & H2 & _).
  exists t. split; assumption.
Defined.

(** ** [TodoApp.__init__] and the loops *)

Section LoopFacts.

Variable generate_content : list todo_app.Todo -> string -> option string.
Variable strip : string -> string.
Variable json_loads : string -> option value.
Variables lower : string -> string.
Variable split : string -> list string.
Variable int : string -> option Z.

Let manual_command := todo_app.manual_command lower split int.
Let run_iteration := todo_app.run_iteration generate_content strip json_loads lower split int.
Let run_lines := todo_app.run_lines generate_content strip json_loads lower split int.

(** What a manual command does to the state, by what it prints. *)
Lemma manual_command_shape (user_input : string) (t0 t1 : Z) (self : todo_app.TodoApp) :
  todo_app.gemini_model (snd (manual_command user_input t0 t1 self))
  = todo_app.gemini_model self /\
  match fst (manual_command user_input t0 t1 self) with
  | todo_app.OManual (todo_app.MCreated todo) =>
      todo_app.todos (snd (manual_command user_input t0 t1 self))
      = todo_app.todos self ++ [todo] /\
      todo_app.id todo = todo_app.next_id self /\
      todo_app.description todo = PStr "" /\
      todo_app.status todo = PStr "pending" /\
      todo_app.next_id (snd (manual_command user_input t0 t1 self))
      = todo_app.next_id self + 1
  | todo_app.OManual (todo_app.MUpdated _) =>
      map todo_app.id (todo_app.todos (snd (manual_command user_input t0 t1 self)))
      = map todo_app.id (todo_app.todos self) /\
      todo_app.next_id (snd (manual_command user_input t0 t1 self)) = todo_app.next_id self
  | todo_app.OManual (todo_app.MDeleted _) =>
      S (List.length (todo_app.todos (snd (manual_command user_input t0 t1 self))))
      = List.length (todo_app.todos self) /\
      todo_app.next_id (snd (manual_command user_input t0 t1 self)) = todo_app.next_id self
  | _ => snd (manual_command user_input t0 t1 self) = self
  end.
Proof.
  destruct (manual_command user_input t0 t1 self) as [o self'] eqn:E.
  cbn [fst snd]. subst manual_command. unfold todo_app.manual_command in E.
  dispatch_cases_in E; inversion E; subst; clear E; store_equations;
    repeat match goal with H : _ /\ _ |- _ => destruct H end;
    cbn; auto 7.
Qed.

Lemma manual_command_reachable (user_input : string) (t0 t1 : Z) (self : todo_app.TodoApp) :
  todo_app.reachable self ->
  todo_app.reachable (snd (manual_command user_input t0 t1 self)).
Proof.
  intros H. subst manual_command. unfold todo_app.manual_command.
  dispatch_cases; cbn [snd]; try assumption;
    repeat match goal with
           | E : _ = (_, ?s1) |- todo_app.reachable ?s1 =>
               apply (f_equal snd) in E; cbn [snd] in E; subst s1
           end;
    auto using todo_app_facts.reachable_add_todo, todo_app_facts.app_reachable_update_todo,
      todo_app_facts.app_reachable_delete_todo.
Qed.

(** In manual mode no command touches a description or a status. *)
Lemma manual_command_defaults (user_input : string) (t0 t1 : Z) (self : todo_app.TodoApp) :
  Forall (fun t => todo_app.description t = PStr "" /\ todo_app.status t = PStr "pending")
         (todo_app.todos self) ->
  Forall (fun t => todo_app.description t = PStr "" /\ todo_app.status t = PStr "pending")
         (todo_app.todos (snd (manual_command user_input t0 t1 self))).
Proof.
  intros H. destruct (manual_command user_input t0 t1 self) as [o self'] eqn:E.
  cbn [snd]. subst manual_command. unfold todo_app.manual_command in E.
  dispatch_cases_in E; inversion E; subst; clear E; store_equations;
    try match goal with
        | Hq : todo_app.todos ?a = _ |- context [todo_app.todos ?a] => rewrite Hq
        end;
    try assumption;
    match goal with
    | E : _ /\ _ /\ _ /\ _ /\ (forall P, _ -> Forall P _ -> Forall P _) |- _ =>
        destruct E as (_ & _ & _ & _ & HP); apply HP; [|assumption];
        intros rec Hrec; destruct rec; cbn in *; exact Hrec
    | E : _ /\ _ /\ _ /\ _ /\ (forall x, In x _ -> In x _) |- _ =>
        destruct E as (_ & _ & _ & _ & Hin); apply Forall_forall; intros rec Hrec;
        rewrite Forall_forall in H; auto
    | |- _ =>
        cbn; apply Forall_app; split; [assumption|]; repeat constructor
    end.
Qed.

Lemma run_iteration_manual (line : string) (t0 t1 : Z) (self : todo_app.TodoApp) :
  todo_app.gemini_model self = false ->
  snd (run_iteration line t0 t1 self) = self \/
  snd (run_iteration line t0 t1 self) = snd (manual_command (strip line) t0 t1 self).
Proof.
  intros Hm. subst run_iteration manual_command. unfold todo_app.run_iteration.
  rewrite Hm.
  destruct (existsb _ _); [now left|].
  destruct (String.eqb (lower (strip line)) "help"); [now left|].
  destruct (String.eqb (strip line) ""); [now left|].
  right. destruct (todo_app.manual_command _ _ _ _ _ _ _). reflexivity.
Qed.

Lemma run_iteration_reachable (line : string) (t0 t1 : Z) (self : todo_app.TodoApp) :
  todo_app.reachable self -> todo_app.reachable (snd (run_iteration line t0 t1 self)).
Proof.
  intros H. subst run_iteration. unfold todo_app.run_iteration.
  destruct (existsb _ _); [exact H|].
  destruct (String.eqb (lower (strip line)) "help"); [exact H|].
  destruct (String.eqb (strip line) ""); [exact H|].
  destruct (todo_app.gemini_model self).
  - pose proof (process_ai_command_reachable generate_content strip json_loads
                  (strip line) t0 t1 self H) as Hr.
    destruct (todo_app.process_ai_command _ _ _ _ _ _ _). exact Hr.
  - pose proof (manual_command_reachable (strip line) t0 t1 self H) as Hr.
    subst manual_command. destruct (todo_app.manual_command _ _ _ _ _ _ _). exact Hr.
Qed.

Lemma run_lines_step (line : string) (t0 t1 : Z) (rest : list (string * (Z * Z)))
    (self : todo_app.TodoApp) :
  snd (run_lines ((line, (t0, t1)) :: rest) self) = snd (run_iteration line t0 t1 self) \/
  snd (run_lines ((line, (t0, t1)) :: rest) self)
  = snd (run_lines rest (snd (run_iteration line t0 t1 self))).
Proof.
  subst run_lines run_iteration. cbn [todo_app.run_lines].
  destruct (todo_app.run_iteration _ _ _ _ _ _ line t0 t1 self) as [[o go_on] self1].
  destruct go_on; [right|left; reflexivity].
  cbn [snd]. destruct (todo_app.run_lines _ _ _ _ _ _ rest self1). reflexivity.
Qed.

End LoopFacts.

(** X19.  [TodoApp] has a model exactly when the environment gives a key
    that is neither empty nor the placeholder and the configuration goes
    through; without a model a natural-language request is turned down with
    the not-available message, whatever the service would say, and the
    instance is left as it was. *)
Theorem ai_mode_needs_a_key
    (generate_content : list todo_app.Todo -> string -> option string)
    (strip : string -> string) (json_loads : string -> option value)
    (api_key : option string) (configured : bool)
    (user_input : string) (t0 t1 : Z) (self : todo_app.TodoApp) :
  (todo_app.gemini_model (todo_app.TodoApp_init api_key configured) = true <->
   exists k, api_key = Some k /\ k <> "" /\ k <> "your-api-key-here" /\ configured = true) /\
  todo_app.todos (todo_app.TodoApp_init api_key configured) = [] /\
  todo_app.next_id (todo_app.TodoApp_init api_key configured) = 1 /\
  (todo_app.gemini_model self = false ->
   todo_app.process_ai_command generate_content strip json_loads user_input t0 t1 self
   = (todo_app.GeminiNotAvailable, self)).
Proof.
  split; [|split; [|split]].
  - unfold todo_app.TodoApp_init. destruct api_key as [k|]; cbn.
    + destruct (String.eqb_spec k "") as [->|Hk]; cbn.
      * split; [discriminate|]. intros (k' & [= <-] & Hne & _). now elim Hne.
      * destruct (String.eqb_spec k "your-api-key-here") as [->|Hp]; cbn.
        -- split; [discriminate|]. intros (k' & [= <-] & _ & Hne & _). now elim Hne.
        -- split.
           ++ intros ->. exists k. auto.
           ++ intros (k' & _ & _ & _ & ->). reflexivity.
    + split; [discriminate|]. intros (k & Hk & _). discriminate.
  - unfold todo_app.TodoApp_init. destruct api_key as [k|]; [|reflexivity].
    destruct (_ && _); reflexivity.
  - unfold todo_app.TodoApp_init. destruct api_key as [k|]; [|reflexivity].
    destruct (_ && _); reflexivity.
  - intros Hm. unfold todo_app.process_ai_command, todo_app.process_ai_command_with.
    now rewrite Hm.
Qed.

Lemma ai_mode_needs_a_key_witness :
  todo_app.process_ai_command (fun _ _ => Some "reply") (fun x => x)
    (fun _ => Some (PDict [("action", PStr "list")])) "show my todos" 7 8
    (todo_app.TodoApp_init (Some "your-api-key-here") true)
  = (todo_app.GeminiNotAvailable, todo_app.TodoApp_init (Some "your-api-key-here") true).
Proof.
  exact (proj2 (proj2 (proj2
    (ai_mode_needs_a_key (fun _ _ => Some "reply") (fun x => x)
       (fun _ => Some (PDict [("action", PStr "list")]))
       (Some "your-api-key-here") true "show my todos" 7 8
       (todo_app.TodoApp_init (Some "your-api-key-here") true)))) eq_refl).
Defined.

(** X20.  In manual mode no session of commands changes a status or a
    description: if every todo is pending with an empty description when
    the loop starts, so is every todo the loop leaves, and the loop stays
    in manual mode. *)
Theorem manual_mode_never_changes_status
    (generate_content : list todo_app.Todo -> string -> option string)
    (strip : string -> string) (json_loads : string -> option value)
    (lower : string -> string) (split : string -> list string) (int : string -> option Z)
    (lines : list (string * (Z * Z))) (self : todo_app.TodoApp) :
  todo_app.gemini_model self = false ->
  Forall (fun t => todo_app.description t = PStr "" /\ todo_app.status t = PStr "pending")
         (todo_app.todos self) ->
  todo_app.gemini_model
    (snd (todo_app.run_lines generate_content strip json_loads lower split int lines self))
  = false /\
  Forall (fun t => todo_app.description t = PStr "" /\ todo_app.status t = PStr "pending")
         (todo_app.todos
            (snd (todo_app.run_lines generate_content strip json_loads lower split int
                    lines self))).
Proof.
  revert self. induction lines as [|[line [t0 t1]] rest IH]; intros self Hm HP.
  - cbn. auto.
  - assert (H1 : todo_app.gemini_model
                   (snd (todo_app.run_iteration generate_content strip json_loads lower
                           split int line t0 t1 self)) = false /\
                 Forall (fun t => todo_app.description t = PStr "" /\
                                  todo_app.status t = PStr "pending")
                        (todo_app.todos
                           (snd (todo_app.run_iteration generate_content strip json_loads
                                   lower split int line t0 t1 self)))).
    { destruct (run_iteration_manual generate_content strip json_loads lower split int
                  line t0 t1 self Hm) as [->| ->]; [auto|].
      split.
      - rewrite (proj1 (manual_command_shape lower split int (strip line) t0 t1 self)).
        exact Hm.
      - now apply manual_command_defaults. }
    destruct (run_lines_step generate_content strip json_loads lower split int
                line t0 t1 rest self) as [->| ->]; [exact H1|].
    apply IH; apply H1.
Qed.

Lemma manual_mode_never_changes_status_witness :
  Forall (fun t => todo_app.description t = PStr "" /\ todo_app.status t = PStr "pending")
    (todo_app.todos
       (snd (todo_app.run_lines (fun _ _ => None) (fun x => x) (fun _ => None) (fun x => x)
               (fun _ => ["update"; "1"; "done"]) (fun _ => Some 1)
               [("update 1 done", (7, 8))]
               (todo_app.mkTodoApp
                  [todo_app.mkTodo 1 (PStr "A") (PStr "") (PStr "pending") 5 5] 2 false)))).
Proof.
  apply (manual_mode_never_changes_status (fun _ _ => None) (fun x => x) (fun _ => None)
           (fun x => x) (fun _ => ["update"; "1"; "done"]) (fun _ => Some 1)
           [("update 1 done", (7, 8))]
           (todo_app.mkTodoApp
              [todo_app.mkTodo 1 (PStr "A") (PStr "") (PStr "pending") 5 5] 2 false)).
  - reflexivity.
  - repeat constructor.
Defined.

(** X21.  Whatever the user types, in either mode, and whatever the
    service replies, the loop of [TodoApp.run] started on a new instance
    leaves a state a session of method calls reaches: ids pairwise distinct
    and below the counter. *)
Theorem run_keeps_ids_distinct
    (generate_content : list todo_app.Todo -> string -> option string)
    (strip : string -> string) (json_loads : string -> option value)
    (lower : string -> string) (split : string -> list string) (int : string -> option Z)
    (api_key : option string) (configured : bool) (lines : list (string * (Z * Z))) :
  todo_app.reachable
    (snd (todo_app.run_lines generate_content strip json_loads lower split int lines
            (todo_app.TodoApp_init api_key configured))) /\
  todo_app.wf
    (snd (todo_app.run_lines generate_content strip json_loads lower split int lines
            (todo_app.TodoApp_init api_key configured))).
Proof.
  assert (Hinit : todo_app.reachable (todo_app.TodoApp_init api_key configured)).
  { unfold todo_app.TodoApp_init. destruct api_key as [k|].
    - destruct (_ && _); [exists configured, []|exists false, []]; reflexivity.
    - exists false, []. reflexivity. }
  assert (Hr : forall self, todo_app.reachable self ->
             todo_app.reachable
               (snd (todo_app.run_lines generate_content strip json_loads lower split int
                       lines self))).
  { induction lines as [|[line [t0 t1]] rest IH]; intros self H; [exact H|].
    pose proof (run_iteration_reachable generate_content strip json_loads lower split int
                  line t0 t1 self H) as H1.
    destruct (run_lines_step generate_content strip json_loads lower split int
                line t0 t1 rest self) as [->| ->]; [exact H1|].
    now apply IH. }
  split; [now apply Hr|]. apply todo_app_facts.app_reachable_wf. now apply Hr.
Qed.

(** X22.  In manual mode, in every reachable state, [create] followed by
    words stores a todo titled with those words joined by single spaces,
    pending, with an empty description, under the next id, and [get] with
    that id prints exactly that todo. *)
Theorem manual_create_then_get
    (lower : string -> string) (split : string -> list string) (int : string -> option Z)
    (input input' word w word' a : string) (ws rest : list string)
    (t0 t1 t2 t3 : Z) (self : todo_app.TodoApp) :
  todo_app.reachable self ->
  split input = word :: w :: ws ->
  lower word = "create" ->
  split input' = word' :: a :: rest ->
  lower word' = "get" ->
  int a = Some (todo_app.next_id self) ->
  todo_app.manual_command lower split int input t0 t1 self
  = (todo_app.OManual
       (todo_app.MCreated
          (todo_app.mkTodo (todo_app.next_id self) (PStr (String.concat " " (w :: ws)))
             (PStr "") (PStr "pending") t0 t1)),
     snd (todo_app.manual_command lower split int input t0 t1 self)) /\
  todo_app.manual_command lower split int input' t2 t3
    (snd (todo_app.manual_command lower split int input t0 t1 self))
  = (todo_app.OManual
       (todo_app.MTodo
          (todo_app.mkTodo (todo_app.next_id self) (PStr (String.concat " " (w :: ws)))
             (PStr "") (PStr "pending") t0 t1)),
     snd (todo_app.manual_command lower split int input t0 t1 self)).
Proof.
  intros Hr Hs Hw Hs' Hw' Hi.
  assert (Hc : todo_app.manual_command lower split int input t0 t1 self
               = (todo_app.OManual
                    (todo_app.MCreated
                       (todo_app.mkTodo (todo_app.next_id self)
                          (PStr (String.concat " " (w :: ws))) (PStr "") (PStr "pending")
                          t0 t1)),
                  snd (todo_app.add_todo (PStr (String.concat " " (w :: ws))) (PStr "")
                         (PStr "pending") t0 t1 self))).
  { unfold todo_app.manual_command. rewrite Hs, Hw. reflexivity. }
  rewrite Hc. cbn [snd]. split; [reflexivity|].
  pose proof (todo_app_facts.add_todo_fresh (PStr (String.concat " " (w :: ws))) (PStr "")
                (PStr "pending") t0 t1 self Hr) as Hfresh.
  cbn [todo_app.add_todo todo_app.Todo_init fst snd todo_app.id] in Hfresh |- *.
  unfold todo_app.manual_command. rewrite Hs', Hw', Hi.
  cbn [String.eqb Ascii.eqb Bool.eqb todo_app.get_todo todo_app.todos].
  rewrite todo_app_order.app_find_todo_app,
    (todo_app_facts.app_find_todo_absent _ _ Hfresh).
  cbn. rewrite Z.eqb_refl. reflexivity.
Qed.

Lemma manual_create_then_get_witness :
  todo_app.manual_command (fun x => x)
    (fun s => if (s =? "get 2")%string then ["get"; "2"] else ["create"; "Buy"; "milk"])
    (fun _ => Some 2) "get 2" 9 9
    (snd (todo_app.manual_command (fun x => x)
            (fun s => if (s =? "get 2")%string then ["get"; "2"] else ["create"; "Buy"; "milk"])
            (fun _ => Some 2) "create Buy milk" 7 8 app_one))
  = (todo_app.OManual
       (todo_app.MTodo (todo_app.mkTodo 2 (PStr "Buy milk") (PStr "") (PStr "pending") 7 8)),
     snd (todo_app.manual_command (fun x => x)
            (fun s => if (s =? "get 2")%string then ["get"; "2"] else ["create"; "Buy"; "milk"])
            (fun _ => Some 2) "create Buy milk" 7 8 app_one)).
Proof.
  exact (proj2 (manual_create_then_get (fun x => x)
    (fun s => if (s =? "get 2")%string then ["get"; "2"] else ["create"; "Buy"; "milk"])
    (fun _ => Some 2) "create Buy milk" "get 2" "create" "Buy" "get" "2" ["milk"] []
    7 8 9 9 app_one app_one_reachable eq_refl eq_refl eq_refl eq_refl eq_refl)).
Defined.

(** X23.  In manual mode a pass of the loop changes the state only when it
    prints the success message of a create, an update or a delete, and
    then only as that message says; a usage message, an invalid id, an
    unknown command, help, an empty line or a quit leave the state exactly
    as it was. *)
Theorem manual_changes_come_with_success
    (generate_content : list todo_app.Todo -> string -> option string)
    (strip : string -> string) (json_loads : string -> option value)
    (lower : string -> string) (split : string -> list string) (int : string -> option Z)
    (line : string) (t0 t1 : Z) (self : todo_app.TodoApp) :
  todo_app.gemini_model self = false ->
  match fst (fst (todo_app.run_iteration generate_content strip json_loads lower split int
                    line t0 t1 self)) with
  | todo_app.OManual (todo_app.MCreated todo) =>
      todo_app.todos (snd (todo_app.run_iteration generate_content strip json_loads lower
                             split int line t0 t1 self))
      = todo_app.todos self ++ [todo] /\
      todo_app.id todo = todo_app.next_id self
  | todo_app.OManual (todo_app.MUpdated _) =>
      map todo_app.id
          (todo_app.todos (snd (todo_app.run_iteration generate_content strip json_loads
                                  lower split int line t0 t1 self)))
      = map todo_app.id (todo_app.todos self)
  | todo_app.OManual (todo_app.MDeleted _) =>
      S (List.length
           (todo_app.todos (snd (todo_app.run_iteration generate_content strip json_loads
                                   lower split int line t0 t1 self))))
      = List.length (todo_app.todos self)
  | _ =>
      snd (todo_app.run_iteration generate_content strip json_loads lower split int
             line t0 t1 self) = self
  end.
Proof.
  intros Hm. unfold todo_app.run_iteration. rewrite Hm.
  destruct (existsb _ _); [reflexivity|].
  destruct (String.eqb (lower (strip line)) "help"); [reflexivity|].
  destruct (String.eqb (strip line) ""); [reflexivity|].
  pose proof (manual_command_shape lower split int (strip line) t0 t1 self) as [_ H].
  destruct (todo_app.manual_command lower split int (strip line) t0 t1 self) as [o self1].
  cbn [fst snd] in *. destruct o as [| | | |r| |]; try exact H.
  destruct r; try exact H; tauto.
Qed.

Lemma manual_changes_come_with_success_witness :
  snd (todo_app.run_iteration (fun _ _ => None) (fun x => x) (fun _ => None) (fun x => x)
         (fun _ => ["delete"; "one"]) (fun _ => None) "delete one" 7 8
         (todo_app.mkTodoApp
            [todo_app.mkTodo 1 (PStr "A") (PStr "") (PStr "pending") 5 5] 2 false))
  = todo_app.mkTodoApp [todo_app.mkTodo 1 (PStr "A") (PStr "") (PStr "pending") 5 5] 2 false.
Proof.
  exact (manual_changes_come_with_success (fun _ _ => None) (fun x => x) (fun _ => None)
           (fun x => x) (fun _ => ["delete"; "one"]) (fun _ => None) "delete one" 7 8
           (todo_app.mkTodoApp
              [todo_app.mkTodo 1 (PStr "A") (PStr "") (PStr "pending") 5 5] 2 false)
           eq_refl).
Defined.

(** X24.  Both loops end at the first line that reads quit, exit or q once
    stripped and lowered: that line prints the goodbye and changes nothing,
    and no line after it is processed. *)
Theorem nothing_runs_after_quit
    (generate_content : list database.Todo -> string -> option string)
    (app_generate_content : list todo_app.Todo -> string -> option string)
    (strip : string -> string) (json_loads : string -> option value)
    (coerce_str : value -> option string)
    (lower : string -> string) (split : string -> list string) (int : string -> option Z)
    (q : string) (now t0 t1 : Z)
    (before after : list (string * Z)) (app_before app_after : list (string * (Z * Z)))
    (s : database.Store) (self : todo_app.TodoApp) :
  In (lower (strip q)) ["quit"; "exit"; "q"] ->
  simple_gemini_client.interactive_iteration generate_content strip json_loads coerce_str
    lower q now s = (simple_gemini_client.Goodbye, false, s) /\
  simple_gemini_client.interactive_lines generate_content strip json_loads coerce_str lower
    (before ++ (q, now) :: after) s
  = simple_gemini_client.interactive_lines generate_content strip json_loads coerce_str lower
      (before ++ [(q, now)]) s /\
  todo_app.run_iteration app_generate_content strip json_loads lower split int q t0 t1 self
  = (todo_app.OGoodbye, false, self) /\
  todo_app.run_lines app_generate_content strip json_loads lower split int
    (app_before ++ (q, (t0, t1)) :: app_after) self
  = todo_app.run_lines app_generate_content strip json_loads lower split int
      (app_before ++ [(q, (t0, t1))]) self.
Proof.
  intros Hq.
  assert (He : existsb (String.eqb (lower (strip q))) ["quit"; "exit"; "q"] = true).
  { apply existsb_exists. exists (lower (strip q)). split; [exact Hq|apply String.eqb_refl]. }
  assert (H1 : forall s',
             simple_gemini_client.interactive_iteration generate_content strip json_loads
               coerce_str lower q now s' = (simple_gemini_client.Goodbye, false, s')).
  { intros s'. unfold simple_gemini_client.interactive_iteration. now rewrite He. }
  assert (H2 : forall self',
             todo_app.run_iteration app_generate_content strip json_loads lower split int
               q t0 t1 self' = (todo_app.OGoodbye, false, self')).
  { intros self'. unfold todo_app.run_iteration. now rewrite He. }
  split; [apply H1|]. split; [|split; [apply H2|]].
  - revert s. induction before as [|[line n] before IH]; intros s.
    + cbn [app simple_gemini_client.interactive_lines]. now rewrite H1.
    + cbn [app simple_gemini_client.interactive_lines].
      destruct (simple_gemini_client.interactive_iteration _ _ _ _ _ line n s)
        as [[o go_on] s1].
      destruct go_on; [|reflexivity]. now rewrite IH.
  - revert self. induction app_before as [|[line [u0 u1]] app_before IH]; intros self.
    + cbn [app todo_app.run_lines]. now rewrite H2.
    + cbn [app todo_app.run_lines].
      destruct (todo_app.run_iteration _ _ _ _ _ _ line u0 u1 self) as [[o go_on] self1].
      destruct go_on; [|reflexivity]. now rewrite IH.
Qed.

Lemma nothing_runs_after_quit_witness :
  todo_app.run_lines (fun _ _ => None) (fun x => x) (fun _ => None) (fun x => x)
    (fun _ => ["create"; "B"]) (fun _ => None)
    [("create B", (7, 8)); ("quit", (9, 9)); ("create C", (10, 11))] app_empty_manual
  = todo_app.run_lines (fun _ _ => None) (fun x => x) (fun _ => None) (fun x => x)
      (fun _ => ["create"; "B"]) (fun _ => None)
      [("create B", (7, 8)); ("quit", (9, 9))] app_empty_manual.
Proof.
  exact (proj2 (proj2 (proj2
    (nothing_runs_after_quit (fun _ _ => None) (fun _ _ => None) (fun x => x) (fun _ => None)
       strict_str (fun x => x) (fun _ => ["create"; "B"]) (fun _ => None)
       "quit" 9 9 9 [] [] [("create B", (7, 8))] [("create C", (10, 11))]
       db_one app_empty_manual ltac:(cbn; auto))))).
Defined.

(** X25.  Over a whole interactive session of [SimpleGeminiClient] on the
    initial store, whatever is typed and whatever the service replies, the
    store stays one a session of store calls reaches: ids are pairwise
    distinct and below the counter, and every todo has a status of the
    enum. *)
Theorem interactive_session_invariants
    (generate_content : list database.Todo -> string -> option string)
    (strip : string -> string) (json_loads : string -> option value)
    (coerce_str : value -> option string) (lower : string -> string)
    (lines : list (string * Z)) :
  database.reachable
    (snd (simple_gemini_client.interactive_lines generate_content strip json_loads
            coerce_str lower lines database.init)) /\
  database.wf
    (snd (simple_gemini_client.interactive_lines generate_content strip json_loads
            coerce_str lower lines database.init)) /\
  Forall (fun t => database.status t <> None)
    (database.todos_db
       (snd (simple_gemini_client.interactive_lines generate_content strip json_loads
               coerce_str lower lines database.init))).
Proof.
  assert (Hstep : forall line now s,
             database.reachable s /\
             Forall (fun t => database.status t <> None) (database.todos_db s) ->
             database.reachable
               (snd (simple_gemini_client.interactive_iteration generate_content strip
                       json_loads coerce_str lower line now s)) /\
             Forall (fun t => database.status t <> None)
               (database.todos_db
                  (snd (simple_gemini_client.interactive_iteration generate_content strip
                          json_loads coerce_str lower line now s)))).
  { intros line now s [Hr Hs]. unfold simple_gemini_client.interactive_iteration.
    destruct (existsb _ _); [auto|].
    destruct (String.eqb (lower (strip line)) "help"); [auto|].
    destruct (String.eqb (strip line) ""); [auto|].
    pose proof (process_natural_language_reachable generate_content strip json_loads
                  coerce_str (strip line) now s Hr) as Hr1.
    assert (Hs1 : Forall (fun t => database.status t <> None)
                    (database.todos_db
                       (snd (simple_gemini_client.process_natural_language generate_content
                               strip json_loads coerce_str (strip line) now s)))).
    { unfold simple_gemini_client.process_natural_language,
        simple_gemini_client.process_natural_language_with.
      cbn [database.get_todos].
      destruct (generate_content (database.todos_db s) (strip line)) as [text|];
        [|exact Hs].
      destruct (json_loads (strip text)) as [[| | | | | |d]|]; try exact Hs.
      now apply execute_action_status. }
    destruct (simple_gemini_client.process_natural_language _ _ _ _ _ _ _). auto. }
  assert (Hall : forall s,
             database.reachable s /\
             Forall (fun t => database.status t <> None) (database.todos_db s) ->
             database.reachable
               (snd (simple_gemini_client.interactive_lines generate_content strip
                       json_loads coerce_str lower lines s)) /\
             Forall (fun t => database.status t <> None)
               (database.todos_db
                  (snd (simple_gemini_client.interactive_lines generate_content strip
                          json_loads coerce_str lower lines s)))).
  { induction lines as [|[line now] rest IH]; intros s H; [exact H|].
    cbn [simple_gemini_client.interactive_lines].
    pose proof (Hstep line now s H) as H1.
    destruct (simple_gemini_client.interactive_iteration _ _ _ _ _ line now s)
      as [[o go_on] s1].
    cbn [snd] in H1. destruct go_on; [|exact H1].
    specialize (IH s1 H1).
    destruct (simple_gemini_client.interactive_lines _ _ _ _ _ rest s1). exact IH. }
  destruct (Hall database.init) as [Hr Hs].
  { split; [exists []; reflexivity|constructor]. }
  split; [exact Hr|]. split; [now apply database_facts.reachable_wf|exact Hs].
Qed.

(** X26.  An update does not apply the title check of a create.  In
    [SimpleGeminiClient] an update whose title is null goes through and
    the stored title becomes [None]; in [TodoApp] an update whose title is
    empty reports success, keeps the old title and still refreshes
    [updated_at]. *)
Theorem update_skips_the_title_check
    (coerce_str : value -> option string)
    (d : list (string * value)) (i : Z) (now t0 t1 : Z)
    (s : database.Store) (self : todo_app.TodoApp)
    (t : database.Todo) (a : todo_app.Todo) :
  i <> 0 ->
  lookup "description" d = None ->
  lookup "status" d = None ->
  (lookup "todo_id" d = Some (PInt i) ->
   lookup "title" d = Some PNone ->
   database.find_todo (PInt i) (database.todos_db s) = Some t ->
   fst (simple_gemini_client.execute_action coerce_str (PStr "update_todo") (PDict d) now s)
   = simple_gemini_client.UpdatedTodo
       (database.mkTodo (database.id t) None (database.description t) (database.status t)
          (database.created_at t) now) /\
   fst (database.get_todo (PInt i)
          (snd (simple_gemini_client.execute_action coerce_str (PStr "update_todo")
                  (PDict d) now s)))
   = Some (database.mkTodo (database.id t) None (database.description t) (database.status t)
             (database.created_at t) now)) /\
  (lookup "id" d = Some (PInt i) ->
   lookup "title" d = Some (PStr "") ->
   todo_app.find_todo (PInt i) (todo_app.todos self) = Some a ->
   fst (todo_app.execute_action (PStr "update") (PDict d) t0 t1 self)
   = todo_app.Updated (PInt i) /\
   fst (todo_app.get_todo (PInt i)
          (snd (todo_app.execute_action (PStr "update") (PDict d) t0 t1 self)))
   = Some (todo_app.mkTodo (todo_app.id a) (todo_app.title a) (todo_app.description a)
             (todo_app.status a) (todo_app.created_at a) t0)).
Proof.
  intros Hi Hde Hst.
  assert (Htr : truthy (PInt i) = true).
  { cbn. destruct (Z.eqb_spec i 0); [contradiction|reflexivity]. }
  split.
  - intros Hid Hti Hf.
    assert (Hg : get d "todo_id" = PInt i) by (unfold get; now rewrite Hid).
    destruct (database_facts.update_loop_Some _
                (database.mkTodoUpdate (Some None) None None) now _ _ Hf)
      as [l' (Hu & Hf' & _)].
    unfold simple_gemini_client.execute_action.
    cbn [eq_str String.eqb Ascii.eqb Bool.eqb].
    rewrite Hg, Htr. cbn [negb].
    unfold simple_gemini_client.update_status, simple_gemini_client.update_field.
    rewrite Hst, Hti, Hde. cbn [simple_gemini_client.validate_optional_str].
    unfold database.update_todo. rewrite Hu. cbn [fst snd database.get_todo database.todos_db].
    rewrite Hf'. split; reflexivity.
  - intros Hid Hti Ha.
    assert (Hg : get d "id" = PInt i) by (unfold get; now rewrite Hid).
    assert (Hgt : get d "title" = PStr "") by (unfold get; now rewrite Hti).
    assert (Hgd : get d "description" = PNone) by (unfold get; now rewrite Hde).
    assert (Hgs : get d "status" = PNone) by (unfold get; now rewrite Hst).
    destruct (todo_app_facts.assign_first_Some (PInt i)
                (todo_app.assign (PStr "") PNone PNone t0) _ _
                (todo_app_facts.assign_id _ _ _ _) Ha) as (Hf' & _).
    unfold todo_app.execute_action.
    cbn [eq_str String.eqb Ascii.eqb Bool.eqb].
    rewrite Hg, Htr, Hgt, Hgd, Hgs. cbn [negb].
    unfold todo_app.update_todo. cbn [todo_app.get_todo]. rewrite Ha.
    cbn [fst snd todo_app.get_todo todo_app.todos]. rewrite Hf'.
    split; [reflexivity|]. destruct a. reflexivity.
Qed.

Lemma update_skips_the_title_check_witness :
  fst (simple_gemini_client.execute_action strict_str (PStr "update_todo")
         (PDict [("todo_id", PInt 1); ("title", PNone)]) 9 db_one)
  = simple_gemini_client.UpdatedTodo
      (database.mkTodo 1 None None (Some database.PENDING) 5 9) /\
  fst (todo_app.execute_action (PStr "update")
         (PDict [("id", PInt 1); ("title", PStr "")]) 9 9 app_one)
  = todo_app.Updated (PInt 1).
Proof.
  split.
  - exact (proj1 (proj1 (update_skips_the_title_check strict_str
      [("todo_id", PInt 1); ("title", PNone)] 1 9 9 9 db_one app_one
      (database.mkTodo 1 (Some "A") None (Some database.PENDING) 5 5)
      (todo_app.mkTodo 1 (PStr "A") (PStr "") (PStr "pending") 5 5)
      ltac:(discriminate) eq_refl eq_refl) eq_refl eq_refl eq_refl)).
  - exact (proj1 (proj2 (update_skips_the_title_check strict_str
      [("id", PInt 1); ("title", PStr "")] 1 9 9 9 db_one app_one
      (database.mkTodo 1 (Some "A") None (Some database.PENDING) 5 5)
      (todo_app.mkTodo 1 (PStr "A") (PStr "") (PStr "pending") 5 5)
      ltac:(discriminate) eq_refl eq_refl) eq_refl eq_refl eq_refl)).
Defined.
